(** * Record browser and gateway adapters of App-precios-combustibles-PE

    A shallow embedding of [static/script.js] (the paginated, filterable
    price table) and of the two serverless adapters ([api/api.js] and the
    Mangum wrapper), with the properties of the written specification
    stated and proved over it.

    Conventions of the embedding:
    - JavaScript strings are [string]; a character stands for one code unit
      below U+0100.
    - Page numbers and item counts are integers, so JavaScript numbers are
      [Z] wherever the script computes with them.
    - The script's closure variables and the part of the DOM it touches form
      one explicit state, threaded through a state-and-exception monad. *)

From Stdlib Require Import ZArith Lia List String Ascii Bool.
From Stdlib Require Import Decimal DecimalString DecimalPos.
From Stdlib Require Import Permutation Sorted.
From stdpp Require Import base option gmap strings.
Import ListNotations.

Local Open Scope string_scope.
Local Open Scope list_scope.
Local Open Scope Z_scope.

(** ** JavaScript primitives *)

Module JS.

(** Truthiness of a string: only the empty string is falsy. *)
Definition truthy (s : string) : bool :=
  match s with EmptyString => false | String _ _ => true end.

(** A property that may be missing ([undefined]) or hold a string. *)
Definition truthy_opt (v : option string) : bool :=
  match v with Some s => truthy s | None => false end.

(** [v || ''] *)
Definition or_empty (v : option string) : string :=
  match v with
  | Some s => if truthy s then s else EmptyString
  | None => EmptyString
  end.

(** [String(n)] for an integer [n]. *)
Definition Number_toString (n : Z) : string :=
  NilZero.string_of_int (Z.to_int n).

(** [String(v)] for a value that is a string or [undefined]. *)
Definition ToString (v : option string) : string :=
  match v with Some s => s | None => "undefined" end.

(** White space skipped by [parseInt] (tab, line feed, vertical tab, form
    feed, carriage return, space, no-break space). *)
Definition is_white_space (c : ascii) : bool :=
  let n := N_of_ascii c in
  (N.eqb n 9 || N.eqb n 10 || N.eqb n 11 || N.eqb n 12 || N.eqb n 13
   || N.eqb n 32 || N.eqb n 160)%bool.

Fixpoint trim_start (s : string) : string :=
  match s with
  | String c s' => if is_white_space c then trim_start s' else s
  | EmptyString => s
  end.

(** Value of a character read as a digit (bases up to 36). *)
Definition digit_value (c : ascii) : option Z :=
  let n := Z.of_N (N_of_ascii c) in
  if (48 <=? n) && (n <=? 57) then Some (n - 48)
  else if (97 <=? n) && (n <=? 122) then Some (n - 87)
  else if (65 <=? n) && (n <=? 90) then Some (n - 55)
  else None.

(** Value of the longest prefix of radix-[R] digits; [None] when that prefix
    is empty and nothing was read before. *)
Fixpoint parse_digits (R : Z) (s : string) (acc : option Z) : option Z :=
  match s with
  | String c s' =>
      match digit_value c with
      | Some d =>
          if d <? R
          then parse_digits R s'
                 (Some (match acc with Some a => a * R + d | None => d end))
          else acc
      | None => acc
      end
  | EmptyString => acc
  end.

(** [parseInt(input)] with no radix argument; [None] is [NaN]. *)
Definition parseInt (input : string) : option Z :=
  let trimmed := trim_start input in
  let '(sign, unsigned) :=
    match trimmed with
    | String "-" r => (-1, r)
    | String "+" r => (1, r)
    | _ => (1, trimmed)
    end in
  let '(R, digits) :=
    match unsigned with
    | String "0" (String "x" r) => (16, r)
    | String "0" (String "X" r) => (16, r)
    | _ => (10, unsigned)
    end in
  (fun m => sign * m) <$> parse_digits R digits None.

(** [Math.ceil(n / d)] for integers [n] and [d > 0]. *)
Definition ceil_div (n d : Z) : Z := (n + d - 1) / d.

(** [arr.slice(start, end)], negative indices counting from the end. *)
Definition slice {A} (arr : list A) (start end_ : Z) : list A :=
  let len := Z.of_nat (length arr) in
  let k := if start <? 0 then Z.max (len + start) 0 else Z.min start len in
  let final := if end_ <? 0 then Z.max (len + end_) 0 else Z.min end_ len in
  firstn (Z.to_nat (final - k)) (skipn (Z.to_nat k) arr).

(** [strs.join('')] *)
Definition join (strs : list string) : string :=
  fold_right String.append EmptyString strs.

End JS.



(** ** Data model *)

(** One price-registration record as the endpoint returns it. A property
    that is missing or [null] is [None]; a present one carries its text. *)
Record PriceRecord := {
  FCHA_REGISTRO : option string;
  DEPARTAMENTO : option string;
  PROVINCIA : option string;
  DISTRITO : option string;
  DIRECCION : option string;
  RAZON_SOCIAL : option string;
  TIPO_ESTABLECIMIENTO : option string;
  PRODUCTO : option string;
  PRECIO_VENTA : option string;
  UNIDAD_MEDIDA : option string
}.

(** One [<li class="page-item ..."><a class="page-link" ...>] entry of the
    pagination container. [data_page] is the anchor's [data-page] attribute;
    the anchor has [href="#"] exactly when it has a [data-page]. *)
Record PageItem := {
  li_class : string;
  data_page : option string;
  text : string
}.

(** A [<select>]: its options as (text, value) pairs and what reading
    [select.value] yields. *)
Record Select := {
  sel_options : list (string * string);
  sel_value : string
}.

Inductive Exn :=
| TypeError (msg : string)
| Error (msg : string)
| FetchRejected
| SyntaxError.

(** What the script does to the world outside the DOM. *)
Inductive Effect :=
| Fetch (url : string)
| ConsoleError (e : Exn)
| Alert (msg : string).

(** What [await fetch(url)] and [await response.json()] produce: a rejected
    promise, or a response with its [ok] flag whose body parses to an array
    of records ([Some]) or fails to parse ([None]). *)
Inductive Response :=
| NetworkError
| HttpResponse (ok : bool) (json : option (list PriceRecord)).

(** The closure variables of the [DOMContentLoaded] callback, the elements
    the script looks up ([None] when the document has no such element), and
    the log of outside effects, oldest first. *)
Record Page := {
  currentData : list PriceRecord;
  currentPage : Z;
  totalPages : Z;
  loadingOverlay_d_none : bool;
  tbody : option string;
  pagination : option (list PageItem);
  pagination_info : option string;
  departamento : option Select;
  provincia : option Select;
  distrito : option Select;
  tipoEstablecimiento : option Select;
  effects : list Effect
}.

Definition itemsPerPage : Z := 10.

Section Setters.
Variable s : Page.

Definition set_currentData v := {|
  currentData := v; currentPage := currentPage s; totalPages := totalPages s;
  loadingOverlay_d_none := loadingOverlay_d_none s; tbody := tbody s;
  pagination := pagination s; pagination_info := pagination_info s;
  departamento := departamento s; provincia := provincia s;
  distrito := distrito s; tipoEstablecimiento := tipoEstablecimiento s;
  effects := effects s |}.

Definition set_currentPage v := {|
  currentData := currentData s; currentPage := v; totalPages := totalPages s;
  loadingOverlay_d_none := loadingOverlay_d_none s; tbody := tbody s;
  pagination := pagination s; pagination_info := pagination_info s;
  departamento := departamento s; provincia := provincia s;
  distrito := distrito s; tipoEstablecimiento := tipoEstablecimiento s;
  effects := effects s |}.

Definition set_totalPages v := {|
  currentData := currentData s; currentPage := currentPage s; totalPages := v;
  loadingOverlay_d_none := loadingOverlay_d_none s; tbody := tbody s;
  pagination := pagination s; pagination_info := pagination_info s;
  departamento := departamento s; provincia := provincia s;
  distrito := distrito s; tipoEstablecimiento := tipoEstablecimiento s;
  effects := effects s |}.

Definition set_loadingOverlay_d_none v := {|
  currentData := currentData s; currentPage := currentPage s;
  totalPages := totalPages s;
  loadingOverlay_d_none := v; tbody := tbody s;
  pagination := pagination s; pagination_info := pagination_info s;
  departamento := departamento s; provincia := provincia s;
  distrito := distrito s; tipoEstablecimiento := tipoEstablecimiento s;
  effects := effects s |}.

Definition set_tbody v := {|
  currentData := currentData s; currentPage := currentPage s;
  totalPages := totalPages s;
  loadingOverlay_d_none := loadingOverlay_d_none s; tbody := v;
  pagination := pagination s; pagination_info := pagination_info s;
  departamento := departamento s; provincia := provincia s;
  distrito := distrito s; tipoEstablecimiento := tipoEstablecimiento s;
  effects := effects s |}.

Definition set_pagination v := {|
  currentData := currentData s; currentPage := currentPage s;
  totalPages := totalPages s;
  loadingOverlay_d_none := loadingOverlay_d_none s; tbody := tbody s;
  pagination := v; pagination_info := pagination_info s;
  departamento := departamento s; provincia := provincia s;
  distrito := distrito s; tipoEstablecimiento := tipoEstablecimiento s;
  effects := effects s |}.

Definition set_pagination_info v := {|
  currentData := currentData s; currentPage := currentPage s;
  totalPages := totalPages s;
  loadingOverlay_d_none := loadingOverlay_d_none s; tbody := tbody s;
  pagination := pagination s; pagination_info := v;
  departamento := departamento s; provincia := provincia s;
  distrito := distrito s; tipoEstablecimiento := tipoEstablecimiento s;
  effects := effects s |}.

Definition set_selects d p t e := {|
  currentData := currentData s; currentPage := currentPage s;
  totalPages := totalPages s;
  loadingOverlay_d_none := loadingOverlay_d_none s; tbody := tbody s;
  pagination := pagination s; pagination_info := pagination_info s;
  departamento := d; provincia := p; distrito := t; tipoEstablecimiento := e;
  effects := effects s |}.

Definition set_effects v := {|
  currentData := currentData s; currentPage := currentPage s;
  totalPages := totalPages s;
  loadingOverlay_d_none := loadingOverlay_d_none s; tbody := tbody s;
  pagination := pagination s; pagination_info := pagination_info s;
  departamento := departamento s; provincia := provincia s;
  distrito := distrito s; tipoEstablecimiento := tipoEstablecimiento s;
  effects := v |}.
End Setters.

(** ** The monad of the script: state plus JavaScript exceptions.

    A thrown exception keeps every assignment made before the [throw]. *)

Inductive Completion (A : Type) :=
| Normal (a : A)
| Throw (e : Exn).
Arguments Normal {A} a.
Arguments Throw {A} e.

Definition JSM (A : Type) : Type := Page -> Completion A * Page.

#[global] Instance JSM_ret : MRet JSM := fun A a s => (Normal a, s).

#[global] Instance JSM_bind : MBind JSM := fun A B f m s =>
  match m s with
  | (Normal a, s') => f a s'
  | (Throw e, s') => (Throw e, s')
  end.

#[global] Instance JSM_throw : MThrow Exn JSM := fun A e s => (Throw e, s).

Definition gets {A} (f : Page -> A) : JSM A := fun s => (Normal (f s), s).
Definition modify (f : Page -> Page) : JSM unit := fun s => (Normal tt, f s).

(** [try { body } catch (error) { handler }] *)
Definition try_catch {A} (body : JSM A) (handler : Exn -> JSM A) : JSM A :=
  fun s =>
    match body s with
    | (Normal a, s') => (Normal a, s')
    | (Throw e, s') => handler e s'
    end.

(** [try { body } finally { cleanup }] *)
Definition try_finally {A} (body : JSM A) (cleanup : JSM unit) : JSM A :=
  fun s =>
    let '(c, s') := body s in
    match cleanup s' with
    | (Normal _, s'') => (c, s'')
    | (Throw e, s'') => (Throw e, s'')
    end.

Definition emit (e : Effect) : JSM unit :=
  modify (fun s => set_effects s (effects s ++ [e])).

(** ** Markup the script writes *)

Definition dq : string := String "034"%char EmptyString.
Definition nl : string := String "010"%char EmptyString.
Definition indent8 : string := "        ".
Definition indent12 : string := "            ".
Definition indent16 : string := "                ".

(** One line [<td>${v || ''}</td>] of the row template. *)
Definition td (v : option string) : string :=
  indent16 +:+ "<td>" +:+ JS.or_empty v +:+ "</td>" +:+ nl.

(** The template literal of [renderTable] for one record. *)
Definition row_html (item : PriceRecord) : string :=
  nl +:+ indent12 +:+ "<tr>" +:+ nl
  +:+ td (FCHA_REGISTRO item)
  +:+ td (DEPARTAMENTO item)
  +:+ td (PROVINCIA item)
  +:+ td (DISTRITO item)
  +:+ td (DIRECCION item)
  +:+ td (RAZON_SOCIAL item)
  +:+ td (TIPO_ESTABLECIMIENTO item)
  +:+ td (PRODUCTO item)
  +:+ td (PRECIO_VENTA item)
  +:+ td (UNIDAD_MEDIDA item)
  +:+ indent12 +:+ "</tr>" +:+ nl +:+ indent8.

(** The markup of one pagination entry, as [updatePagination] spells it. *)
Definition li_html (it : PageItem) : string :=
  "<li class=" +:+ dq +:+ "page-item " +:+ li_class it +:+ dq
  +:+ "><a class=" +:+ dq +:+ "page-link" +:+ dq
  +:+ match data_page it with
      | Some n => " href=" +:+ dq +:+ "#" +:+ dq
                  +:+ " data-page=" +:+ dq +:+ n +:+ dq
      | None => EmptyString
      end
  +:+ ">" +:+ text it +:+ "</a></li>".

(** The three kinds of entry. *)
Definition nav_link (disabled : bool) (target : Z) (label : string) : PageItem :=
  {| li_class := if disabled then "disabled" else EmptyString;
     data_page := Some (JS.Number_toString target);
     text := label |}.

Definition number_link (active : bool) (i : Z) : PageItem :=
  {| li_class := if active then "active" else EmptyString;
     data_page := Some (JS.Number_toString i);
     text := JS.Number_toString i |}.

Definition ellipsis : PageItem :=
  {| li_class := "disabled"; data_page := None; text := "..." |}.

(** ** Pagination *)

Definition showLoading : JSM unit := modify (fun s => set_loadingOverlay_d_none s false).
Definition hideLoading : JSM unit := modify (fun s => set_loadingOverlay_d_none s true).

(** What one iteration of the [for] loop appends for page [i]. *)
Definition page_entry (currentPage totalPages i : Z) : list PageItem :=
  if (i =? 1) || (i =? totalPages)
     || ((currentPage - 2 <=? i) && (i <=? currentPage + 2))
  then [number_link (i =? currentPage) i]
  else if (i =? currentPage - 3) || (i =? currentPage + 3)
  then [ellipsis]
  else [].

(** [for (let i = ...; i <= totalPages; i++)], with [fuel] iterations left. *)
Fixpoint page_loop (currentPage totalPages : Z) (fuel : nat) (i : Z) : list PageItem :=
  match fuel with
  | O => []
  | S fuel' =>
      page_entry currentPage totalPages i
      ++ page_loop currentPage totalPages fuel' (i + 1)
  end.

(** The entries between "Anterior" and "Siguiente". *)
Definition page_number_items (currentPage totalPages : Z) : list PageItem :=
  page_loop currentPage totalPages (Z.to_nat totalPages) 1.

(** The two entries around them. *)
Definition anterior (currentPage : Z) : PageItem :=
  nav_link (currentPage =? 1) (currentPage - 1) "Anterior".

Definition siguiente (currentPage totalPages : Z) : PageItem :=
  nav_link (currentPage =? totalPages) (currentPage + 1) "Siguiente".

Definition pagination_items (currentPage totalPages : Z) : list PageItem :=
  [anterior currentPage]
  ++ page_number_items currentPage totalPages
  ++ [siguiente currentPage totalPages].

(** The string assigned to [paginationContainer.innerHTML]. *)
Definition paginationHTML (currentPage totalPages : Z) : string :=
  JS.join (map li_html (pagination_items currentPage totalPages)).

Definition pagination_info_text (currentPage len : Z) : string :=
  let startItem := (currentPage - 1) * itemsPerPage + 1 in
  let endItem := Z.min (currentPage * itemsPerPage) len in
  "Mostrando " +:+ JS.Number_toString startItem +:+ " a "
  +:+ JS.Number_toString endItem +:+ " de " +:+ JS.Number_toString len
  +:+ " registros".

(** [paginationInfo.textContent = ...]: a [TypeError] when the element is
    [null]. *)
Definition set_paginationInfo_textContent (v : string) : JSM unit :=
  paginationInfo ← gets pagination_info;
  match paginationInfo with
  | None => mthrow (TypeError "Cannot set properties of null (setting 'textContent')")
  | Some _ => modify (fun s => set_pagination_info s (Some v))
  end.

(** [updatePagination]. The entries stored in [pagination] are the elements
    the browser builds from [paginationHTML]; each anchor among them carries
    the click listener [page_link_click] below. *)
Definition updatePagination : JSM unit :=
  paginationContainer ← gets pagination;
  data ← gets currentData;
  if negb (bool_decide (is_Some paginationContainer))
     || (Z.of_nat (length data) =? 0)
  then mret tt
  else
    modify (fun s => set_totalPages s (JS.ceil_div (Z.of_nat (length data)) itemsPerPage));;
    page ← gets currentPage;
    total ← gets totalPages;
    set_paginationInfo_textContent (pagination_info_text page (Z.of_nat (length data)));;
    modify (fun s => set_pagination s (Some (pagination_items page total))).

(** [renderTable] *)
Definition renderTable : JSM unit :=
  tableBody ← gets tbody;
  if negb (bool_decide (is_Some tableBody)) then mret tt
  else
    page ← gets currentPage;
    data ← gets currentData;
    let start := (page - 1) * itemsPerPage in
    let end_ := start + itemsPerPage in
    let pageData := JS.slice data start end_ in
    modify (fun s => set_tbody s (Some (JS.join (map row_html pageData)))).

(** The click listener of a [.page-link]; [target] is the clicked anchor. *)
Definition page_link_click (target : PageItem) : JSM unit :=
  let newPage := JS.parseInt (JS.ToString (data_page target)) in
  total ← gets totalPages;
  match newPage with
  | Some n =>
      if (0 <? n) && (n <=? total)
      then modify (fun s => set_currentPage s n);;
           renderTable;;
           updatePagination
      else mret tt
  | None => mret tt
  end.

(** ** The query string *)

Module URLSearchParams.

(** UTF-8 bytes of one code unit below U+0100. *)
Definition utf8 (c : ascii) : list N :=
  let n := N_of_ascii c in
  if (n <? 128)%N then [n] else [192 + n / 64; 128 + n mod 64]%N.

Definition hex_digit (n : N) : ascii :=
  ascii_of_N (if (n <? 10)%N then 48 + n else 55 + n).

(** Bytes the form-urlencoded serializer leaves as they are: ASCII letters
    and digits and the four characters [* - . _]. *)
Definition unreserved (b : N) : bool :=
  ((48 <=? b) && (b <=? 57) || (65 <=? b) && (b <=? 90)
   || (97 <=? b) && (b <=? 122)
   || (b =? 42) || (b =? 45) || (b =? 46) || (b =? 95))%N.

Definition encode_byte (b : N) : string :=
  if (b =? 32)%N then "+"
  else if unreserved b then String (ascii_of_N b) EmptyString
  else String "%" (String (hex_digit (b / 16)) (String (hex_digit (b mod 16)) EmptyString)).

Fixpoint encode (s : string) : string :=
  match s with
  | EmptyString => EmptyString
  | String c s' => JS.join (map encode_byte (utf8 c)) +:+ encode s'
  end.

(** [params.append(name, value)] *)
Definition append (params : list (string * string)) (name value : string) :=
  params ++ [(name, value)].

(** [params.toString()] *)
Definition toString (params : list (string * string)) : string :=
  String.concat "&" (map (fun nv => encode (fst nv) +:+ "=" +:+ encode (snd nv)) params).

End URLSearchParams.


(** The [filters] argument of [fetchData]; a missing property is [None]. *)
Record Filters := {
  filter_departamento : option string;
  filter_provincia : option string;
  filter_distrito : option string
}.

Definition no_filters : Filters :=
  {| filter_departamento := None; filter_provincia := None; filter_distrito := None |}.

(** [if (filters.name) params.append('name', filters.name)] *)
Definition append_if_truthy (params : list (string * string)) (name : string)
    (v : option string) : list (string * string) :=
  match v with
  | Some value => if JS.truthy value then URLSearchParams.append params name value else params
  | None => params
  end.

Definition request_params (filters : Filters) : list (string * string) :=
  let params := [] in
  let params := append_if_truthy params "departamento" (filter_departamento filters) in
  let params := append_if_truthy params "provincia" (filter_provincia filters) in
  let params := append_if_truthy params "distrito" (filter_distrito filters) in
  params.

Definition endpoint : string := "/.netlify/functions/api/api/precios".

(** The URL handed to [fetch]. *)
Definition request_url (filters : Filters) : string :=
  let url := endpoint in
  let params := request_params filters in
  if JS.truthy (URLSearchParams.toString params)
  then url +:+ "?" +:+ URLSearchParams.toString params
  else url.

(** ** Selector options *)

(** [arr.filter(Boolean)] on property values. *)
Definition filter_Boolean (vs : list (option string)) : list string :=
  flat_map (fun v => match v with
                     | Some s => if JS.truthy s then [s] else []
                     | None => []
                     end) vs.

(** [[...new Set(arr)]]: the distinct values in order of first occurrence. *)
Definition Set_values (arr : list string) : list string :=
  fold_left (fun seen x => if existsb (String.eqb x) seen then seen else seen ++ [x])
            arr [].

(** [arr.sort()] on strings: ascending by code units. *)
Fixpoint sort_insert (x : string) (sorted : list string) : list string :=
  match sorted with
  | [] => [x]
  | y :: rest => if String.leb x y then x :: sorted else y :: sort_insert x rest
  end.

Definition sort (arr : list string) : list string :=
  fold_right sort_insert [] arr.

(** [select.value = v]: the first option with that value becomes the
    selected one; with no such option none is selected and [select.value]
    reads as the empty string. *)
Definition select_set_value (sel : Select) (v : string) : Select :=
  {| sel_options := sel_options sel;
     sel_value := if existsb (fun o => String.eqb (snd o) v) (sel_options sel)
                  then v else EmptyString |}.

(** [select.add(new Option(text, value))] *)
Definition select_add (sel : Select) (text value : string) : Select :=
  {| sel_options := sel_options sel ++ [(text, value)];
     sel_value := sel_value sel |}.

(** [updateSelect] *)
Definition updateSelect (select : option Select) (options : list string) : option Select :=
  match select with
  | None => None
  | Some sel =>
      let currentValue := sel_value sel in
      let sel := {| sel_options := [("Todos", EmptyString)]; sel_value := EmptyString |} in
      let sel := fold_left (fun sel option => select_add sel option option) (sort options) sel in
      Some (select_set_value sel currentValue)
  end.

(** [updateFilterOptions] *)
Definition updateFilterOptions : JSM unit :=
  data ← gets currentData;
  let departamentos := Set_values (filter_Boolean (map DEPARTAMENTO data)) in
  let provincias := Set_values (filter_Boolean (map PROVINCIA data)) in
  let distritos := Set_values (filter_Boolean (map DISTRITO data)) in
  let tiposEstablecimiento := Set_values (filter_Boolean (map TIPO_ESTABLECIMIENTO data)) in
  modify (fun s =>
    set_selects s
      (updateSelect (departamento s) departamentos)
      (updateSelect (provincia s) provincias)
      (updateSelect (distrito s) distritos)
      (updateSelect (tipoEstablecimiento s) tiposEstablecimiento)).

(** ** Fetching *)

Definition alert_text : string :=
  "Error al cargar los datos. Por favor, intente nuevamente.".

(** The statements of the [try] block after [await fetch(url)]; [net] is
    what the network answers. *)
Definition fetchData_after_await (net : Response) : JSM unit :=
  match net with
  | NetworkError => mthrow FetchRejected
  | HttpResponse ok json =>
      if negb ok then mthrow (Error "Error al obtener los datos")
      else
        match json with
        | None => mthrow SyntaxError
        | Some data =>
            modify (fun s => set_currentData s data);;
            modify (fun s => set_currentPage s 1);;
            renderTable;;
            updatePagination;;
            updateFilterOptions
        end
  end.

(** The [catch] clause. *)
Definition fetchData_catch (error : Exn) : JSM unit :=
  emit (ConsoleError error);;
  emit (Alert alert_text).

(** [fetchData(filters)], run without interruption: [fetch(url)] is called
    with no second argument, so the request is a GET. *)
Definition fetchData (filters : Filters) (net : Response) : JSM unit :=
  showLoading;;
  try_finally
    (try_catch
       (emit (Fetch (request_url filters));;
        fetchData_after_await net)
       fetchData_catch)
    hideLoading.

(** The same call cut at its first [await]: what runs before the request
    is in flight, and what runs once the network has answered. *)
Definition fetchData_start (filters : Filters) : JSM unit :=
  showLoading;;
  emit (Fetch (request_url filters)).

Definition fetchData_resume (net : Response) : JSM unit :=
  try_finally (try_catch (fetchData_after_await net) fetchData_catch) hideLoading.

(** ** Event listeners *)

(** [element.value] for the result of [getElementById]. *)
Definition element_value (el : option Select) : JSM string :=
  match el with
  | Some sel => mret (sel_value sel)
  | None => mthrow (TypeError "Cannot read properties of null (reading 'value')")
  end.

(** The [change] listener shared by the three region selectors. *)
Definition region_change (net : Response) : JSM unit :=
  d ← (gets departamento ≫= element_value);
  p ← (gets provincia ≫= element_value);
  t ← (gets distrito ≫= element_value);
  fetchData {| filter_departamento := Some d;
               filter_provincia := Some p;
               filter_distrito := Some t |} net.

(** The [change] listener of the establishment-type selector; [tipo] is
    [e.target.value]. *)
Definition tipoEstablecimiento_change (tipo : string) : JSM unit :=
  (if JS.truthy tipo
   then modify (fun s => set_currentData s
                  (List.filter (fun item => bool_decide (TIPO_ESTABLECIMIENTO item = Some tipo))
                          (currentData s)))
   else mret tt);;
  modify (fun s => set_currentPage s 1);;
  renderTable;;
  updatePagination.

Inductive Region := Departamento | Provincia | Distrito.

Definition region_element (r : Region) (s : Page) : option Select :=
  match r with
  | Departamento => departamento s
  | Provincia => provincia s
  | Distrito => distrito s
  end.

Definition choose (v : string) (sel : Select) : Select :=
  {| sel_options := sel_options sel; sel_value := v |}.

Definition set_region_element (r : Region) (el : option Select) (s : Page) : Page :=
  match r with
  | Departamento => set_selects s el (provincia s) (distrito s) (tipoEstablecimiento s)
  | Provincia => set_selects s (departamento s) el (distrito s) (tipoEstablecimiento s)
  | Distrito => set_selects s (departamento s) (provincia s) el (tipoEstablecimiento s)
  end.

(** The user picks the option with value [v] in a region selector: the
    browser makes it the value and fires [change]. The optional chaining
    [getElementById(id)?.addEventListener] wires a listener only on an
    element that exists. *)
Definition change_region (r : Region) (v : string) (net : Response) : JSM unit :=
  el ← gets (region_element r);
  match el with
  | None => mret tt
  | Some sel =>
      modify (set_region_element r (Some (choose v sel)));;
      region_change net
  end.

(** The same for the establishment-type selector. *)
Definition change_tipoEstablecimiento (v : string) : JSM unit :=
  el ← gets tipoEstablecimiento;
  match el with
  | None => mret tt
  | Some sel =>
      modify (fun s => set_selects s (departamento s) (provincia s) (distrito s)
                                   (Some (choose v sel)));;
      tipoEstablecimiento_change v
  end.

(** The [DOMContentLoaded] callback on a document [doc]: the closure
    variables get their initial values, the hidden overlay is appended, and
    the first, unfiltered fetch starts. *)
Definition DOMContentLoaded (net : Response) : JSM unit :=
  modify (fun doc =>
    set_loadingOverlay_d_none
      (set_totalPages (set_currentPage (set_currentData doc []) 1) 0) true);;
  fetchData no_filters net.

(** ** The two serverless adapters *)

Module Server.

(** An HTTP response under construction: status, header map, body. *)
Record ServerResponse := {
  statusCode : Z;
  headers : gmap string string;
  body : string
}.

(** Header names are ASCII tokens that Node compares without regard to
    case: it files every header under the lower-cased name. *)
Definition lower_ascii (c : ascii) : ascii :=
  let n := N_of_ascii c in
  if ((65 <=? n) && (n <=? 90))%N then ascii_of_N (n + 32) else c.

Fixpoint toLowerCase (name : string) : string :=
  match name with
  | EmptyString => EmptyString
  | String c rest => String (lower_ascii c) (toLowerCase rest)
  end.

(** [res.setHeader(name, value)]: the value replaces whatever was set under
    a name that differs from [name] by case only.  [headers] is the store
    of the response, keyed by lower-cased names. *)
Definition setHeader (name value : string) (res : ServerResponse) : ServerResponse :=
  {| statusCode := statusCode res;
     headers := <[toLowerCase name := value]> (headers res);
     body := body res |}.

(** [res.getHeader(name)] *)
Definition getHeader (name : string) (res : ServerResponse) : option string :=
  headers res !! toLowerCase name.

(** The [callback] that [api/api.js] passes to [createRequestHandler]. *)
Definition callback {Request : Type} (req : Request) (res : ServerResponse) : ServerResponse :=
  let res := setHeader "Access-Control-Allow-Origin" "*" res in
  let res := setHeader "Access-Control-Allow-Methods" "GET, POST, OPTIONS" res in
  let res := setHeader "Access-Control-Allow-Headers" "Content-Type" res in
  res.

(** The three permissive CORS headers are present with their values. *)
Definition has_cors_headers (res : ServerResponse) : Prop :=
  getHeader "Access-Control-Allow-Origin" res = Some "*"
  /\ getHeader "Access-Control-Allow-Methods" res = Some "GET, POST, OPTIONS"
  /\ getHeader "Access-Control-Allow-Headers" res = Some "Content-Type".

Section Adapters.
(** The wrapped application and the host's event and context are opaque. *)
Context {App Event Context_ : Type}.

(** The [mangum] package: how an application answers an event. *)
Variable Mangum : App -> Event -> Context_ -> ServerResponse.

(** [exports.handler] of the Mangum variant:
    [const mangum = new Mangum(app); return await mangum(event, context)]. *)
Definition mangum_handler (app : App) (event : Event) (context : Context_) : ServerResponse :=
  let mangum := Mangum app in
  mangum event context.
End Adapters.

(** A response that carries no header at all. *)
Definition bare_response : ServerResponse :=
  {| statusCode := 200; headers := ∅; body := "[]" |}.

End Server.

(** ** Vocabulary of the specification *)

(** The integers [a], [a+1], ..., [b-1]. *)
Fixpoint Zseq (a : Z) (n : nat) : list Z :=
  match n with
  | O => []
  | S n' => a :: Zseq (a + 1) n'
  end.

Definition Zbetween (a b : Z) : list Z := Zseq a (Z.to_nat (b - a)).

(** Page [i] belongs to the window around [p] among [T] pages. *)
Definition in_window (p T i : Z) : Prop :=
  1 <= i <= T /\ (i = 1 \/ i = T \/ Z.abs (i - p) <= 2).

Definition in_windowb (p T i : Z) : bool :=
  (1 <=? i) && (i <=? T) && ((i =? 1) || (i =? T) || (Z.abs (i - p) <=? 2)).

(** The page numbers the links of a list of entries point to. *)
Definition link_targets (items : list PageItem) : list Z :=
  flat_map (fun it => match data_page it with
                      | Some t => match JS.parseInt t with
                                  | Some n => [n]
                                  | None => []
                                  end
                      | None => []
                      end) items.

(** The window as the specification words it: the shown pages in ascending
    order, every run of omitted pages between two of them collapsed into
    one ellipsis. [prev] is the page shown last. *)
Fixpoint collapse_from (p prev : Z) (pages : list Z) : list PageItem :=
  match pages with
  | [] => []
  | i :: rest =>
      (if prev + 1 <? i then [ellipsis] else [])
      ++ number_link (i =? p) i :: collapse_from p i rest
  end.

Definition collapsed_window (p T : Z) : list PageItem :=
  collapse_from p 0 (List.filter (in_windowb p T) (Zbetween 1 (T + 1))).

(** The records of page [p]: indices [10*(p-1)] up to [min(10*p, N) - 1]. *)
Definition page_records (data : list PriceRecord) (p : Z) : list PriceRecord :=
  take (Z.to_nat (Z.min (10 * p) (Z.of_nat (length data)) - 10 * (p - 1)))
       (drop (Z.to_nat (10 * (p - 1))) data).

(** The option values a selector must offer for a field of the loaded set. *)
Definition offered (field : PriceRecord -> option string) (data : list PriceRecord)
    (x : string) : Prop :=
  x <> EmptyString /\ exists r, In r data /\ field r = Some x.

Definition String_lt (x y : string) : Prop := String.compare x y = Lt.

Definition is_alert (e : Effect) : bool :=
  match e with Alert _ => true | _ => false end.

Definition is_fetch (e : Effect) : bool :=
  match e with Fetch _ => true | _ => false end.

(** A response that counts as a failed fetch: the transport failed or the
    status is not a success. *)
Definition failed (net : Response) : Prop :=
  match net with
  | NetworkError => True
  | HttpResponse ok _ => ok = false
  end.

(** What [parseInt] does once white space and sign are gone. *)
Definition parse_unsigned (sign : Z) (unsigned : string) : option Z :=
  let '(R, digits) :=
    match unsigned with
    | String "0" (String "x" r) => (16, r)
    | String "0" (String "X" r) => (16, r)
    | _ => (10, unsigned)
    end in
  (fun m => sign * m) <$> JS.parse_digits R digits None.


(** The window written out: first page, an ellipsis when pages are left out
    before the neighbourhood of [p], the neighbourhood, an ellipsis when
    pages are left out after it, last page. *)
Definition closed_window (p T : Z) : list PageItem :=
  number_link (1 =? p) 1
  :: (if 5 <=? p then [ellipsis] else [])
  ++ map (fun i => number_link (i =? p) i)
         (Zbetween (Z.max 2 (p - 2)) (Z.min T (p + 3)))
  ++ (if p + 3 <=? T - 1 then [ellipsis] else [])
  ++ (if 2 <=? T then [number_link (T =? p) T] else []).

(** The page of records [renderTable] cuts out. *)
Definition table_html (s : Page) : string :=
  JS.join (map row_html
    (JS.slice (currentData s) ((currentPage s - 1) * itemsPerPage)
              ((currentPage s - 1) * itemsPerPage + itemsPerPage))).


(** ** Sample documents and record sets *)

Definition record_of (dep tipo : string) : PriceRecord :=
  {| FCHA_REGISTRO := Some "2024-01-15"; DEPARTAMENTO := Some dep;
     PROVINCIA := Some "LIMA"; DISTRITO := Some "MIRAFLORES";
     DIRECCION := None; RAZON_SOCIAL := Some "GRIFO SA";
     TIPO_ESTABLECIMIENTO := Some tipo; PRODUCTO := Some "DIESEL B5";
     PRECIO_VENTA := Some "15.5"; UNIDAD_MEDIDA := Some "GALON" |}.

Definition todos : Select :=
  {| sel_options := [("Todos", EmptyString)]; sel_value := EmptyString |}.

(** A document with every element the script looks up, before the script
    has run. *)
Definition full_document : Page :=
  {| currentData := []; currentPage := 1; totalPages := 0;
     loadingOverlay_d_none := true;
     tbody := Some EmptyString; pagination := Some [];
     pagination_info := Some EmptyString;
     departamento := Some todos; provincia := Some todos;
     distrito := Some todos; tipoEstablecimiento := Some todos;
     effects := [] |}.

(** The same document without its [.pagination-info] element. *)
Definition document_without_info : Page :=
  set_pagination_info full_document None.

Definition fifteen_records : list PriceRecord :=
  repeat (record_of "LIMA" "GRIFO") 15.

(** Fifteen records loaded, second page current. *)
Definition fifteen_on_page_two : Page :=
  set_currentPage (set_currentData full_document fifteen_records) 2.

(** The records an establishment-type value keeps. *)
Definition kept_by (tipo : string) (data : list PriceRecord) : list PriceRecord :=
  List.filter (fun item => bool_decide (TIPO_ESTABLECIMIENTO item = Some tipo)) data.

(** The state [updateFilterOptions] leaves. *)
Definition with_filter_options (s : Page) : Page :=
  let data := currentData s in
  set_selects s
    (updateSelect (departamento s) (Set_values (filter_Boolean (map DEPARTAMENTO data))))
    (updateSelect (provincia s) (Set_values (filter_Boolean (map PROVINCIA data))))
    (updateSelect (distrito s) (Set_values (filter_Boolean (map DISTRITO data))))
    (updateSelect (tipoEstablecimiento s)
       (Set_values (filter_Boolean (map TIPO_ESTABLECIMIENTO data)))).

(** The state the [catch] clause leaves. *)
Definition with_alert (e : Exn) (s : Page) : Page :=
  set_effects s (effects s ++ [ConsoleError e; Alert alert_text]).

(** The exception, if any, that the statements after [await fetch(url)]
    raise before they assign anything: the rejection of the request, the
    [Error] for a status that is not a success, or the failure to parse the
    body. *)
Definition rejection (net : Response) : option Exn :=
  match net with
  | NetworkError => Some FetchRejected
  | HttpResponse false _ => Some (Error "Error al obtener los datos")
  | HttpResponse true None => Some SyntaxError
  | HttpResponse true (Some _) => None
  end.

(** What [getElementById(id).value] reads for region [r'] once the user has
    picked [v] in the selector of region [r]. *)
Definition value_after (r : Region) (v : string) (r' : Region) (sel : Select) : string :=
  match r, r' with
  | Departamento, Departamento | Provincia, Provincia | Distrito, Distrito => v
  | _, _ => sel_value sel
  end.

(** The query parameters the specification asks for: of the three region
    values, in the order departamento, provincia, distrito, those that are
    not empty. *)
Definition expected_params (dv pv tv : string) : list (string * string) :=
  List.filter (fun nv => JS.truthy (snd nv))
    [("departamento", dv); ("provincia", pv); ("distrito", tv)].

Definition expected_url (dv pv tv : string) : string :=
  match expected_params dv pv tv with
  | [] => endpoint
  | params => endpoint +:+ "?" +:+ URLSearchParams.toString params
  end.

(** Twenty-five records, four of them of establishment type FARMACIA. *)
Definition twentyfive_records : list PriceRecord :=
  repeat (record_of "LIMA" "GRIFO") 7
  ++ [record_of "LIMA" "FARMACIA"; record_of "CUSCO" "FARMACIA"]
  ++ repeat (record_of "CUSCO" "GRIFO") 12
  ++ [record_of "PUNO" "FARMACIA"]
  ++ repeat (record_of "PUNO" "GRIFO") 2
  ++ [record_of "PUNO" "FARMACIA"].

(** The document after those records have been loaded. *)
Definition twentyfive_loaded : Page :=
  snd (DOMContentLoaded (HttpResponse true (Some twentyfive_records)) full_document).

(** A selector after repopulation from [data], in the words of the
    specification: the "Todos" option with the empty value first, then one
    option per distinct non-empty value of the field, ascending; the value
    selected before stays selected exactly when an option still carries it,
    and the selection is the empty value otherwise. A selector the document
    lacks stays absent. *)
Definition repopulated (field : PriceRecord -> option string) (data : list PriceRecord)
    (before after : option Select) : Prop :=
  match before with
  | None => after = None
  | Some old =>
      exists new values,
        after = Some new
        /\ sel_options new = ("Todos", EmptyString) :: map (fun v => (v, v)) values
        /\ StronglySorted String_lt values
        /\ (forall x, In x values <-> offered field data x)
        /\ (sel_value new = sel_value old
            <-> In (sel_value old) (map snd (sel_options new)))
        /\ (~ In (sel_value old) (map snd (sel_options new))
            -> sel_value new = EmptyString)
  end.

(** Twenty-five records loaded and CUSCO chosen as department. *)
Definition cusco_chosen : Page :=
  set_region_element Departamento
    (choose "CUSCO" <$> departamento twentyfive_loaded) twentyfive_loaded.

(** One record loaded into the document that lacks [.pagination-info]. *)
Definition one_record_without_info : Page :=
  set_currentData document_without_info [record_of "LIMA" "GRIFO"].

(** The full document without its [provincia] selector. *)
Definition document_without_provincia : Page :=
  set_selects full_document (departamento full_document) None
    (distrito full_document) (tipoEstablecimiento full_document).

(** ** The page as an event loop *)

(** The assignments of the [DOMContentLoaded] callback before its call of
    [fetchData]. *)
Definition initial_variables (doc : Page) : Page :=
  set_loadingOverlay_d_none
    (set_totalPages (set_currentPage (set_currentData doc []) 1) 0) true.

(** The listener of a region selector up to the first [await] of the
    [fetchData] it calls: the three values are read and the request goes
    out. *)
Definition region_change_start : JSM unit :=
  d ← (gets departamento ≫= element_value);
  p ← (gets provincia ≫= element_value);
  t ← (gets distrito ≫= element_value);
  fetchData_start {| filter_departamento := Some d;
                     filter_provincia := Some p;
                     filter_distrito := Some t |}.

Definition change_region_start (r : Region) (v : string) : JSM unit :=
  el ← gets (region_element r);
  match el with
  | None => mret tt
  | Some sel =>
      modify (set_region_element r (Some (choose v sel)));;
      region_change_start
  end.

(** What can happen once the page is loaded: the user picks a value in a
    region selector or in the establishment-type selector, clicks an anchor
    of class [page-link], or the network answers a request in flight. *)
Inductive Occurrence :=
| PicksRegion (r : Region) (v : string)
| PicksTipo (v : string)
| Clicks (target : PageItem)
| Answers (net : Response).

(** One turn of the event loop. An exception that escapes a listener ends
    that listener; what it assigned before stays. *)
Definition occur (s : Page) (e : Occurrence) : Page :=
  snd (match e with
       | PicksRegion r v => change_region_start r v
       | PicksTipo v => change_tipoEstablecimiento v
       | Clicks target => page_link_click target
       | Answers net => fetchData_resume net
       end s).

(** The page after [DOMContentLoaded] on the document [doc] and the
    occurrences [es], oldest first. *)
Definition session (doc : Page) (es : list Occurrence) : Page :=
  fold_left occur es (snd (fetchData_start no_filters (initial_variables doc))).

(** The view agrees with the closure variables: the current page is at
    least 1; [totalPages] is 0 in a document without pagination container;
    and while records are loaded the current page is one of their pages,
    the table body (if any) shows it, [totalPages] is the page count when
    there is a container, and container and info text are those of the
    current page when both exist. *)
Definition in_sync (s : Page) : Prop :=
  1 <= currentPage s
  /\ (pagination s = None -> totalPages s = 0)
  /\ (currentData s <> [] ->
      let N := Z.of_nat (length (currentData s)) in
      currentPage s <= JS.ceil_div N itemsPerPage
      /\ tbody s = (fun _ => table_html s) <$> tbody s
      /\ (is_Some (pagination s) -> totalPages s = JS.ceil_div N itemsPerPage)
      /\ (is_Some (pagination s) -> is_Some (pagination_info s) ->
          pagination s = Some (pagination_items (currentPage s) (totalPages s))
          /\ pagination_info s = Some (pagination_info_text (currentPage s) N))).

(** Two pages that differ at most in overlay, selectors and effect log. *)
Definition same_view (s s' : Page) : Prop :=
  currentData s' = currentData s /\ currentPage s' = currentPage s
  /\ totalPages s' = totalPages s /\ tbody s' = tbody s
  /\ pagination s' = pagination s /\ pagination_info s' = pagination_info s.

(** Fifteen records on page two, rendered. *)
Definition fifteen_rendered : Page :=
  snd ((renderTable;; updatePagination) fifteen_on_page_two).

(** The table body of a page that shows no record. *)
Definition empty_table : string := JS.join (map row_html []).

(** An entry carries the class [active]. *)
Definition is_active (it : PageItem) : bool := String.eqb (li_class it) "active".

(** An entry is the ellipsis placeholder. *)
Definition is_ellipsis (it : PageItem) : bool :=
  match data_page it with None => true | Some _ => false end.

(** ** Reading a query string back *)

(** Characters the serializer can produce for a name or a value. *)
Definition url_safe (c : ascii) : bool :=
  let n := N_of_ascii c in
  (URLSearchParams.unreserved n || (n =? 43) || (n =? 37))%N.

Definition hex_value (c : ascii) : N :=
  let n := N_of_ascii c in
  (if (48 <=? n) && (n <=? 57) then n - 48
   else if (65 <=? n) && (n <=? 70) then n - 55
   else if (97 <=? n) && (n <=? 102) then n - 87
   else 0)%N.

(** The inverse of [URLSearchParams.encode]: [+] is a space, [%XY] a byte,
    and a byte of 192 or more starts a two-byte UTF-8 sequence. *)
Fixpoint decode (s : string) : string :=
  match s with
  | EmptyString => EmptyString
  | String "+" r => String " " (decode r)
  | String "%" (String h (String l r)) =>
      let b := (hex_value h * 16 + hex_value l)%N in
      if (b <? 128)%N then String (ascii_of_N b) (decode r)
      else
        match r with
        | String "%" (String h2 (String l2 r2)) =>
            String (ascii_of_N ((b - 192) * 64 + (hex_value h2 * 16 + hex_value l2 - 128)))
                   (decode r2)
        | _ => String (ascii_of_N b) (decode r)
        end
  | String c r => String c (decode r)
  end.

(** The characters of a string. *)
Definition chars (s : string) : list ascii := list_ascii_of_string s.

(** The value a parameter list gives a name, empty when the name is not in
    it. *)
Definition param_value (name : string) (params : list (string * string)) : string :=
  match find (fun nv => String.eqb (fst nv) name) params with
  | Some nv => snd nv
  | None => EmptyString
  end.

(** One [name=value] pair of the serialization. *)
Definition encode_pair (nv : string * string) : string :=
  URLSearchParams.encode (fst nv) +:+ "=" +:+ URLSearchParams.encode (snd nv).

Definition is_region_pick (e : Occurrence) : bool :=
  match e with PicksRegion _ _ => true | _ => false end.

(** The document has the three region selectors. *)
Definition region_selectors_present (s : Page) : Prop :=
  is_Some (departamento s) /\ is_Some (provincia s) /\ is_Some (distrito s).

(** An effect that, if it is a request, asks for the endpoint with the
    query string of some [filters] argument. *)
Definition request_to_endpoint (e : Effect) : Prop :=
  match e with
  | Fetch url => exists filters q, url = request_url filters /\ url = endpoint +:+ q
  | _ => True
  end.

(** The value selected for region [r'] on the page [s] once the user has
    picked [v] in the selector of region [r]. *)
Definition chosen (s : Page) (r : Region) (v : string) (r' : Region) : string :=
  match region_element r' s with
  | Some sel => value_after r v r' sel
  | None => EmptyString
  end.

(** The request the specification expects of one occurrence on the page
    [s]: a pick in a region selector asks for the endpoint with the three
    values then selected, those that are not empty; nothing else asks for
    anything. *)
Definition expected_request (s : Page) (e : Occurrence) : list Effect :=
  match e with
  | PicksRegion r v =>
      [Fetch (expected_url (chosen s r v Departamento) (chosen s r v Provincia)
                           (chosen s r v Distrito))]
  | _ => []
  end.

(** The requests expected of the occurrences [es], oldest first, that
    start on the page [s]. *)
Fixpoint expected_requests (s : Page) (es : list Occurrence) : list Effect :=
  match es with
  | [] => []
  | e :: es' => expected_request s e ++ expected_requests (occur s e) es'
  end.

(** The values of the three region selectors, [None] for a missing one. *)
Definition region_values (s : Page) : option string * option string * option string :=
  (sel_value <$> departamento s, sel_value <$> provincia s, sel_value <$> distrito s).
(** ** Facts about the primitives *)

Example parseInt_samples :
  JS.parseInt "12" = Some 12 /\ JS.parseInt "  -7px" = Some (-7) /\
  JS.parseInt "0x1f" = Some 31 /\ JS.parseInt "undefined" = None /\
  JS.parseInt (JS.Number_toString 0) = Some 0 /\
  JS.Number_toString (-3) = "-3" /\ JS.Number_toString 120 = "120".
Proof. repeat split; reflexivity. Qed.

Example slice_samples :
  JS.slice [1; 2; 3; 4; 5] 1 3 = [2; 3] /\ JS.slice [1; 2; 3] 0 10 = [1; 2; 3] /\
  JS.slice [1; 2; 3] (-2) 8 = [2; 3] /\ JS.slice [1; 2; 3] 10 20 = [].
Proof. repeat split; reflexivity. Qed.

Example URLSearchParams_sample :
  URLSearchParams.toString [("departamento", "LIMA"); ("distrito", "SAN JUAN/1")]
  = "departamento=LIMA&distrito=SAN+JUAN%2F1".
Proof. reflexivity. Qed.

Lemma parse_digits_uint_acc d acc :
  JS.parse_digits 10 (NilEmpty.string_of_uint d) (Some (Z.pos acc))
  = Some (Z.pos (Pos.of_uint_acc d acc)).
Proof.
  revert acc. induction d; intros acc; cbn [NilEmpty.string_of_uint JS.parse_digits Pos.of_uint_acc];
    try reflexivity;
    (change (JS.digit_value _) with (Some 0) || change (JS.digit_value _) with (Some 1)
     || change (JS.digit_value _) with (Some 2) || change (JS.digit_value _) with (Some 3)
     || change (JS.digit_value _) with (Some 4) || change (JS.digit_value _) with (Some 5)
     || change (JS.digit_value _) with (Some 6) || change (JS.digit_value _) with (Some 7)
     || change (JS.digit_value _) with (Some 8) || change (JS.digit_value _) with (Some 9));
    cbv iota beta; change (_ <? 10) with true; cbv iota;
    rewrite <- IHd; do 2 f_equal; lia.
Qed.

Lemma parse_digits_uint_zero d :
  JS.parse_digits 10 (NilEmpty.string_of_uint d) (Some 0)
  = Some (Z.of_N (Pos.of_uint d)).
Proof.
  induction d; cbn [NilEmpty.string_of_uint JS.parse_digits Pos.of_uint];
    try reflexivity;
    (change (JS.digit_value _) with (Some 0) || change (JS.digit_value _) with (Some 1)
     || change (JS.digit_value _) with (Some 2) || change (JS.digit_value _) with (Some 3)
     || change (JS.digit_value _) with (Some 4) || change (JS.digit_value _) with (Some 5)
     || change (JS.digit_value _) with (Some 6) || change (JS.digit_value _) with (Some 7)
     || change (JS.digit_value _) with (Some 8) || change (JS.digit_value _) with (Some 9));
    cbv iota beta; change (_ <? 10) with true; cbv iota;
    first [ exact IHd | apply (parse_digits_uint_acc d) ].
Qed.


Lemma parse_unsigned_uint sign d :
  d <> Nil ->
  parse_unsigned sign (NilEmpty.string_of_uint d)
  = Some (sign * Z.of_N (Pos.of_uint d)).
Proof.
  intros Hd. destruct d as [|d|d|d|d|d|d|d|d|d|d]; [congruence| | | | | | | | | |];
    cbn [NilEmpty.string_of_uint].
  - transitivity ((fun m => sign * m) <$> JS.parse_digits 10 (NilEmpty.string_of_uint d) (Some 0)).
    + destruct d; reflexivity.
    + rewrite parse_digits_uint_zero. reflexivity.
  - exact (f_equal (fmap (fun m => sign * m)) (parse_digits_uint_acc d 1)).
  - exact (f_equal (fmap (fun m => sign * m)) (parse_digits_uint_acc d 2)).
  - exact (f_equal (fmap (fun m => sign * m)) (parse_digits_uint_acc d 3)).
  - exact (f_equal (fmap (fun m => sign * m)) (parse_digits_uint_acc d 4)).
  - exact (f_equal (fmap (fun m => sign * m)) (parse_digits_uint_acc d 5)).
  - exact (f_equal (fmap (fun m => sign * m)) (parse_digits_uint_acc d 6)).
  - exact (f_equal (fmap (fun m => sign * m)) (parse_digits_uint_acc d 7)).
  - exact (f_equal (fmap (fun m => sign * m)) (parse_digits_uint_acc d 8)).
  - exact (f_equal (fmap (fun m => sign * m)) (parse_digits_uint_acc d 9)).
Qed.

Lemma parseInt_uint d :
  d <> Nil ->
  JS.parseInt (NilEmpty.string_of_uint d) = Some (Z.of_N (Pos.of_uint d)).
Proof.
  intros Hd. rewrite <- (Z.mul_1_l (Z.of_N _)).
  rewrite <- (parse_unsigned_uint 1 d Hd).
  destruct d; [congruence|reflexivity..].
Qed.

Lemma parseInt_minus_uint d :
  d <> Nil ->
  JS.parseInt (String "-" (NilEmpty.string_of_uint d)) = Some (- Z.of_N (Pos.of_uint d)).
Proof.
  intros Hd. replace (- Z.of_N (Pos.of_uint d)) with (-1 * Z.of_N (Pos.of_uint d)) by lia.
  rewrite <- (parse_unsigned_uint (-1) d Hd). reflexivity.
Qed.

(** Reading back a printed integer gives the integer. *)
Lemma parseInt_Number_toString z : JS.parseInt (JS.Number_toString z) = Some z.
Proof.
  unfold JS.Number_toString. destruct z as [|p|p]; [reflexivity| |].
  - cbn [Z.to_int NilZero.string_of_int].
    pose proof (Unsigned.to_uint_nonnil p) as Hn.
    unfold NilZero.string_of_uint.
    destruct (Pos.to_uint p) eqn:E; [congruence|..];
      rewrite <- E; rewrite parseInt_uint by congruence;
      rewrite Unsigned.of_to; reflexivity.
  - cbn [Z.to_int NilZero.string_of_int].
    pose proof (Unsigned.to_uint_nonnil p) as Hn.
    unfold NilZero.string_of_uint.
    destruct (Pos.to_uint p) eqn:E; [congruence|..];
      rewrite <- E; rewrite parseInt_minus_uint by congruence;
      rewrite Unsigned.of_to; reflexivity.
Qed.

Lemma Number_toString_inj a b : JS.Number_toString a = JS.Number_toString b -> a = b.
Proof.
  intros H. apply (f_equal JS.parseInt) in H.
  rewrite !parseInt_Number_toString in H. congruence.
Qed.

(** ** Integer ranges *)

Lemma Zseq_app a n m : Zseq a (n + m) = Zseq a n ++ Zseq (a + Z.of_nat n) m.
Proof.
  revert a. induction n as [|n IH]; intros a.
  - cbn. f_equal. lia.
  - cbn [Nat.add Zseq app]. rewrite IH. do 3 f_equal. lia.
Qed.

Lemma Zseq_In a n i : In i (Zseq a n) <-> a <= i < a + Z.of_nat n.
Proof.
  revert a. induction n as [|n IH]; intros a; cbn [Zseq In].
  - lia.
  - rewrite IH. lia.
Qed.

Lemma Zseq_length a n : length (Zseq a n) = n.
Proof. revert a. induction n as [|n IH]; intros a; cbn; [|rewrite IH]; reflexivity. Qed.

Lemma Zbetween_split a m b :
  a <= m <= b -> Zbetween a b = Zbetween a m ++ Zbetween m b.
Proof.
  intros H. unfold Zbetween.
  replace (Z.to_nat (b - a)) with (Z.to_nat (m - a) + Z.to_nat (b - m))%nat by lia.
  rewrite Zseq_app. do 2 f_equal. lia.
Qed.

Lemma Zbetween_In a b i : In i (Zbetween a b) <-> a <= i < b.
Proof. unfold Zbetween. rewrite Zseq_In. lia. Qed.

Lemma Zbetween_one a : Zbetween a (a + 1) = [a].
Proof. unfold Zbetween. replace (a + 1 - a) with 1 by lia. reflexivity. Qed.

Lemma Zbetween_nil a b : b <= a -> Zbetween a b = [].
Proof. intros H. unfold Zbetween. replace (Z.to_nat (b - a)) with O by lia. reflexivity. Qed.

Lemma Zbetween_cons a b : a < b -> Zbetween a b = a :: Zbetween (a + 1) b.
Proof.
  intros H. rewrite (Zbetween_split a (a + 1) b) by lia.
  rewrite Zbetween_one. reflexivity.
Qed.

Lemma flat_map_Zbetween_ext {A} (f g : Z -> list A) a b :
  (forall i, a <= i < b -> f i = g i) ->
  flat_map f (Zbetween a b) = flat_map g (Zbetween a b).
Proof.
  intros H. rewrite !flat_map_concat_map. f_equal.
  apply map_ext_in. intros i Hi. apply H, Zbetween_In, Hi.
Qed.

Lemma flat_map_nil {A B} (l : list A) : flat_map (fun _ => @nil B) l = [].
Proof. induction l; [reflexivity|assumption]. Qed.

Lemma flat_map_singleton {A B} (f : A -> B) (l : list A) :
  flat_map (fun x => [f x]) l = map f l.
Proof. induction l as [|x l IH]; [reflexivity|]. cbn. rewrite IH. reflexivity. Qed.

Lemma filter_Zbetween_all (f : Z -> bool) a b :
  (forall i, a <= i < b -> f i = true) -> List.filter f (Zbetween a b) = Zbetween a b.
Proof.
  intros H. apply forallb_filter_id. apply forallb_forall.
  intros i Hi. apply H, Zbetween_In, Hi.
Qed.

Lemma filter_Zbetween_none (f : Z -> bool) a b :
  (forall i, a <= i < b -> f i = false) -> List.filter f (Zbetween a b) = [].
Proof.
  intros H.
  assert (Hin : forall i, In i (Zbetween a b) -> f i = false)
    by (intros i Hi; apply H, Zbetween_In, Hi).
  induction (Zbetween a b) as [|x l IH]; [reflexivity|].
  cbn. rewrite (Hin x) by (left; reflexivity).
  apply IH. intros i Hi. apply Hin. right. exact Hi.
Qed.

(** ** The pagination window *)

Lemma page_loop_flat_map p T n i :
  page_loop p T n i = flat_map (page_entry p T) (Zseq i n).
Proof.
  revert i. induction n as [|n IH]; intros i; cbn [page_loop Zseq flat_map].
  - reflexivity.
  - rewrite IH. reflexivity.
Qed.

Lemma page_number_items_flat_map p T :
  page_number_items p T = flat_map (page_entry p T) (Zbetween 1 (T + 1)).
Proof.
  unfold page_number_items, Zbetween. rewrite page_loop_flat_map.
  do 2 f_equal. lia.
Qed.

Lemma page_entry_link p T i :
  i = 1 \/ i = T \/ p - 2 <= i <= p + 2 ->
  page_entry p T i = [number_link (i =? p) i].
Proof.
  intros H. unfold page_entry.
  destruct (Z.eqb_spec i 1), (Z.eqb_spec i T), (Z.leb_spec (p - 2) i),
    (Z.leb_spec i (p + 2)); cbn; try reflexivity; lia.
Qed.

Lemma page_entry_ellipsis p T i :
  i <> 1 -> i <> T -> i = p - 3 \/ i = p + 3 ->
  page_entry p T i = [ellipsis].
Proof.
  intros H1 HT H. unfold page_entry.
  destruct (Z.eqb_spec i 1), (Z.eqb_spec i T), (Z.leb_spec (p - 2) i),
    (Z.leb_spec i (p + 2)), (Z.eqb_spec i (p - 3)), (Z.eqb_spec i (p + 3));
    cbn; try reflexivity; lia.
Qed.

Lemma page_entry_none p T i :
  i <> 1 -> i <> T -> i < p - 3 \/ p + 3 < i ->
  page_entry p T i = [].
Proof.
  intros H1 HT H. unfold page_entry.
  destruct (Z.eqb_spec i 1), (Z.eqb_spec i T), (Z.leb_spec (p - 2) i),
    (Z.leb_spec i (p + 2)), (Z.eqb_spec i (p - 3)), (Z.eqb_spec i (p + 3));
    cbn; try reflexivity; lia.
Qed.

Lemma in_windowb_spec p T i : in_windowb p T i = true <-> in_window p T i.
Proof.
  unfold in_windowb, in_window.
  rewrite !andb_true_iff, !orb_true_iff, !Z.leb_le, !Z.eqb_eq. tauto.
Qed.

Lemma in_windowb_false p T i : in_windowb p T i = false <-> ~ in_window p T i.
Proof.
  rewrite <- in_windowb_spec. destruct (in_windowb p T i); split; congruence.
Qed.

(** The seven stretches of [1..T] the loop goes through, for [T >= 2]. *)
Lemma pages_split p T :
  2 <= T -> 1 <= p <= T ->
  Zbetween 1 (T + 1)
  = [1] ++ Zbetween 2 (Z.max 2 (p - 3))
    ++ Zbetween (Z.max 2 (p - 3)) (Z.max 2 (p - 2))
    ++ Zbetween (Z.max 2 (p - 2)) (Z.min T (p + 3))
    ++ Zbetween (Z.min T (p + 3)) (Z.min T (p + 4))
    ++ Zbetween (Z.min T (p + 4)) T
    ++ [T].
Proof.
  intros HT Hp.
  rewrite (Zbetween_split 1 2 (T + 1)) by lia.
  change (Zbetween 1 2) with [1]. f_equal.
  rewrite (Zbetween_split 2 (Z.max 2 (p - 3)) (T + 1)) by lia. f_equal.
  rewrite (Zbetween_split (Z.max 2 (p - 3)) (Z.max 2 (p - 2)) (T + 1)) by lia. f_equal.
  rewrite (Zbetween_split (Z.max 2 (p - 2)) (Z.min T (p + 3)) (T + 1)) by lia. f_equal.
  rewrite (Zbetween_split (Z.min T (p + 3)) (Z.min T (p + 4)) (T + 1)) by lia. f_equal.
  rewrite (Zbetween_split (Z.min T (p + 4)) T (T + 1)) by lia. f_equal.
  apply Zbetween_one.
Qed.

Lemma left_gap p :
  Zbetween (Z.max 2 (p - 3)) (Z.max 2 (p - 2)) = if 5 <=? p then [p - 3] else [].
Proof.
  destruct (Z.leb_spec 5 p).
  - replace (Z.max 2 (p - 3)) with (p - 3) by lia.
    replace (Z.max 2 (p - 2)) with (p - 3 + 1) by lia. apply Zbetween_one.
  - apply Zbetween_nil. lia.
Qed.

Lemma right_gap p T :
  Zbetween (Z.min T (p + 3)) (Z.min T (p + 4)) = if p + 3 <=? T - 1 then [p + 3] else [].
Proof.
  destruct (Z.leb_spec (p + 3) (T - 1)).
  - replace (Z.min T (p + 3)) with (p + 3) by lia.
    replace (Z.min T (p + 4)) with (p + 3 + 1) by lia. apply Zbetween_one.
  - apply Zbetween_nil. lia.
Qed.

(** The loop builds the window in its written-out form. *)
Lemma page_number_items_closed p T :
  1 <= T -> 1 <= p <= T -> page_number_items p T = closed_window p T.
Proof.
  intros HT Hp. rewrite page_number_items_flat_map. unfold closed_window.
  destruct (Z.eq_dec T 1) as [->|HT1].
  - assert (p = 1) as -> by lia. reflexivity.
  - rewrite (pages_split p T) by lia. rewrite !flat_map_app.
    cbn [flat_map app]. rewrite !app_nil_r.
    rewrite (page_entry_link p T 1) by lia. cbn [app]. f_equal.
    rewrite (flat_map_Zbetween_ext _ (fun _ => []) 2 (Z.max 2 (p - 3)))
      by (intros i Hi; apply page_entry_none; lia).
    rewrite flat_map_nil. cbn [app].
    rewrite (flat_map_Zbetween_ext _ (fun i => [number_link (i =? p) i])
               (Z.max 2 (p - 2)) (Z.min T (p + 3)))
      by (intros i Hi; apply page_entry_link; lia).
    rewrite flat_map_singleton.
    rewrite (flat_map_Zbetween_ext _ (fun _ => []) (Z.min T (p + 4)) T)
      by (intros i Hi; apply page_entry_none; lia).
    rewrite flat_map_nil. cbn [app].
    rewrite (page_entry_link p T T) by lia.
    rewrite (left_gap p), (right_gap p T).
    destruct (Z.leb_spec 5 p), (Z.leb_spec (p + 3) (T - 1)), (Z.leb_spec 2 T);
      try lia; cbn [flat_map app];
      rewrite ?(page_entry_ellipsis p T (p - 3)) by lia;
      rewrite ?(page_entry_ellipsis p T (p + 3)) by lia;
      reflexivity.
Qed.

Lemma collapse_from_consecutive p a n rest :
  collapse_from p (a - 1) (Zseq a n ++ rest)
  = map (fun i => number_link (i =? p) i) (Zseq a n)
    ++ collapse_from p (a - 1 + Z.of_nat n) rest.
Proof.
  revert a. induction n as [|n IH]; intros a.
  - cbn. f_equal. lia.
  - cbn [Zseq app collapse_from map].
    replace (a - 1 + 1 <? a) with false by (symmetry; apply Z.ltb_ge; lia).
    cbn [app]. f_equal.
    specialize (IH (a + 1)). replace (a + 1 - 1) with a in IH by lia.
    rewrite IH. do 2 f_equal. lia.
Qed.

Lemma collapse_from_run p prev a b rest :
  prev < a -> a < b ->
  collapse_from p prev (Zbetween a b ++ rest)
  = (if prev + 1 <? a then [ellipsis] else [])
    ++ map (fun i => number_link (i =? p) i) (Zbetween a b)
    ++ collapse_from p (b - 1) rest.
Proof.
  intros Hprev Hab. rewrite (Zbetween_cons a b) by lia.
  cbn [app collapse_from map]. f_equal. f_equal.
  pose proof (collapse_from_consecutive p (a + 1) (Z.to_nat (b - (a + 1))) rest) as H.
  replace (a + 1 - 1) with a in H by lia.
  unfold Zbetween. rewrite H. do 2 f_equal. lia.
Qed.

(** The window in the words of the specification has the same written-out
    form. *)
Lemma collapsed_window_closed p T :
  1 <= T -> 1 <= p <= T -> collapsed_window p T = closed_window p T.
Proof.
  intros HT Hp. unfold collapsed_window, closed_window.
  destruct (Z.eq_dec T 1) as [->|HT1].
  - assert (p = 1) as -> by lia. reflexivity.
  - rewrite (pages_split p T) by lia. rewrite !List.filter_app.
    rewrite (filter_Zbetween_none _ 2 (Z.max 2 (p - 3)))
      by (intros i Hi; apply in_windowb_false; unfold in_window; lia).
    rewrite (filter_Zbetween_all _ (Z.max 2 (p - 2)) (Z.min T (p + 3)))
      by (intros i Hi; apply in_windowb_spec; unfold in_window; lia).
    rewrite (filter_Zbetween_none _ (Z.min T (p + 4)) T)
      by (intros i Hi; apply in_windowb_false; unfold in_window; lia).
    rewrite (filter_Zbetween_none _ (Z.max 2 (p - 3)) (Z.max 2 (p - 2)))
      by (intros i Hi; apply in_windowb_false; unfold in_window; lia).
    rewrite (filter_Zbetween_none _ (Z.min T (p + 3)) (Z.min T (p + 4)))
      by (intros i Hi; apply in_windowb_false; unfold in_window; lia).
    cbn [List.filter app].
    replace (in_windowb p T 1) with true
      by (symmetry; apply in_windowb_spec; unfold in_window; lia).
    replace (in_windowb p T T) with true
      by (symmetry; apply in_windowb_spec; unfold in_window; lia).
    cbn [app collapse_from]. f_equal.
    destruct (Z.eq_dec T 2) as [->|HT2].
    + rewrite (Zbetween_nil (Z.max 2 (p - 2))) by lia.
      destruct (Z.leb_spec 5 p), (Z.leb_spec (p + 3) (2 - 1)); try lia.
      reflexivity.
    + rewrite collapse_from_run by lia.
      cbn [collapse_from app].
      destruct (Z.leb_spec 5 p), (Z.ltb_spec (1 + 1) (Z.max 2 (p - 2))),
        (Z.leb_spec (p + 3) (T - 1)), (Z.ltb_spec (Z.min T (p + 3) - 1 + 1) T),
        (Z.leb_spec 2 T); try lia; reflexivity.
Qed.

Lemma link_targets_app a b : link_targets (a ++ b) = link_targets a ++ link_targets b.
Proof. apply flat_map_app. Qed.

Lemma link_targets_collapse_from p prev pages :
  link_targets (collapse_from p prev pages) = pages.
Proof.
  revert prev. induction pages as [|i rest IH]; intros prev; [reflexivity|].
  cbn [collapse_from]. rewrite link_targets_app.
  change (link_targets (number_link (i =? p) i :: collapse_from p i rest))
    with (match JS.parseInt (JS.Number_toString i) with
          | Some n => [n]
          | None => []
          end ++ link_targets (collapse_from p i rest)).
  rewrite parseInt_Number_toString, IH.
  destruct (prev + 1 <? i); reflexivity.
Qed.

Lemma Zseq_NoDup a n : List.NoDup (Zseq a n).
Proof.
  revert a. induction n as [|n IH]; intros a; cbn [Zseq]; constructor.
  - rewrite Zseq_In. lia.
  - apply IH.
Qed.

Lemma page_number_items_collapsed p T :
  1 <= T -> 1 <= p <= T -> page_number_items p T = collapsed_window p T.
Proof.
  intros HT Hp.
  rewrite page_number_items_closed, collapsed_window_closed by assumption.
  reflexivity.
Qed.

Lemma link_targets_page_number_items p T :
  1 <= T -> 1 <= p <= T ->
  link_targets (page_number_items p T)
  = List.filter (in_windowb p T) (Zbetween 1 (T + 1)).
Proof.
  intros HT Hp. rewrite page_number_items_collapsed by assumption.
  apply link_targets_collapse_from.
Qed.

(** Where the loop puts an ellipsis. *)
Lemma page_entry_ellipsis_iff p T i :
  page_entry p T i = [ellipsis]
  <-> i <> 1 /\ i <> T /\ ~ (p - 2 <= i <= p + 2) /\ (i = p - 3 \/ i = p + 3).
Proof.
  unfold page_entry.
  destruct (Z.eqb_spec i 1), (Z.eqb_spec i T), (Z.leb_spec (p - 2) i),
    (Z.leb_spec i (p + 2)), (Z.eqb_spec i (p - 3)), (Z.eqb_spec i (p + 3));
    cbn; split; intros Hx; try discriminate; try reflexivity; try lia.
Qed.

(** ** Running the operations *)

Ltac unfold_monad :=
  unfold mbind, mret, mthrow, JSM_bind, JSM_ret, JSM_throw, gets, modify, emit,
    try_catch, try_finally in *.

Lemma renderTable_run s :
  renderTable s
  = (Normal tt, match tbody s with
                | Some _ => set_tbody s (Some (table_html s))
                | None => s
                end).
Proof. unfold renderTable. unfold_monad. destruct (tbody s); reflexivity. Qed.

Lemma length_eqb_0 {A} (l : list A) :
  l <> [] -> (Z.of_nat (length l) =? 0) = false.
Proof. intros H. destruct l; [congruence|]. apply Z.eqb_neq. cbn [length]. lia. Qed.

(** The three ways [updatePagination] can end. *)
Lemma updatePagination_skip s :
  pagination s = None \/ currentData s = [] ->
  updatePagination s = (Normal tt, s).
Proof.
  intros H. unfold updatePagination. unfold_monad.
  destruct (pagination s) as [c|]; cbn.
  - destruct H as [H|H]; [discriminate|]. rewrite H. reflexivity.
  - reflexivity.
Qed.

Lemma updatePagination_throw s c :
  pagination s = Some c -> currentData s <> [] -> pagination_info s = None ->
  updatePagination s
  = (Throw (TypeError "Cannot set properties of null (setting 'textContent')"),
     set_totalPages s (JS.ceil_div (Z.of_nat (length (currentData s))) itemsPerPage)).
Proof.
  intros Hc Hd Hi. unfold updatePagination, set_paginationInfo_textContent. unfold_monad.
  rewrite Hc, (length_eqb_0 _ Hd).
  cbn - [JS.ceil_div pagination_info_text pagination_items Z.of_nat].
  rewrite Hi. reflexivity.
Qed.

Lemma updatePagination_render s c info :
  pagination s = Some c -> currentData s <> [] -> pagination_info s = Some info ->
  let N := Z.of_nat (length (currentData s)) in
  let T := JS.ceil_div N itemsPerPage in
  updatePagination s
  = (Normal tt,
     set_pagination
       (set_pagination_info (set_totalPages s T)
          (Some (pagination_info_text (currentPage s) N)))
       (Some (pagination_items (currentPage s) T))).
Proof.
  intros Hc Hd Hi. unfold updatePagination, set_paginationInfo_textContent. unfold_monad.
  rewrite Hc, (length_eqb_0 _ Hd).
  cbn - [JS.ceil_div pagination_info_text pagination_items Z.of_nat].
  rewrite Hi. reflexivity.
Qed.

(** ** Pages of records *)

Lemma ceil_div_10 N :
  10 * (JS.ceil_div N 10 - 1) < N <= 10 * JS.ceil_div N 10.
Proof.
  unfold JS.ceil_div.
  pose proof (Z.div_mod (N + 10 - 1) 10 ltac:(lia)).
  pose proof (Z.mod_pos_bound (N + 10 - 1) 10 ltac:(lia)). lia.
Qed.

Lemma ceil_div_10_unique N T :
  10 * (T - 1) < N <= 10 * T -> JS.ceil_div N 10 = T.
Proof. intros H. pose proof (ceil_div_10 N). lia. Qed.

Lemma slice_page (data : list PriceRecord) p :
  1 <= p ->
  JS.slice data ((p - 1) * itemsPerPage) ((p - 1) * itemsPerPage + itemsPerPage)
  = page_records data p.
Proof.
  intros Hp. unfold JS.slice, page_records, itemsPerPage.
  set (N := Z.of_nat (length data)).
  replace ((p - 1) * 10 <? 0) with false by (symmetry; apply Z.ltb_ge; lia).
  replace ((p - 1) * 10 + 10 <? 0) with false by (symmetry; apply Z.ltb_ge; lia).
  destruct (Z.le_gt_cases N (10 * (p - 1))) as [Hbig|Hin].
  - rewrite (drop_ge data (Z.to_nat (10 * (p - 1)))) by lia.
    rewrite (drop_ge data (Z.to_nat (Z.min ((p - 1) * 10) N))) by lia.
    rewrite !take_nil. reflexivity.
  - replace (Z.min ((p - 1) * 10) N) with (10 * (p - 1)) by lia.
    do 2 f_equal. lia.
Qed.

Lemma page_records_length data p :
  1 <= p -> 10 * (p - 1) < Z.of_nat (length data) ->
  length (page_records data p)
  = Z.to_nat (Z.min (10 * p) (Z.of_nat (length data)) - 10 * (p - 1)).
Proof.
  intros Hp HN. unfold page_records. rewrite length_take, length_drop. lia.
Qed.

Lemma page_records_lookup data p k :
  (k < length (page_records data p))%nat ->
  page_records data p !! k = data !! (Z.to_nat (10 * (p - 1)) + k)%nat.
Proof.
  intros Hk. unfold page_records in *.
  rewrite length_take in Hk.
  rewrite lookup_take_lt by lia. apply lookup_drop.
Qed.

Lemma updatePagination_cases s :
  (updatePagination s = (Normal tt, s)
   /\ (pagination s = None \/ currentData s = []))
  \/ (updatePagination s
      = (Throw (TypeError "Cannot set properties of null (setting 'textContent')"),
         set_totalPages s (JS.ceil_div (Z.of_nat (length (currentData s))) itemsPerPage))
      /\ is_Some (pagination s) /\ currentData s <> [] /\ pagination_info s = None)
  \/ (updatePagination s
      = (Normal tt,
         set_pagination
           (set_pagination_info
              (set_totalPages s (JS.ceil_div (Z.of_nat (length (currentData s))) itemsPerPage))
              (Some (pagination_info_text (currentPage s) (Z.of_nat (length (currentData s))))))
           (Some (pagination_items (currentPage s)
                    (JS.ceil_div (Z.of_nat (length (currentData s))) itemsPerPage))))
      /\ is_Some (pagination s) /\ currentData s <> [] /\ is_Some (pagination_info s)).
Proof.
  destruct (pagination s) as [c|] eqn:Hc.
  2:{ left. split; [apply updatePagination_skip; auto | auto]. }
  destruct (currentData s) as [|r data] eqn:Hd.
  { left. split; [apply updatePagination_skip; auto | auto]. }
  rewrite <- Hd.
  assert (Hne : currentData s <> []) by congruence.
  destruct (pagination_info s) as [info|] eqn:Hi.
  - right. right. split; [|auto].
    apply (updatePagination_render s c info); assumption.
  - right. left. split; [|auto].
    apply (updatePagination_throw s c); assumption.
Qed.

(** Rendering leaves the closure variables other than [totalPages], the
    selectors, the overlay and the log alone, and the table body shows the
    current page whenever there is a table body. *)
Lemma render_frame s c s' :
  (renderTable;; updatePagination) s = (c, s') ->
  currentData s' = currentData s /\ currentPage s' = currentPage s
  /\ effects s' = effects s
  /\ loadingOverlay_d_none s' = loadingOverlay_d_none s
  /\ departamento s' = departamento s /\ provincia s' = provincia s
  /\ distrito s' = distrito s /\ tipoEstablecimiento s' = tipoEstablecimiento s
  /\ tbody s' = ((fun _ => table_html s) <$> tbody s).
Proof.
  unfold mbind, JSM_bind. rewrite renderTable_run.
  set (s1 := match tbody s with Some _ => set_tbody s (Some (table_html s)) | None => s end).
  assert (H1 : currentData s1 = currentData s /\ currentPage s1 = currentPage s
               /\ effects s1 = effects s
               /\ loadingOverlay_d_none s1 = loadingOverlay_d_none s
               /\ departamento s1 = departamento s /\ provincia s1 = provincia s
               /\ distrito s1 = distrito s /\ tipoEstablecimiento s1 = tipoEstablecimiento s
               /\ tbody s1 = ((fun _ => table_html s) <$> tbody s)).
  { subst s1. destruct (tbody s) eqn:E; cbn; rewrite ?E; repeat split; reflexivity. }
  destruct (updatePagination_cases s1) as [[E _]|[[E _]|[E _]]];
    rewrite E; intros Heq; inversion Heq; subst s'; exact H1.
Qed.

(** ** Claims *)

(** C1. For a loaded record set of size [N >= 1] and a current page [p]
    with [1 <= p <= ceil(N/10)], rendering computes [ceil(N/10)] as the
    total page count, the table body shows exactly the records at indices
    [10*(p-1)] through [min(10*p, N) - 1] (ten on every page before the
    last, the remainder on the last), and the pagination info reads
    "Mostrando {10*(p-1)+1} a {min(10*p, N)} de {N} registros". *)
Theorem C1_pages_partition_records (s : Page) tb items info :
  tbody s = Some tb -> pagination s = Some items -> pagination_info s = Some info ->
  let N := Z.of_nat (length (currentData s)) in
  let p := currentPage s in
  1 <= N -> 1 <= p <= JS.ceil_div N 10 ->
  exists s' rows,
    (renderTable;; updatePagination) s = (Normal tt, s')
    /\ totalPages s' = JS.ceil_div N 10
    /\ 10 * (totalPages s' - 1) < N <= 10 * totalPages s'
    /\ tbody s' = Some (JS.join (map row_html rows))
    /\ Z.of_nat (length rows) = Z.min (10 * p) N - 10 * (p - 1)
    /\ (forall k, (k < length rows)%nat ->
          rows !! k = currentData s !! (Z.to_nat (10 * (p - 1)) + k)%nat)
    /\ (p < totalPages s' -> length rows = 10%nat)
    /\ (p = totalPages s' -> Z.of_nat (length rows) = N - 10 * (totalPages s' - 1))
    /\ pagination_info s'
       = Some ("Mostrando " +:+ JS.Number_toString (10 * (p - 1) + 1)
               +:+ " a " +:+ JS.Number_toString (Z.min (10 * p) N)
               +:+ " de " +:+ JS.Number_toString N +:+ " registros").
Proof.
  intros Htb Hpg Hinfo N p HN Hp.
  pose proof (ceil_div_10 N) as Hceil.
  assert (Hdata : currentData s <> []).
  { intros E. subst N. rewrite E in HN. cbn in HN. lia. }
  set (s1 := set_tbody s (Some (table_html s))).
  pose proof (updatePagination_render s1 items info Hpg Hdata Hinfo) as Hup.
  cbv zeta in Hup.
  eexists. exists (page_records (currentData s) p).
  split.
  { unfold mbind, JSM_bind. rewrite renderTable_run, Htb. exact Hup. }
  assert (Hlen : Z.of_nat (length (page_records (currentData s) p))
                 = Z.min (10 * p) N - 10 * (p - 1)).
  { rewrite page_records_length by (fold N; lia). fold N. lia. }
  cbn [totalPages tbody pagination_info set_pagination set_pagination_info
       set_totalPages s1 set_tbody currentData currentPage].
  fold N. fold p. change itemsPerPage with 10.
  repeat split; try lia.
  - unfold table_html. rewrite slice_page by (fold p; lia). reflexivity.
  - intros k Hk. apply page_records_lookup, Hk.
  - unfold pagination_info_text, itemsPerPage.
    replace ((p - 1) * 10 + 1) with (10 * (p - 1) + 1) by lia.
    replace (p * 10) with (10 * p) by lia. reflexivity.
Qed.

Lemma C1_pages_partition_records_witness :
  exists s' rows,
    (renderTable;; updatePagination) fifteen_on_page_two = (Normal tt, s')
    /\ totalPages s' = 2
    /\ tbody s' = Some (JS.join (map row_html rows))
    /\ length rows = 5%nat
    /\ pagination_info s' = Some "Mostrando 11 a 15 de 15 registros".
Proof.
  destruct (C1_pages_partition_records fifteen_on_page_two EmptyString [] EmptyString
              eq_refl eq_refl eq_refl)
    as (s' & rows & Hrun & HT & _ & Htb & Hlen & _ & _ & _ & Hinfo).
  - vm_compute. discriminate.
  - vm_compute. split; discriminate.
  - exists s', rows. split; [exact Hrun|]. split; [rewrite HT; reflexivity|].
    split; [exact Htb|]. split; [|rewrite Hinfo; reflexivity].
    apply Nat2Z.inj. rewrite Hlen. reflexivity.
Defined.

(** The first scenario of the specification: fifteen records arrive on the
    first load; the table shows ten rows, the pagination reads
    "Anterior 1 2 Siguiente", the info text "Mostrando 1 a 10 de 15
    registros". *)
Example scenario_fifteen_records :
  let '(c, s') := DOMContentLoaded (HttpResponse true (Some fifteen_records)) full_document in
  c = Normal tt
  /\ tbody s' = Some (JS.join (map row_html (take 10 fifteen_records)))
  /\ (map text <$> pagination s') = Some ["Anterior"; "1"; "2"; "Siguiente"]
  /\ pagination_info s' = Some "Mostrando 1 a 10 de 15 registros"
  /\ loadingOverlay_d_none s' = true.
Proof. vm_compute. repeat split. Qed.

Lemma page_link_click_ellipsis s : page_link_click ellipsis s = (Normal tt, s).
Proof. reflexivity. Qed.

(** C2. For [totalPages >= 1] and a current page [p] in [1, totalPages],
    the page-number links built by the loop point to page 1 and to page
    [totalPages] exactly once each, point to exactly the pages [i] of
    [1..totalPages] with [i = 1], [i = totalPages] or [|i - p| <= 2], each
    once, and every run of omitted pages is replaced by one ellipsis entry
    without a page target; the loop emits that entry at [i = p-3] and at
    [i = p+3] when the index lies in [1, totalPages] and is not shown. *)
Theorem C2_pagination_window (p T : Z) :
  1 <= T -> 1 <= p <= T ->
  let items := page_number_items p T in
  count_occ Z.eq_dec (link_targets items) 1 = 1%nat
  /\ count_occ Z.eq_dec (link_targets items) T = 1%nat
  /\ (forall i, In i (link_targets items) <-> in_window p T i)
  /\ List.NoDup (link_targets items)
  /\ items = collapsed_window p T
  /\ (forall i, 1 <= i <= T ->
        (page_entry p T i = [ellipsis]
         <-> ~ in_window p T i /\ (i = p - 3 \/ i = p + 3))
        /\ (in_window p T i -> page_entry p T i = [number_link (i =? p) i])
        /\ (~ in_window p T i -> i <> p - 3 -> i <> p + 3 -> page_entry p T i = []))
  /\ data_page ellipsis = None
  /\ (forall s, page_link_click ellipsis s = (Normal tt, s)).
Proof.
  intros HT Hp items.
  assert (Htargets : link_targets items = List.filter (in_windowb p T) (Zbetween 1 (T + 1)))
    by (apply link_targets_page_number_items; assumption).
  assert (Hin : forall i, In i (link_targets items) <-> in_window p T i).
  { intros i. rewrite Htargets, filter_In, Zbetween_In, in_windowb_spec.
    unfold in_window. lia. }
  assert (Hnodup : List.NoDup (link_targets items)).
  { rewrite Htargets. apply List.NoDup_filter, Zseq_NoDup. }
  split; [|split; [|split; [|split; [|split; [|split; [|split]]]]]].
  - apply (proj1 (NoDup_count_occ' Z.eq_dec _) Hnodup), Hin. unfold in_window. lia.
  - apply (proj1 (NoDup_count_occ' Z.eq_dec _) Hnodup), Hin. unfold in_window. lia.
  - exact Hin.
  - exact Hnodup.
  - apply page_number_items_collapsed; assumption.
  - intros i Hi. split; [|split].
    + rewrite page_entry_ellipsis_iff. unfold in_window. lia.
    + unfold in_window. intros H. apply page_entry_link. lia.
    + unfold in_window. intros H H3 H3'. apply page_entry_none; lia.
  - reflexivity.
  - exact page_link_click_ellipsis.
Qed.

Lemma C2_pagination_window_witness :
  page_number_items 5 12 = collapsed_window 5 12
  /\ link_targets (page_number_items 5 12) = [1; 3; 4; 5; 6; 7; 12].
Proof.
  split.
  - apply (C2_pagination_window 5 12); lia.
  - reflexivity.
Defined.

Example window_samples :
  map text (page_number_items 1 2) = ["1"; "2"]
  /\ map text (page_number_items 5 12) = ["1"; "..."; "3"; "4"; "5"; "6"; "7"; "..."; "12"]
  /\ map text (page_number_items 1 12) = ["1"; "2"; "3"; "..."; "12"]
  /\ map text (page_number_items 4 5) = ["1"; "2"; "3"; "4"; "5"]
  /\ li_html ellipsis
     = "<li class=" +:+ dq +:+ "page-item disabled" +:+ dq +:+ "><a class="
       +:+ dq +:+ "page-link" +:+ dq +:+ ">...</a></li>".
Proof. repeat split; reflexivity. Qed.

(** ** The establishment-type listener *)

Lemma tipoEstablecimiento_change_run tipo s :
  tipoEstablecimiento_change tipo s
  = (renderTable;; updatePagination)
      (set_currentPage
         (if JS.truthy tipo then set_currentData s (kept_by tipo (currentData s)) else s) 1).
Proof.
  unfold tipoEstablecimiento_change, kept_by. unfold_monad.
  destruct (JS.truthy tipo); reflexivity.
Qed.

Lemma change_tipoEstablecimiento_run s sel v :
  tipoEstablecimiento s = Some sel ->
  change_tipoEstablecimiento v s
  = tipoEstablecimiento_change v
      (set_selects s (departamento s) (provincia s) (distrito s) (Some (choose v sel))).
Proof.
  intros H. unfold change_tipoEstablecimiento. unfold_monad. rewrite H. reflexivity.
Qed.

Lemma truthy_nonempty s : s <> EmptyString -> JS.truthy s = true.
Proof. destruct s; [congruence|reflexivity]. Qed.

Lemma page_records_first (data : list PriceRecord) : page_records data 1 = take 10 data.
Proof.
  unfold page_records. change (Z.to_nat (10 * (1 - 1))) with O. rewrite drop_0.
  destruct (Z.le_gt_cases 10 (Z.of_nat (length data))).
  - f_equal. lia.
  - rewrite !take_ge by lia. reflexivity.
Qed.

Lemma table_html_first s :
  currentPage s = 1 -> table_html s = JS.join (map row_html (take 10 (currentData s))).
Proof.
  intros H. unfold table_html. rewrite H, slice_page by lia.
  rewrite page_records_first. reflexivity.
Qed.

Lemma kept_by_In tipo data r :
  In r (kept_by tipo data) <-> In r data /\ TIPO_ESTABLECIMIENTO r = Some tipo.
Proof.
  unfold kept_by. rewrite filter_In, bool_decide_eq_true. reflexivity.
Qed.

(** What rendering leaves in the pagination elements when they exist and
    records are loaded. *)
Lemma render_pagination s c s' :
  (renderTable;; updatePagination) s = (c, s') ->
  is_Some (pagination s) -> is_Some (pagination_info s) -> currentData s <> [] ->
  c = Normal tt
  /\ totalPages s' = JS.ceil_div (Z.of_nat (length (currentData s))) 10
  /\ pagination s' = Some (pagination_items (currentPage s) (totalPages s'))
  /\ pagination_info s'
     = Some (pagination_info_text (currentPage s) (Z.of_nat (length (currentData s)))).
Proof.
  unfold mbind, JSM_bind. rewrite renderTable_run.
  intros Hrun [items Hpg] [info Hinfo] Hdata.
  set (s1 := match tbody s with Some _ => set_tbody s (Some (table_html s)) | None => s end) in *.
  assert (H1 : pagination s1 = Some items /\ pagination_info s1 = Some info
               /\ currentData s1 = currentData s /\ currentPage s1 = currentPage s).
  { subst s1. destruct (tbody s); repeat split; assumption. }
  destruct H1 as (Hpg1 & Hinfo1 & Hd1 & Hp1).
  rewrite (updatePagination_render s1 items info Hpg1) in Hrun
    by (try rewrite Hd1; assumption).
  inversion Hrun; subst c s'. cbn. rewrite Hd1, Hp1. repeat split.
Qed.

(** ** Fetching *)

Lemma fetchData_start_run filters s :
  fetchData_start filters s
  = (Normal tt,
     set_effects (set_loadingOverlay_d_none s false)
                 (effects s ++ [Fetch (request_url filters)])).
Proof. reflexivity. Qed.

(** The uninterrupted call is its two halves in sequence. *)
Lemma fetchData_split filters net s :
  fetchData filters net s = (fetchData_start filters;; fetchData_resume net) s.
Proof. reflexivity. Qed.

Lemma fetchData_resume_rejected net e s :
  rejection net = Some e ->
  fetchData_resume net s
  = (Normal tt, set_loadingOverlay_d_none (with_alert e s) true).
Proof.
  intros H. unfold fetchData_resume, fetchData_after_await, fetchData_catch, hideLoading,
    with_alert.
  destruct net as [|[] [data|]]; cbn in H; inversion H; subst e;
    unfold_monad; cbn; rewrite <- app_assoc; reflexivity.
Qed.

Lemma failed_rejection net :
  failed net -> exists e, rejection net = Some e.
Proof.
  destruct net as [|ok json]; cbn; intros H.
  - eauto.
  - subst ok. eauto.
Qed.

Lemma updateFilterOptions_run s :
  updateFilterOptions s = (Normal tt, with_filter_options s).
Proof. reflexivity. Qed.

(** A successful response: the new set is stored, page 1 is rendered, and
    the selectors are repopulated unless rendering threw, in which case the
    [catch] clause runs instead. *)
Lemma fetchData_resume_ok data s c s2 :
  (renderTable;; updatePagination) (set_currentPage (set_currentData s data) 1) = (c, s2) ->
  fetchData_resume (HttpResponse true (Some data)) s
  = (Normal tt,
     set_loadingOverlay_d_none
       (match c with
        | Normal _ => with_filter_options s2
        | Throw e => with_alert e s2
        end) true).
Proof.
  unfold fetchData_resume, fetchData_after_await, fetchData_catch, hideLoading, with_alert.
  unfold mbind, JSM_bind, try_finally, try_catch, modify, emit.
  cbn [negb].
  set (s0 := set_currentPage (set_currentData s data) 1).
  destruct (renderTable s0) as [[[]|e1] s1] eqn:E1.
  - destruct (updatePagination s1) as [[[]|e2] s2'] eqn:E2; intros Heq;
      inversion Heq; subst; cbn; rewrite <- ?app_assoc; reflexivity.
  - rewrite renderTable_run in E1. discriminate.
Qed.

(** Whatever the network answers, the resumed call ends normally with the
    overlay hidden, logs no request of its own, and after a response that
    carries records the current page is 1. *)
Lemma fetchData_resume_any net s :
  exists s' rest,
    fetchData_resume net s = (Normal tt, s')
    /\ loadingOverlay_d_none s' = true
    /\ effects s' = effects s ++ rest
    /\ List.filter is_fetch rest = []
    /\ (forall data, net = HttpResponse true (Some data) -> currentPage s' = 1).
Proof.
  destruct (rejection net) as [e|] eqn:Hrej.
  - exists (set_loadingOverlay_d_none (with_alert e s) true), [ConsoleError e; Alert alert_text].
    split; [apply fetchData_resume_rejected, Hrej|].
    repeat split. intros data ->. discriminate.
  - destruct net as [|[] [data|]]; try discriminate.
    destruct ((renderTable;; updatePagination) (set_currentPage (set_currentData s data) 1))
      as [c s2] eqn:Hrender.
    pose proof (render_frame _ _ _ Hrender) as (_ & Hpage & Heff & _).
    cbn in Hpage, Heff.
    rewrite (fetchData_resume_ok data s c s2 Hrender).
    destruct c as [[]|e].
    + eexists. exists []. split; [reflexivity|]. cbn. rewrite app_nil_r.
      repeat split; try assumption. intros _ _. exact Hpage.
    + eexists. exists [ConsoleError e; Alert alert_text]. split; [reflexivity|].
      cbn. rewrite Heff. repeat split. intros _ _. exact Hpage.
Qed.

(** C4. A fetch that fails (the request is rejected or the status is not a
    success) raises exactly one alert and leaves [currentData],
    [currentPage] and everything rendered as they were; the loading overlay
    is shown when a fetch starts and is hidden when it ends, whether it
    failed or not. *)
Theorem C4_failed_fetch (s : Page) (filters : Filters) (net : Response) :
  (* the overlay is shown when the call starts *)
  (exists s_mid,
     fetchData_start filters s = (Normal tt, s_mid)
     /\ loadingOverlay_d_none s_mid = false
     /\ fetchData filters net s = fetchData_resume net s_mid)
  (* and hidden when it ends, on every path *)
  /\ (forall s1, exists s1',
        fetchData_resume net s1 = (Normal tt, s1') /\ loadingOverlay_d_none s1' = true)
  /\ (exists s', fetchData filters net s = (Normal tt, s') /\ loadingOverlay_d_none s' = true)
  (* a failed call alerts once and changes nothing else *)
  /\ (failed net ->
      exists s' e,
        fetchData filters net s = (Normal tt, s')
        /\ effects s' = effects s ++ [Fetch (request_url filters); ConsoleError e; Alert alert_text]
        /\ length (List.filter is_alert (effects s'))
           = S (length (List.filter is_alert (effects s)))
        /\ currentData s' = currentData s /\ currentPage s' = currentPage s
        /\ totalPages s' = totalPages s
        /\ tbody s' = tbody s /\ pagination s' = pagination s
        /\ pagination_info s' = pagination_info s
        /\ departamento s' = departamento s /\ provincia s' = provincia s
        /\ distrito s' = distrito s /\ tipoEstablecimiento s' = tipoEstablecimiento s
        /\ loadingOverlay_d_none s' = true).
Proof.
  split; [|split; [|split]].
  - eexists. split; [apply fetchData_start_run|]. split; reflexivity.
  - intros s1. destruct (fetchData_resume_any net s1) as (s1' & rest & H & Hh & _).
    exists s1'. split; assumption.
  - rewrite fetchData_split. unfold mbind, JSM_bind. rewrite fetchData_start_run.
    destruct (fetchData_resume_any net
                (set_effects (set_loadingOverlay_d_none s false)
                   (effects s ++ [Fetch (request_url filters)])))
      as (s' & rest & H & Hh & _).
    exists s'. split; assumption.
  - intros Hfailed. destruct (failed_rejection net Hfailed) as [e He].
    eexists. exists e. split.
    { rewrite fetchData_split. unfold mbind, JSM_bind. rewrite fetchData_start_run.
      apply fetchData_resume_rejected, He. }
    cbn. rewrite <- app_assoc. cbn [app].
    split; [reflexivity|]. split; [|repeat split].
    rewrite List.filter_app. cbn. rewrite length_app. cbn. lia.
Qed.

Lemma C4_failed_fetch_witness :
  exists s',
    fetchData no_filters (HttpResponse false None) fifteen_on_page_two = (Normal tt, s')
    /\ length (List.filter is_alert (effects s')) = 1%nat
    /\ currentData s' = fifteen_records /\ currentPage s' = 2
    /\ loadingOverlay_d_none s' = true.
Proof.
  destruct (C4_failed_fetch fifteen_on_page_two no_filters (HttpResponse false None))
    as (_ & _ & _ & H).
  destruct (H eq_refl) as (s' & e & Hrun & _ & Hal & Hd & Hp & _ & _ & _ & _ & _ & _ & _ & _ & Hh).
  exists s'. split; [exact Hrun|]. split; [exact Hal|]. split; [exact Hd|].
  split; [exact Hp|exact Hh].
Defined.

(** The second scenario of the specification: the first load answers with
    status 500; the overlay ends hidden, one alert fires, the table is what
    it was. *)
Example scenario_http_500 :
  let '(c, s') := DOMContentLoaded (HttpResponse false None) full_document in
  c = Normal tt
  /\ loadingOverlay_d_none s' = true
  /\ List.filter is_alert (effects s') = [Alert alert_text]
  /\ tbody s' = tbody full_document
  /\ currentData s' = [] /\ currentPage s' = 1.
Proof. vm_compute. repeat split. Qed.

(** ** Clicks on pagination links *)

Lemma page_link_click_in_range target s n :
  JS.parseInt (JS.ToString (data_page target)) = Some n ->
  1 <= n <= totalPages s ->
  page_link_click target s = (renderTable;; updatePagination) (set_currentPage s n).
Proof.
  intros Hparse Hn. unfold page_link_click. unfold_monad. rewrite Hparse.
  replace (0 <? n) with true by (symmetry; apply Z.ltb_lt; lia).
  replace (n <=? totalPages s) with true by (symmetry; apply Z.leb_le; lia).
  reflexivity.
Qed.

Lemma page_link_click_out_of_range target s :
  (forall n, JS.parseInt (JS.ToString (data_page target)) = Some n ->
             ~ 1 <= n <= totalPages s) ->
  page_link_click target s = (Normal tt, s).
Proof.
  intros H. unfold page_link_click. unfold_monad.
  destruct (JS.parseInt (JS.ToString (data_page target))) as [n|]; [|reflexivity].
  specialize (H n eq_refl).
  destruct (Z.ltb_spec 0 n), (Z.leb_spec n (totalPages s)); cbn; try reflexivity; lia.
Qed.

Lemma nav_link_target disabled n label :
  JS.parseInt (JS.ToString (data_page (nav_link disabled n label))) = Some n.
Proof. apply parseInt_Number_toString. Qed.

Lemma number_link_target active n :
  JS.parseInt (JS.ToString (data_page (number_link active n))) = Some n.
Proof. apply parseInt_Number_toString. Qed.

(** C6. A click on a pagination link sets the current page and renders
    again exactly when the link's [data-page] parses to an integer in
    [1, totalPages]; a click on the ellipsis (no target), on "Anterior"
    rendered for page 1 (target 0) or on "Siguiente" rendered for the last
    page (target [totalPages + 1]) changes nothing. *)
Theorem C6_page_link_click (s : Page) (target : PageItem) :
  let newPage := JS.parseInt (JS.ToString (data_page target)) in
  (forall n, newPage = Some n -> 1 <= n <= totalPages s ->
     page_link_click target s = (renderTable;; updatePagination) (set_currentPage s n)
     /\ forall c s', page_link_click target s = (c, s') ->
          currentPage s' = n
          /\ currentData s' = currentData s
          /\ tbody s' = (fun _ => JS.join (map row_html (page_records (currentData s) n)))
                        <$> tbody s)
  /\ ((forall n, newPage = Some n -> ~ 1 <= n <= totalPages s) ->
      page_link_click target s = (Normal tt, s))
  /\ page_link_click ellipsis s = (Normal tt, s)
  /\ page_link_click (anterior 1) s = (Normal tt, s)
  /\ page_link_click (siguiente (totalPages s) (totalPages s)) s = (Normal tt, s).
Proof.
  intros newPage. split; [|split; [|split; [|split]]].
  - intros n Hparse Hn.
    pose proof (page_link_click_in_range target s n Hparse Hn) as Hrun.
    split; [exact Hrun|]. intros c s' Hclick. rewrite Hrun in Hclick.
    pose proof (render_frame _ _ _ Hclick) as (Hd & Hp & _ & _ & _ & _ & _ & _ & Htb).
    cbn in Hd, Hp, Htb. repeat split; try assumption.
    rewrite Htb. unfold table_html. cbn [currentPage currentData set_currentPage].
    rewrite slice_page; [reflexivity|lia].
  - apply page_link_click_out_of_range.
  - reflexivity.
  - apply page_link_click_out_of_range. intros n. unfold anterior.
    rewrite nav_link_target. intros [= <-]. lia.
  - apply page_link_click_out_of_range. intros n. unfold siguiente.
    rewrite nav_link_target. intros [= <-]. lia.
Qed.

Lemma C6_page_link_click_witness :
  let s := set_totalPages fifteen_on_page_two 2 in
  page_link_click (number_link false 1) s
  = (renderTable;; updatePagination) (set_currentPage s 1)
  /\ page_link_click (nav_link false 3 "Siguiente") s = (Normal tt, s).
Proof.
  intros s. split.
  - destruct (C6_page_link_click s (number_link false 1)) as (Hin & _).
    apply (Hin 1); [reflexivity|]. cbn. lia.
  - destruct (C6_page_link_click s (nav_link false 3 "Siguiente")) as (_ & Hout & _).
    apply Hout. intros n Hn. injection Hn as <-. cbn. lia.
Defined.

(** ** The request of a region change *)

Lemma truthy_append a b : JS.truthy (a +:+ b) = JS.truthy a || JS.truthy b.
Proof. destruct a; reflexivity. Qed.

Lemma toString_truthy params :
  params <> [] -> JS.truthy (URLSearchParams.toString params) = true.
Proof.
  destruct params as [|[n v] rest]; [congruence|]. intros _.
  unfold URLSearchParams.toString. cbn [map String.concat fst snd].
  destruct (map _ rest); rewrite !truthy_append; cbn; apply orb_true_r.
Qed.

Lemma request_params_expected dv pv tv :
  request_params {| filter_departamento := Some dv;
                    filter_provincia := Some pv;
                    filter_distrito := Some tv |}
  = expected_params dv pv tv.
Proof. destruct dv, pv, tv; reflexivity. Qed.

Lemma request_url_expected dv pv tv :
  request_url {| filter_departamento := Some dv;
                 filter_provincia := Some pv;
                 filter_distrito := Some tv |}
  = expected_url dv pv tv.
Proof.
  unfold request_url, expected_url. rewrite request_params_expected.
  destruct (expected_params dv pv tv) as [|nv rest] eqn:E.
  - reflexivity.
  - rewrite toString_truthy by congruence. reflexivity.
Qed.

Lemma change_region_run s r v net d p t :
  departamento s = Some d -> provincia s = Some p -> distrito s = Some t ->
  exists s0,
    effects s0 = effects s /\ currentData s0 = currentData s
    /\ change_region r v net s
       = fetchData {| filter_departamento := Some (value_after r v Departamento d);
                      filter_provincia := Some (value_after r v Provincia p);
                      filter_distrito := Some (value_after r v Distrito t) |} net s0.
Proof.
  intros Hd Hp Ht. unfold change_region, region_change, element_value. unfold_monad.
  destruct r; cbn [region_element set_region_element]; rewrite ?Hd, ?Hp, ?Ht;
    cbn; rewrite ?Hd, ?Hp, ?Ht; eexists; (split; [|split; [|reflexivity]]); reflexivity.
Qed.

(** The request a region change issues, and where it leaves the page. *)
Lemma change_region_fetch (s : Page) (r : Region) (v : string) (net : Response)
    (d p t : Select) :
  departamento s = Some d -> provincia s = Some p -> distrito s = Some t ->
  exists s' rest,
    change_region r v net s = (Normal tt, s')
    /\ effects s'
       = effects s
         ++ Fetch (request_url
                     {| filter_departamento := Some (value_after r v Departamento d);
                        filter_provincia := Some (value_after r v Provincia p);
                        filter_distrito := Some (value_after r v Distrito t) |})
            :: rest
    /\ List.filter is_fetch rest = []
    /\ (forall data, net = HttpResponse true (Some data) -> currentPage s' = 1).
Proof.
  intros Hd Hp Ht.
  destruct (change_region_run s r v net d p t Hd Hp Ht) as (s0 & Heff & _ & Hrun).
  rewrite Hrun, fetchData_split.
  unfold mbind, JSM_bind. rewrite fetchData_start_run.
  match goal with
  | |- context [fetchData_resume net ?s1] =>
      destruct (fetchData_resume_any net s1)
        as (s' & rest & Hres & _ & Heff' & Hnofetch & Hpage)
  end.
  exists s', rest. split; [exact Hres|].
  split; [rewrite Heff'; cbn; rewrite Heff, <- app_assoc; reflexivity|].
  split; [exact Hnofetch|exact Hpage].
Qed.

(** C7. A change of a region selector issues one GET request to the
    endpoint whose query string carries exactly those of [departamento],
    [provincia], [distrito] whose selector value is not empty, and none at
    all when the three are empty; after a response that succeeds the
    current page is 1. *)
Theorem C7_region_change_request (s : Page) (r : Region) (v : string) (net : Response)
    (d p t : Select) :
  departamento s = Some d -> provincia s = Some p -> distrito s = Some t ->
  let dv := value_after r v Departamento d in
  let pv := value_after r v Provincia p in
  let tv := value_after r v Distrito t in
  exists s' rest,
    change_region r v net s = (Normal tt, s')
    /\ effects s' = effects s ++ Fetch (expected_url dv pv tv) :: rest
    /\ List.filter is_fetch rest = []
    /\ (forall n x, In (n, x) (expected_params dv pv tv)
          <-> x <> EmptyString
              /\ ((n, x) = ("departamento", dv) \/ (n, x) = ("provincia", pv)
                  \/ (n, x) = ("distrito", tv)))
    /\ (dv = EmptyString -> pv = EmptyString -> tv = EmptyString ->
        expected_url dv pv tv = endpoint)
    /\ (forall data, net = HttpResponse true (Some data) -> currentPage s' = 1).
Proof.
  intros Hd Hp Ht dv pv tv.
  destruct (change_region_fetch s r v net d p t Hd Hp Ht)
    as (s' & rest & Hrun & Heff & Hnofetch & Hpage).
  rewrite request_url_expected in Heff. fold dv pv tv in Heff.
  exists s', rest. split; [exact Hrun|]. split; [exact Heff|].
  split; [exact Hnofetch|]. split; [|split; [|exact Hpage]].
  - intros n x. unfold expected_params. rewrite filter_In. cbn [In snd].
    split.
    + intros [Hin Htr]. split; [destruct x; [discriminate|congruence]|].
      destruct Hin as [H|[H|[H|[]]]]; auto.
    + intros [Hx Hin]. split; [|apply truthy_nonempty, Hx].
      destruct Hin as [H|[H|H]]; auto.
  - intros -> -> ->. reflexivity.
Qed.

Lemma C7_region_change_request_witness :
  exists s' rest,
    change_region Departamento "LIMA" NetworkError full_document = (Normal tt, s')
    /\ effects s'
       = Fetch "/.netlify/functions/api/api/precios?departamento=LIMA" :: rest.
Proof.
  destruct (C7_region_change_request full_document Departamento "LIMA" NetworkError
              todos todos todos eq_refl eq_refl eq_refl)
    as (s' & rest & Hrun & Heff & _).
  exists s', rest. split; [exact Hrun|exact Heff].
Defined.

(** ** Changes of the establishment type *)

(** What any change of the establishment-type selector does. *)
Lemma change_tipoEstablecimiento_spec s sel v c s' :
  tipoEstablecimiento s = Some sel ->
  change_tipoEstablecimiento v s = (c, s') ->
  let data' := if JS.truthy v then kept_by v (currentData s) else currentData s in
  effects s' = effects s
  /\ currentData s' = data'
  /\ currentPage s' = 1
  /\ tbody s' = (fun _ => JS.join (map row_html (take 10 data'))) <$> tbody s
  /\ (is_Some (pagination s) -> is_Some (pagination_info s) -> data' <> [] ->
      c = Normal tt
      /\ totalPages s' = JS.ceil_div (Z.of_nat (length data')) 10
      /\ pagination s' = Some (pagination_items 1 (totalPages s'))
      /\ pagination_info s' = Some (pagination_info_text 1 (Z.of_nat (length data')))).
Proof.
  intros Hsel Hrun data'.
  rewrite (change_tipoEstablecimiento_run s sel v Hsel) in Hrun.
  rewrite tipoEstablecimiento_change_run in Hrun.
  set (s0 := set_selects s (departamento s) (provincia s) (distrito s) (Some (choose v sel))) in *.
  set (s1 := set_currentPage
               (if JS.truthy v then set_currentData s0 (kept_by v (currentData s0)) else s0) 1) in *.
  assert (H1 : effects s1 = effects s /\ currentData s1 = data' /\ currentPage s1 = 1
               /\ tbody s1 = tbody s /\ pagination s1 = pagination s
               /\ pagination_info s1 = pagination_info s).
  { subst s1 s0 data'. destruct (JS.truthy v); repeat split. }
  destruct H1 as (He & Hd & Hp & Htb & Hpg & Hinfo).
  pose proof (render_frame _ _ _ Hrun) as (Hd' & Hp' & He' & _ & _ & _ & _ & _ & Htb').
  split; [congruence|]. split; [congruence|]. split; [congruence|]. split.
  - rewrite Htb', Htb, (table_html_first s1 Hp), Hd. reflexivity.
  - intros Hpg0 Hinfo0 Hne.
    rewrite <- Hpg in Hpg0. rewrite <- Hinfo in Hinfo0. rewrite <- Hd in Hne.
    pose proof (render_pagination _ _ _ Hrun Hpg0 Hinfo0 Hne) as (Hc & HT & Hitems & Htext).
    rewrite Hd, Hp in *. repeat split; assumption.
Qed.

(** C3. Changing the establishment-type selector to a non-empty value
    issues no request, replaces the working set by exactly the records whose
    [TIPO_ESTABLECIMIENTO] equals the chosen value, sets the current page
    to 1 and renders again; changing any of the three region selectors
    issues a request. *)
Theorem C3_filter_changes (s : Page) :
  (forall sel tipo c s',
     tipoEstablecimiento s = Some sel -> tipo <> EmptyString ->
     change_tipoEstablecimiento tipo s = (c, s') ->
     effects s' = effects s
     /\ currentData s' = kept_by tipo (currentData s)
     /\ (forall r, In r (currentData s')
                   <-> In r (currentData s) /\ TIPO_ESTABLECIMIENTO r = Some tipo)
     /\ currentPage s' = 1
     /\ tbody s' = (fun _ => JS.join (map row_html (take 10 (currentData s')))) <$> tbody s
     /\ (is_Some (pagination s) -> is_Some (pagination_info s) -> currentData s' <> [] ->
         c = Normal tt
         /\ totalPages s' = JS.ceil_div (Z.of_nat (length (currentData s'))) 10
         /\ pagination s' = Some (pagination_items 1 (totalPages s'))
         /\ pagination_info s'
            = Some (pagination_info_text 1 (Z.of_nat (length (currentData s'))))))
  /\ (forall r v net d p t,
        departamento s = Some d -> provincia s = Some p -> distrito s = Some t ->
        exists s' url rest,
          change_region r v net s = (Normal tt, s')
          /\ effects s' = effects s ++ Fetch url :: rest).
Proof.
  split.
  - intros sel tipo c s' Hsel Htipo Hrun.
    pose proof (change_tipoEstablecimiento_spec s sel tipo c s' Hsel Hrun) as H.
    cbv zeta in H. rewrite (truthy_nonempty tipo Htipo) in H.
    destruct H as (He & Hd & Hp & Htb & Hpg).
    split; [exact He|]. split; [exact Hd|]. split.
    { intros r. rewrite Hd. apply kept_by_In. }
    split; [exact Hp|]. rewrite Hd. split; [exact Htb|exact Hpg].
  - intros r v net d p t Hd Hp Ht.
    destruct (change_region_fetch s r v net d p t Hd Hp Ht)
      as (s' & rest & Hrun & Heff & _).
    exists s'. eexists. exists rest. split; [exact Hrun|exact Heff].
Qed.

Lemma C3_filter_changes_witness :
  exists c s',
    change_tipoEstablecimiento "FARMACIA" twentyfive_loaded = (c, s')
    /\ effects s' = effects twentyfive_loaded
    /\ length (currentData s') = 4%nat
    /\ currentPage s' = 1.
Proof.
  destruct (change_tipoEstablecimiento "FARMACIA" twentyfive_loaded) as [c s'] eqn:Hrun.
  destruct (C3_filter_changes twentyfive_loaded) as (Htipo & _).
  assert (Hsel : tipoEstablecimiento twentyfive_loaded
                 = Some {| sel_options := [("Todos", EmptyString); ("FARMACIA", "FARMACIA");
                                           ("GRIFO", "GRIFO")];
                           sel_value := EmptyString |})
    by (vm_compute; reflexivity).
  destruct (Htipo _ "FARMACIA" c s' Hsel ltac:(discriminate) Hrun)
    as (He & Hd & _ & Hp & _).
  exists c, s'. split; [reflexivity|]. split; [exact He|]. split; [|exact Hp].
  rewrite Hd. vm_compute. reflexivity.
Defined.

(** The third scenario of the specification: FARMACIA chosen on a set of
    twenty-five records with four matches; the table shows those four, and
    no link to a page 2 is left. *)
Example scenario_farmacia :
  let '(c, s') := change_tipoEstablecimiento "FARMACIA" twentyfive_loaded in
  c = Normal tt
  /\ currentData s' = kept_by "FARMACIA" twentyfive_records
  /\ tbody s' = Some (JS.join (map row_html (kept_by "FARMACIA" twentyfive_records)))
  /\ length (kept_by "FARMACIA" twentyfive_records) = 4%nat
  /\ (map text <$> pagination s') = Some ["Anterior"; "1"; "Siguiente"]
  /\ pagination_info s' = Some "Mostrando 1 a 4 de 4 registros"
  /\ List.filter is_fetch (effects s') = List.filter is_fetch (effects twentyfive_loaded).
Proof. vm_compute. repeat split. Qed.

(** C10. Changing the establishment-type selector to the empty value
    ("Todos") issues no request and leaves [currentData] as it is, so
    records removed by an earlier narrowing stay removed; the current page
    still becomes 1 and table and pagination are rendered again. *)
Theorem C10_empty_type_keeps_working_set (s : Page) (sel : Select) c s' :
  tipoEstablecimiento s = Some sel ->
  change_tipoEstablecimiento EmptyString s = (c, s') ->
  effects s' = effects s
  /\ currentData s' = currentData s
  /\ currentPage s' = 1
  /\ tbody s' = (fun _ => JS.join (map row_html (take 10 (currentData s)))) <$> tbody s
  /\ (is_Some (pagination s) -> is_Some (pagination_info s) -> currentData s <> [] ->
      c = Normal tt
      /\ totalPages s' = JS.ceil_div (Z.of_nat (length (currentData s))) 10
      /\ pagination s' = Some (pagination_items 1 (totalPages s'))
      /\ pagination_info s'
         = Some (pagination_info_text 1 (Z.of_nat (length (currentData s)))))
  /\ (forall s0 sel0 tipo c0,
        tipoEstablecimiento s0 = Some sel0 -> tipo <> EmptyString ->
        change_tipoEstablecimiento tipo s0 = (c0, s) ->
        currentData s' = kept_by tipo (currentData s0)).
Proof.
  intros Hsel Hrun.
  pose proof (change_tipoEstablecimiento_spec s sel EmptyString c s' Hsel Hrun) as H.
  cbv zeta in H. cbn [JS.truthy] in H.
  destruct H as (He & Hd & Hp & Htb & Hpg).
  repeat (split; [assumption|]).
  intros s0 sel0 tipo c0 Hsel0 Htipo Hrun0.
  pose proof (change_tipoEstablecimiento_spec s0 sel0 tipo c0 s Hsel0 Hrun0) as H0.
  cbv zeta in H0. rewrite (truthy_nonempty tipo Htipo) in H0.
  destruct H0 as (_ & Hd0 & _). congruence.
Qed.

Lemma C10_empty_type_keeps_working_set_witness :
  exists c s',
    change_tipoEstablecimiento EmptyString twentyfive_loaded = (c, s')
    /\ effects s' = effects twentyfive_loaded
    /\ currentData s' = twentyfive_records
    /\ currentPage s' = 1.
Proof.
  destruct (change_tipoEstablecimiento EmptyString twentyfive_loaded) as [c s'] eqn:Hrun.
  assert (Hsel : tipoEstablecimiento twentyfive_loaded
                 = Some {| sel_options := [("Todos", EmptyString); ("FARMACIA", "FARMACIA");
                                           ("GRIFO", "GRIFO")];
                           sel_value := EmptyString |})
    by (vm_compute; reflexivity).
  destruct (C10_empty_type_keeps_working_set twentyfive_loaded _ c s' Hsel Hrun)
    as (He & Hd & Hp & _).
  exists c, s'. split; [reflexivity|]. split; [exact He|]. split; [|exact Hp].
  rewrite Hd. vm_compute. reflexivity.
Defined.

(** Narrowing to FARMACIA and then choosing "Todos" leaves the four
    FARMACIA records, not the twenty-five that were loaded. *)
Example todos_does_not_restore :
  let s1 := snd (change_tipoEstablecimiento "FARMACIA" twentyfive_loaded) in
  let s2 := snd (change_tipoEstablecimiento EmptyString s1) in
  length (currentData twentyfive_loaded) = 25%nat
  /\ length (currentData s1) = 4%nat
  /\ currentData s2 = currentData s1
  /\ sel_value <$> tipoEstablecimiento s2 = Some EmptyString.
Proof. vm_compute. repeat split. Qed.

(** ** Order on strings and sorting *)

Lemma Ascii_compare_refl a : Ascii.compare a a = Eq.
Proof. unfold Ascii.compare. apply N.compare_refl. Qed.

Lemma Ascii_compare_Lt_trans a b c :
  Ascii.compare a b = Lt -> Ascii.compare b c = Lt -> Ascii.compare a c = Lt.
Proof.
  unfold Ascii.compare. rewrite !N.compare_lt_iff. apply N.lt_trans.
Qed.

Lemma String_lt_trans x y z : String_lt x y -> String_lt y z -> String_lt x z.
Proof.
  unfold String_lt. revert y z.
  induction x as [|a x IH]; intros [|b y] [|c z]; cbn; try congruence.
  destruct (Ascii.compare a b) eqn:E1, (Ascii.compare b c) eqn:E2; try congruence.
  - apply Ascii.compare_eq_iff in E1, E2. subst. rewrite Ascii_compare_refl. apply IH.
  - apply Ascii.compare_eq_iff in E1. subst. rewrite E2. reflexivity.
  - apply Ascii.compare_eq_iff in E2. subst. rewrite E1. reflexivity.
  - rewrite (Ascii_compare_Lt_trans a b c E1 E2). reflexivity.
Qed.

Lemma leb_iff x y : String.leb x y = true <-> x = y \/ String_lt x y.
Proof.
  unfold String.leb, String_lt.
  destruct (String.compare x y) eqn:E.
  - apply String.compare_eq_iff in E. tauto.
  - tauto.
  - split; [discriminate|]. intros [->|H]; [|discriminate].
    assert (Hrefl : String.compare y y = Eq).
    { clear E. induction y as [|a y IH]; [reflexivity|].
      cbn. rewrite Ascii_compare_refl. exact IH. }
    congruence.
Qed.

Lemma leb_trans x y z :
  String.leb x y = true -> String.leb y z = true -> String.leb x z = true.
Proof.
  rewrite !leb_iff. intros [->|H1] [->|H2]; auto.
  right. eapply String_lt_trans; eassumption.
Qed.

Lemma sort_insert_perm x l : Permutation (sort_insert x l) (x :: l).
Proof.
  induction l as [|y l IH]; cbn [sort_insert]; [reflexivity|].
  destruct (String.leb x y); [reflexivity|].
  rewrite IH. apply perm_swap.
Qed.

Lemma sort_perm l : Permutation (sort l) l.
Proof.
  induction l as [|x l IH]; [reflexivity|].
  cbn [sort fold_right]. fold (sort l). rewrite sort_insert_perm, IH. reflexivity.
Qed.

Lemma sort_insert_sorted x l :
  StronglySorted (fun a b => String.leb a b = true) l ->
  StronglySorted (fun a b => String.leb a b = true) (sort_insert x l).
Proof.
  induction 1 as [|y l Hs IH Hall]; cbn [sort_insert].
  - constructor; constructor.
  - destruct (String.leb x y) eqn:E.
    + constructor; [constructor; assumption|].
      constructor; [exact E|].
      eapply List.Forall_impl; [|exact Hall]. intros z Hz. eapply leb_trans; eassumption.
    + constructor; [exact IH|].
      apply List.Forall_forall. intros z Hz.
      apply (Permutation_in _ (sort_insert_perm x l)) in Hz.
      destruct Hz as [<-|Hz].
      * destruct (String.leb_total x y) as [H|H]; congruence.
      * rewrite List.Forall_forall in Hall. apply Hall, Hz.
Qed.

Lemma sort_sorted l : StronglySorted (fun a b => String.leb a b = true) (sort l).
Proof.
  induction l as [|x l IH]; [constructor|].
  cbn [sort fold_right]. apply sort_insert_sorted, IH.
Qed.

Lemma sorted_NoDup_strict l :
  StronglySorted (fun a b => String.leb a b = true) l -> List.NoDup l ->
  StronglySorted String_lt l.
Proof.
  induction 1 as [|x l Hs IH Hall]; intros Hnd; [constructor|].
  inversion Hnd as [|? ? Hnotin Hnd']; subst.
  constructor; [apply IH, Hnd'|].
  apply List.Forall_forall. intros z Hz.
  rewrite List.Forall_forall in Hall. specialize (Hall z Hz).
  apply leb_iff in Hall. destruct Hall as [->|H]; [contradiction|exact H].
Qed.

(** ** Distinct values *)

Lemma existsb_eqb_In x l : existsb (String.eqb x) l = true <-> In x l.
Proof.
  rewrite existsb_exists. split.
  - intros (y & Hy & E). apply String.eqb_eq in E. subst. exact Hy.
  - intros H. exists x. split; [exact H|apply String.eqb_refl].
Qed.

Lemma Set_values_from seen arr :
  List.NoDup seen ->
  let r := fold_left (fun seen x => if existsb (String.eqb x) seen then seen else seen ++ [x])
                     arr seen in
  List.NoDup r /\ forall x, In x r <-> In x seen \/ In x arr.
Proof.
  revert seen. induction arr as [|y arr IH]; intros seen Hnd; cbn [fold_left].
  - split; [exact Hnd|]. intros x. cbn. tauto.
  - destruct (existsb (String.eqb y) seen) eqn:E.
    + destruct (IH seen Hnd) as [H1 H2]. split; [exact H1|].
      intros x. rewrite H2. apply existsb_eqb_In in E. cbn.
      split; [tauto|]. intros [H|[<-|H]]; auto.
    + assert (Hnotin : ~ In y seen).
      { intros H. apply existsb_eqb_In in H. congruence. }
      assert (Hnd' : List.NoDup (seen ++ [y])).
      { apply List.NoDup_app; [exact Hnd|constructor; [cbn; tauto|constructor]|].
        intros a Ha [<-|[]]. contradiction. }
      destruct (IH (seen ++ [y]) Hnd') as [H1 H2]. split; [exact H1|].
      intros x. rewrite H2, in_app_iff. cbn. tauto.
Qed.

Lemma Set_values_NoDup arr : List.NoDup (Set_values arr).
Proof. apply (Set_values_from [] arr). constructor. Qed.

Lemma Set_values_In arr x : In x (Set_values arr) <-> In x arr.
Proof.
  destruct (Set_values_from [] arr (List.NoDup_nil _)) as [_ H].
  unfold Set_values. rewrite H. cbn. tauto.
Qed.

Lemma filter_Boolean_In field (data : list PriceRecord) x :
  In x (filter_Boolean (map field data)) <-> offered field data x.
Proof.
  unfold filter_Boolean, offered. rewrite in_flat_map. split.
  - intros (v & Hv & Hx). apply in_map_iff in Hv. destruct Hv as (r & <- & Hr).
    destruct (field r) as [s|] eqn:E; [|contradiction].
    destruct s as [|a s]; [contradiction|].
    destruct Hx as [<-|[]]. split; [discriminate|eauto].
  - intros (Hx & r & Hr & E). exists (Some x). split.
    + rewrite <- E. apply in_map, Hr.
    + destruct x; [congruence|]. left. reflexivity.
Qed.

(** ** Repopulating a selector *)

Lemma select_add_all vals base :
  fold_left (fun sel option => select_add sel option option) vals base
  = {| sel_options := sel_options base ++ map (fun v => (v, v)) vals;
       sel_value := sel_value base |}.
Proof.
  revert base. induction vals as [|v vals IH]; intros base; cbn [fold_left map].
  - rewrite app_nil_r. destruct base; reflexivity.
  - rewrite IH. cbn. rewrite <- app_assoc. reflexivity.
Qed.

Lemma existsb_value_In (opts : list (string * string)) v :
  existsb (fun o => String.eqb (snd o) v) opts = true <-> In v (map snd opts).
Proof.
  rewrite existsb_exists, in_map_iff. split.
  - intros (o & Ho & E). apply String.eqb_eq in E. eauto.
  - intros (o & E & Ho). exists o. split; [exact Ho|]. subst. apply String.eqb_refl.
Qed.

Lemma updateSelect_repopulated field data before :
  repopulated field data before
    (updateSelect before (Set_values (filter_Boolean (map field data)))).
Proof.
  destruct before as [old|]; cbn [repopulated updateSelect]; [|reflexivity].
  set (values := sort (Set_values (filter_Boolean (map field data)))).
  rewrite select_add_all. cbn [sel_options sel_value app].
  eexists. exists values. split; [reflexivity|].
  cbn [select_set_value sel_options sel_value].
  split; [reflexivity|]. split; [|split; [|split]].
  - apply sorted_NoDup_strict; [apply sort_sorted|].
    eapply Permutation.Permutation_NoDup; [symmetry; apply sort_perm|apply Set_values_NoDup].
  - intros x. subst values. split.
    + intros H. apply (Permutation_in _ (sort_perm _)) in H.
      apply (proj1 (Set_values_In _ _)) in H.
      exact (proj1 (filter_Boolean_In _ _ _) H).
    + intros H. apply (proj2 (filter_Boolean_In _ _ _)) in H.
      apply (proj2 (Set_values_In _ _)) in H.
      exact (Permutation_in _ (Permutation_sym (sort_perm _)) H).
  - destruct (existsb _ _) eqn:E.
    + apply existsb_value_In in E. tauto.
    + split.
      * intros <-. cbn. auto.
      * intros H. apply existsb_value_In in H. congruence.
  - intros Hnot. destruct (existsb _ _) eqn:E; [|reflexivity].
    apply existsb_value_In in E. contradiction.
Qed.

(** Rendering ends normally unless the pagination container is there,
    records are loaded and the info element is missing. *)
Lemma render_normal s :
  pagination s = None \/ currentData s = [] \/ is_Some (pagination_info s) ->
  exists s2, (renderTable;; updatePagination) s = (Normal tt, s2).
Proof.
  intros H. unfold mbind, JSM_bind. rewrite renderTable_run.
  set (s1 := match tbody s with Some _ => set_tbody s (Some (table_html s)) | None => s end).
  assert (H1 : pagination s1 = pagination s /\ currentData s1 = currentData s
               /\ pagination_info s1 = pagination_info s).
  { subst s1. destruct (tbody s); repeat split. }
  destruct H1 as (Hpg & Hd & Hinfo).
  destruct (updatePagination_cases s1) as [[E _]|[[E (Hc & Hne & Hi)]|[E _]]];
    rewrite E; eauto.
  exfalso. rewrite Hpg in Hc. rewrite Hd in Hne. rewrite Hinfo in Hi.
  destruct H as [H|[H|H]].
  - rewrite H in Hc. destruct Hc; discriminate.
  - contradiction.
  - rewrite Hi in H. destruct H; discriminate.
Qed.

(** C5. After a successful fetch each of the four selectors offers, after
    the single "Todos" option with the empty value, the distinct non-empty
    values of its field in the loaded set in ascending order without
    duplicates; the value selected before stays selected exactly when it is
    still offered, and the selection is the empty value otherwise. *)
Theorem C5_selector_options (s : Page) (filters : Filters) (data : list PriceRecord) :
  pagination s = None \/ data = [] \/ is_Some (pagination_info s) ->
  exists s',
    fetchData filters (HttpResponse true (Some data)) s = (Normal tt, s')
    /\ currentData s' = data
    /\ repopulated DEPARTAMENTO data (departamento s) (departamento s')
    /\ repopulated PROVINCIA data (provincia s) (provincia s')
    /\ repopulated DISTRITO data (distrito s) (distrito s')
    /\ repopulated TIPO_ESTABLECIMIENTO data (tipoEstablecimiento s) (tipoEstablecimiento s').
Proof.
  intros Hdom. rewrite fetchData_split. unfold mbind at 1, JSM_bind at 1.
  rewrite fetchData_start_run.
  set (s0 := set_effects (set_loadingOverlay_d_none s false)
               (effects s ++ [Fetch (request_url filters)])).
  destruct (render_normal (set_currentPage (set_currentData s0 data) 1) Hdom)
    as [s2 Hrender].
  pose proof (render_frame _ _ _ Hrender) as (Hd & _ & _ & _ & Hdep & Hprov & Hdist & Htipo & _).
  cbn in Hd, Hdep, Hprov, Hdist, Htipo.
  rewrite (fetchData_resume_ok data s0 (Normal tt) s2 Hrender).
  eexists. split; [reflexivity|].
  cbn [currentData departamento provincia distrito tipoEstablecimiento
       set_loadingOverlay_d_none with_filter_options set_selects].
  rewrite Hd, Hdep, Hprov, Hdist, Htipo.
  split; [reflexivity|].
  repeat split; apply updateSelect_repopulated.
Qed.

Lemma C5_selector_options_witness :
  exists s',
    fetchData no_filters (HttpResponse true (Some fifteen_records)) cusco_chosen
    = (Normal tt, s')
    /\ repopulated DEPARTAMENTO fifteen_records (departamento cusco_chosen) (departamento s').
Proof.
  destruct (C5_selector_options cusco_chosen no_filters fifteen_records)
    as (s' & Hrun & _ & Hdep & _).
  - right. right. vm_compute. eauto.
  - exists s'. split; [exact Hrun|exact Hdep].
Defined.

(** The selectors after twenty-five records from three departments have
    been loaded, and after a second load that no longer offers the chosen
    department. *)
Example selector_samples :
  (sel_options <$> departamento twentyfive_loaded)
  = Some [("Todos", EmptyString); ("CUSCO", "CUSCO"); ("LIMA", "LIMA"); ("PUNO", "PUNO")]
  /\ (sel_options <$> tipoEstablecimiento twentyfive_loaded)
     = Some [("Todos", EmptyString); ("FARMACIA", "FARMACIA"); ("GRIFO", "GRIFO")]
  /\ (sel_value <$> departamento cusco_chosen) = Some "CUSCO"
  /\ let s' := snd (fetchData no_filters (HttpResponse true (Some fifteen_records))
                      cusco_chosen) in
     (sel_options <$> departamento s') = Some [("Todos", EmptyString); ("LIMA", "LIMA")]
     /\ (sel_value <$> departamento s') = Some EmptyString.
Proof. vm_compute. repeat split. Qed.

(** ** Missing elements *)

(** What the guards of the script do tolerate. *)
Lemma absent_elements_tolerated s :
  (tbody s = None -> renderTable s = (Normal tt, s))
  /\ (pagination s = None -> updatePagination s = (Normal tt, s))
  /\ (forall options, updateSelect None options = None)
  /\ (forall r v net, region_element r s = None -> change_region r v net s = (Normal tt, s))
  /\ (forall v, tipoEstablecimiento s = None ->
                change_tipoEstablecimiento v s = (Normal tt, s)).
Proof.
  split; [|split; [|split; [|split]]].
  - intros H. rewrite renderTable_run, H. reflexivity.
  - intros H. apply updatePagination_skip. left. exact H.
  - reflexivity.
  - intros r v net H. unfold change_region. unfold_monad. rewrite H. reflexivity.
  - intros v H. unfold change_tipoEstablecimiento. unfold_monad. rewrite H. reflexivity.
Qed.

(** C8. The claim reads: with any expected element absent, every client
    operation completes without throwing. In a document that has the
    [.pagination] container but no [.pagination-info] element,
    [updatePagination] throws a [TypeError] as soon as a record is loaded:
    its guard tests the container only. The listener of a page link and of
    the establishment-type selector let that exception escape, and inside
    [fetchData] it lands in the [catch] clause, so a load that succeeded
    alerts an error and leaves the selectors unpopulated. Likewise the
    listener of a region selector reads the value of its two siblings
    without a guard and throws when one of them is absent. *)
Theorem C8_missing_info_element_throws :
  is_Some (pagination one_record_without_info)
  /\ pagination_info one_record_without_info = None
  /\ updatePagination one_record_without_info
     = (Throw (TypeError "Cannot set properties of null (setting 'textContent')"),
        set_totalPages one_record_without_info 1)
  /\ fst (page_link_click (number_link true 1) (set_totalPages one_record_without_info 1))
     = Throw (TypeError "Cannot set properties of null (setting 'textContent')")
  /\ fst (change_tipoEstablecimiento "GRIFO" one_record_without_info)
     = Throw (TypeError "Cannot set properties of null (setting 'textContent')")
  /\ (let s' := snd (DOMContentLoaded (HttpResponse true (Some [record_of "LIMA" "GRIFO"]))
                       document_without_info) in
      List.filter is_alert (effects s') = [Alert alert_text]
      /\ (sel_options <$> departamento s') = Some [("Todos", EmptyString)])
  /\ (let '(c, s') := change_region Departamento "LIMA" NetworkError
                         document_without_provincia in
      c = Throw (TypeError "Cannot read properties of null (reading 'value')")
      /\ List.filter is_fetch (effects s') = []).
Proof. vm_compute. repeat split. eauto. Qed.

(** ** The adapters *)

Lemma cors_header_names :
  Server.toLowerCase "Access-Control-Allow-Origin" = "access-control-allow-origin"
  /\ Server.toLowerCase "Access-Control-Allow-Methods" = "access-control-allow-methods"
  /\ Server.toLowerCase "Access-Control-Allow-Headers" = "access-control-allow-headers".
Proof. repeat split; reflexivity. Qed.

Ltac cors_names :=
  destruct cors_header_names as (Horigin & Hmethods & Hheaders);
  unfold Server.has_cors_headers, Server.getHeader, Server.callback, Server.setHeader;
  cbn [Server.headers Server.statusCode Server.body];
  rewrite ?Horigin, ?Hmethods, ?Hheaders.

(** The callback of [api/api.js] leaves every response with the three
    headers, whatever was set before under any spelling of their names. *)
Lemma callback_has_cors_headers {Request : Type} (req : Request) res :
  Server.has_cors_headers (Server.callback req res).
Proof.
  cors_names. repeat split.
  - rewrite !lookup_insert_ne by discriminate. apply lookup_insert_eq.
  - rewrite lookup_insert_ne by discriminate. apply lookup_insert_eq.
  - apply lookup_insert_eq.
Qed.

(** It touches neither the status, nor the body, nor a header whose name
    differs from the three by more than case. *)
Lemma callback_touches_nothing_else {Request : Type} (req : Request) res :
  Server.statusCode (Server.callback req res) = Server.statusCode res
  /\ Server.body (Server.callback req res) = Server.body res
  /\ forall name,
       Server.toLowerCase name <> "access-control-allow-origin" ->
       Server.toLowerCase name <> "access-control-allow-methods" ->
       Server.toLowerCase name <> "access-control-allow-headers" ->
       Server.getHeader name (Server.callback req res) = Server.getHeader name res.
Proof.
  cors_names. repeat split.
  intros name H1 H2 H3. rewrite !lookup_insert_ne by congruence. reflexivity.
Qed.

(** A header that the application set in lower case is replaced, not
    doubled. *)
Example callback_replaces_other_spelling :
  let res := Server.setHeader "access-control-allow-origin" "https://example.org"
               Server.bare_response in
  Server.getHeader "Access-Control-Allow-Origin" res = Some "https://example.org"
  /\ Server.getHeader "ACCESS-CONTROL-ALLOW-ORIGIN" (Server.callback tt res) = Some "*"
  /\ size (Server.headers (Server.callback tt res)) = 3%nat.
Proof. repeat split; vm_compute; reflexivity. Qed.

(** The handler of the Mangum variant hands on what the wrapped application
    answers: the headers of its response are those of the application. *)
Lemma mangum_handler_adds_nothing {App Event Context_ : Type}
    (Mangum : App -> Event -> Context_ -> Server.ServerResponse) app event context name :
  Server.getHeader name (Server.mangum_handler Mangum app event context)
  = Server.getHeader name (Mangum app event context).
Proof. reflexivity. Qed.

(** C9. The code of the Mangum variant does not do what the claim says and
    what its sibling does.  The callback of the [createRequestHandler]
    variant leaves every response with the three permissive CORS headers.
    The handler of the Mangum variant, wrapped around an application that
    answers 200 with the body [[]] and no header, returns exactly that
    response: none of the three headers is set on it, while the callback
    of [api/api.js] applied to the same response sets all three. *)
Theorem C9_mangum_variant_omits_cors_headers :
  (forall (Request : Type) (req : Request) (res : Server.ServerResponse),
      Server.has_cors_headers (Server.callback req res))
  /\ (let returned :=
         Server.mangum_handler (fun (_ _ _ : unit) => Server.bare_response) tt tt tt in
       returned = Server.bare_response
       /\ Server.getHeader "Access-Control-Allow-Origin" returned = None
       /\ Server.getHeader "Access-Control-Allow-Methods" returned = None
       /\ Server.getHeader "Access-Control-Allow-Headers" returned = None
       /\ ~ Server.has_cors_headers returned
       /\ Server.has_cors_headers (Server.callback tt Server.bare_response)).
Proof.
  split.
  - intros Request req res. apply callback_has_cors_headers.
  - cbv zeta. split; [reflexivity|]. do 3 (split; [reflexivity|]). split.
    + intros [H _]. vm_compute in H. discriminate.
    + apply callback_has_cors_headers.
Qed.

(** ** Further properties of the script *)

(** *** Rendering *)

Ltac absurd_some :=
  match goal with
  | H : is_Some ?x, E : ?x = None |- _ => rewrite E in H; destruct H; discriminate
  | H : is_Some None |- _ => destruct H; discriminate
  end.

Ltac finish_cases :=
  repeat match goal with
         | H : _ \/ _ |- _ => destruct H
         | H : _ /\ _ |- _ => destruct H
         end;
  try contradiction; try discriminate; try absurd_some; try reflexivity;
  try assumption; try congruence; try tauto.

(** All that rendering does to the variables and the three elements. *)
Lemma render_result s c s1 :
  (renderTable;; updatePagination) s = (c, s1) ->
  currentData s1 = currentData s /\ currentPage s1 = currentPage s
  /\ tbody s1 = (fun _ => table_html s) <$> tbody s
  /\ (pagination s1 = None <-> pagination s = None)
  /\ (pagination_info s1 = None <-> pagination_info s = None)
  /\ (pagination s = None \/ currentData s = [] ->
      totalPages s1 = totalPages s /\ pagination s1 = pagination s
      /\ pagination_info s1 = pagination_info s)
  /\ (is_Some (pagination s) -> currentData s <> [] ->
      totalPages s1 = JS.ceil_div (Z.of_nat (length (currentData s))) itemsPerPage)
  /\ (is_Some (pagination s) -> currentData s <> [] -> is_Some (pagination_info s) ->
      pagination s1 = Some (pagination_items (currentPage s) (totalPages s1))
      /\ pagination_info s1
         = Some (pagination_info_text (currentPage s)
                   (Z.of_nat (length (currentData s))))).
Proof.
  intros Hrun.
  pose proof (render_frame _ _ _ Hrun) as (Hd & Hp & _ & _ & _ & _ & _ & _ & Htb).
  split; [exact Hd|]. split; [exact Hp|]. split; [exact Htb|].
  revert Hrun. unfold mbind, JSM_bind. rewrite renderTable_run.
  set (s0 := match tbody s with Some _ => set_tbody s (Some (table_html s)) | None => s end).
  assert (H0 : pagination s0 = pagination s /\ pagination_info s0 = pagination_info s
               /\ currentData s0 = currentData s /\ currentPage s0 = currentPage s
               /\ totalPages s0 = totalPages s).
  { subst s0. destruct (tbody s); repeat split. }
  destruct H0 as (Hpg0 & Hi0 & Hd0 & Hp0 & HT0).
  destruct (updatePagination_cases s0)
    as [[E Hskip]|[[E (Hc & Hne & Hnone)]|[E (Hc & Hne & Hsome)]]];
    rewrite E; intros Heq; inversion Heq; subst c s1; clear Heq;
    cbn [pagination pagination_info totalPages set_pagination set_pagination_info
         set_totalPages];
    rewrite ?Hpg0, ?Hi0, ?Hd0, ?Hp0, ?HT0 in *.
  all: repeat split; intros; finish_cases.
Qed.

(** *** The event loop keeps view and variables in step *)

Lemma table_html_same s s' :
  currentData s' = currentData s -> currentPage s' = currentPage s ->
  table_html s' = table_html s.
Proof. intros Hd Hp. unfold table_html. rewrite Hd, Hp. reflexivity. Qed.

Lemma same_view_in_sync s s' : same_view s s' -> in_sync s -> in_sync s'.
Proof.
  intros (Hd & Hp & HT & Htb & Hpg & Hi) (H1 & H0 & Hloaded).
  unfold in_sync. rewrite Hd, Hp, HT, Htb, Hpg, Hi, (table_html_same s s' Hd Hp).
  auto.
Qed.

Lemma render_in_sync s c s1 :
  (renderTable;; updatePagination) s = (c, s1) ->
  1 <= currentPage s ->
  (pagination s = None -> totalPages s = 0) ->
  (currentData s <> [] ->
   currentPage s <= JS.ceil_div (Z.of_nat (length (currentData s))) itemsPerPage) ->
  in_sync s1.
Proof.
  intros Hrun H1 H0 Hle.
  destruct (render_result s c s1 Hrun)
    as (Hd & Hp & Htb & Hpgn & Hin & Hskip & HT & Hboth).
  unfold in_sync. rewrite Hd, Hp, (table_html_same s s1 Hd Hp).
  split; [exact H1|]. split.
  { intros Hn. apply Hpgn in Hn. destruct (Hskip (or_introl Hn)) as (-> & _). auto. }
  intros Hne. cbv zeta. split; [auto|]. split.
  { rewrite Htb. destruct (tbody s); reflexivity. }
  assert (Hsome : forall x : option (list PageItem), is_Some x <-> x <> None).
  { intros [x|]; split; intros H; try congruence; eauto. destruct H; discriminate. }
  assert (Hsome' : forall x : option string, is_Some x <-> x <> None).
  { intros [x|]; split; intros H; try congruence; eauto. destruct H; discriminate. }
  split.
  - intros Hc. apply HT; [|exact Hne]. apply Hsome. apply Hsome in Hc. tauto.
  - intros Hc Hi. apply Hboth; [|exact Hne|].
    + apply Hsome. apply Hsome in Hc. tauto.
    + apply Hsome'. apply Hsome' in Hi. tauto.
Qed.

Lemma ceil_div_pos N : 1 <= N -> 1 <= JS.ceil_div N itemsPerPage.
Proof. intros H. pose proof (ceil_div_10 N). unfold itemsPerPage. lia. Qed.

Lemma nonempty_length {A} (l : list A) : l <> [] -> 1 <= Z.of_nat (length l).
Proof. destruct l; [congruence|]. cbn [length]. lia. Qed.

Lemma change_region_start_view s r v : same_view s (snd (change_region_start r v s)).
Proof.
  unfold change_region_start, region_change_start, element_value, fetchData_start,
    showLoading.
  unfold_monad.
  destruct (region_element r s) as [sel|]; [|repeat split].
  destruct r; cbn;
    repeat match goal with
           | |- context [match ?x with Some _ => _ | None => _ end] => destruct x
           end; repeat split.
Qed.

Lemma occur_in_sync s e : in_sync s -> in_sync (occur s e).
Proof.
  intros Hs. pose proof Hs as (H1 & H0 & Hloaded).
  destruct e as [r v|v|target|net]; unfold occur.
  - eapply same_view_in_sync; [apply change_region_start_view|exact Hs].
  - destruct (tipoEstablecimiento s) as [sel|] eqn:Hsel.
    2:{ unfold change_tipoEstablecimiento. unfold_monad. rewrite Hsel. exact Hs. }
    rewrite (change_tipoEstablecimiento_run s sel v Hsel), tipoEstablecimiento_change_run.
    match goal with
    | |- in_sync (snd (?m ?s0)) => destruct (m s0) as [c s1] eqn:Hrun
    end.
    apply (render_in_sync _ _ _ Hrun).
    + destruct (JS.truthy v); cbn; lia.
    + destruct (JS.truthy v); cbn; exact H0.
    + intros Hne. replace (currentPage _) with 1 by (destruct (JS.truthy v); reflexivity).
      apply ceil_div_pos, nonempty_length, Hne.
  - destruct (JS.parseInt (JS.ToString (data_page target))) as [n|] eqn:Hparse.
    2:{ rewrite page_link_click_out_of_range; [exact Hs|]. intros n Hn. congruence. }
    destruct (Z_le_dec 1 n) as [Hn1|Hn1], (Z_le_dec n (totalPages s)) as [HnT|HnT].
    2, 3, 4: rewrite page_link_click_out_of_range; [exact Hs|];
      intros m Hm; rewrite Hparse in Hm; injection Hm as <-; lia.
    rewrite (page_link_click_in_range target s n Hparse) by lia.
    destruct ((renderTable;; updatePagination) (set_currentPage s n)) as [c s1] eqn:Hrun.
    apply (render_in_sync _ _ _ Hrun); cbn.
    + exact Hn1.
    + exact H0.
    + intros Hne. destruct (Hloaded Hne) as (_ & _ & HT & _).
      destruct (pagination s) as [items|] eqn:Hpg.
      * rewrite <- HT by eauto. exact HnT.
      * rewrite H0 in HnT by reflexivity. lia.
  - destruct (rejection net) as [e|] eqn:Hrej.
    + rewrite (fetchData_resume_rejected net e s Hrej).
      eapply same_view_in_sync; [|exact Hs]. repeat split.
    + destruct net as [|[] [data|]]; try discriminate.
      destruct ((renderTable;; updatePagination) (set_currentPage (set_currentData s data) 1))
        as [c s2] eqn:Hrun.
      rewrite (fetchData_resume_ok data s c s2 Hrun).
      assert (Hs2 : in_sync s2).
      { apply (render_in_sync _ _ _ Hrun); cbn.
        - lia.
        - exact H0.
        - intros Hne. apply ceil_div_pos, nonempty_length, Hne. }
      eapply same_view_in_sync; [|exact Hs2].
      destruct c as [[]|e]; repeat split.
Qed.

Lemma initial_in_sync doc :
  in_sync (snd (fetchData_start no_filters (initial_variables doc))).
Proof.
  rewrite fetchData_start_run. unfold in_sync, initial_variables.
  cbn [snd currentPage totalPages currentData pagination set_effects
       set_loadingOverlay_d_none set_totalPages set_currentPage set_currentData].
  split; [lia|]. split; [reflexivity|]. congruence.
Qed.

Lemma session_in_sync doc es : in_sync (session doc es).
Proof.
  unfold session. generalize (initial_in_sync doc).
  generalize (snd (fetchData_start no_filters (initial_variables doc))).
  induction es as [|e es IH]; intros s Hs; cbn [fold_left]; [exact Hs|].
  apply IH, occur_in_sync, Hs.
Qed.

(** The uninterrupted calls of the claims are turns of this loop. *)
Lemma DOMContentLoaded_session net doc :
  snd (DOMContentLoaded net doc) = session doc [Answers net].
Proof. reflexivity. Qed.

Lemma change_region_turns r v net s sel :
  region_element r s = Some sel ->
  snd (change_region r v net s)
  = match fst (change_region_start r v s) with
    | Normal _ => occur (occur s (PicksRegion r v)) (Answers net)
    | Throw _ => occur s (PicksRegion r v)
    end.
Proof.
  unfold occur, change_region, change_region_start, region_change, region_change_start,
    element_value, fetchData, fetchData_start, fetchData_resume.
  unfold_monad. intros ->.
  destruct r; cbn;
    repeat match goal with
           | |- context [match ?x with Some _ => _ | None => _ end] => destruct x
           end; reflexivity.
Qed.

(** X1. Whatever the user does and the network answers after the page has
    loaded, the current page is at least 1, and while records are loaded it
    is one of their pages: the table body, if the document has one, shows
    between one and ten records, namely those of the current page, and
    when the pagination container and the info element exist,
    [totalPages], the links and the info text are those of the current
    page. *)
Theorem session_view_in_step (doc : Page) (es : list Occurrence) :
  let s := session doc es in
  let N := Z.of_nat (length (currentData s)) in
  let rows := page_records (currentData s) (currentPage s) in
  1 <= currentPage s
  /\ (currentData s <> [] ->
      currentPage s <= JS.ceil_div N 10
      /\ (1 <= length rows <= 10)%nat
      /\ (forall tb, tbody s = Some tb -> tb = JS.join (map row_html rows))
      /\ (is_Some (pagination s) -> is_Some (pagination_info s) ->
          totalPages s = JS.ceil_div N 10
          /\ pagination s = Some (pagination_items (currentPage s) (totalPages s))
          /\ pagination_info s = Some (pagination_info_text (currentPage s) N))).
Proof.
  intros s N rows.
  destruct (session_in_sync doc es) as (H1 & H0 & Hloaded). fold s in H1, H0, Hloaded.
  split; [exact H1|]. intros Hne.
  destruct (Hloaded Hne) as (Hle & Htb & HT & Hboth). fold N in Hle, HT, Hboth.
  change itemsPerPage with 10 in *.
  pose proof (ceil_div_10 N) as Hceil.
  split; [exact Hle|]. split; [|split].
  - subst rows. rewrite page_records_length by (fold N; lia). fold N. lia.
  - intros tb Htb'. rewrite Htb' in Htb. injection Htb as ->.
    unfold table_html. rewrite slice_page by exact H1. reflexivity.
  - intros Hc Hi. split; [apply HT, Hc|apply Hboth; assumption].
Qed.

(** X2. Rendering twice is rendering once: after [renderTable] and
    [updatePagination] have run, running them again changes nothing and
    ends the same way. *)
Theorem render_idempotent (s : Page) c s1 :
  (renderTable;; updatePagination) s = (c, s1) ->
  (renderTable;; updatePagination) s1 = (c, s1).
Proof.
  destruct s as [data page total overlay tb pg info d p t e eff].
  unfold renderTable, updatePagination, set_paginationInfo_textContent. unfold_monad.
  destruct tb, pg, info, data; cbn -[JS.ceil_div pagination_items pagination_info_text table_html];
    intros H; injection H as <- <-; reflexivity.
Qed.

Lemma render_idempotent_witness :
  (renderTable;; updatePagination) fifteen_rendered = (Normal tt, fifteen_rendered).
Proof.
  apply (render_idempotent fifteen_on_page_two). vm_compute. reflexivity.
Defined.

(** *** Narrowing by establishment type *)

Lemma kept_by_kept_by a b data :
  kept_by b (kept_by a data) = if String.eqb a b then kept_by a data else [].
Proof.
  unfold kept_by. induction data as [|r data IH]; cbn [List.filter].
  - destruct (String.eqb a b); reflexivity.
  - destruct (bool_decide (TIPO_ESTABLECIMIENTO r = Some a)) eqn:Ea; [|exact IH].
    apply bool_decide_eq_true in Ea. cbn [List.filter]. rewrite IH.
    destruct (String.eqb_spec a b) as [->|Hab].
    + rewrite bool_decide_eq_true_2 by exact Ea. reflexivity.
    + rewrite bool_decide_eq_false_2; [reflexivity|]. congruence.
Qed.

Lemma kept_by_sublist tipo data : sublist (kept_by tipo data) data.
Proof.
  unfold kept_by. induction data as [|r data IH]; cbn [List.filter]; [constructor|].
  destruct (bool_decide _); constructor; exact IH.
Qed.

Lemma ceil_div_mono a b : a <= b -> JS.ceil_div a 10 <= JS.ceil_div b 10.
Proof. intros H. unfold JS.ceil_div. apply Z.div_le_mono; lia. Qed.

(** The selector the listener leaves behind. *)
Lemma change_tipoEstablecimiento_select s sel v :
  tipoEstablecimiento s = Some sel ->
  tipoEstablecimiento (snd (change_tipoEstablecimiento v s)) = Some (choose v sel).
Proof.
  intros Hsel. rewrite (change_tipoEstablecimiento_run s sel v Hsel).
  rewrite tipoEstablecimiento_change_run.
  match goal with
  | |- tipoEstablecimiento (snd (?m ?s0)) = _ => destruct (m s0) as [c s1] eqn:Hrun
  end.
  pose proof (render_frame _ _ _ Hrun) as (_ & _ & _ & _ & _ & _ & _ & Ht & _).
  cbn [snd]. rewrite Ht. destruct (JS.truthy v); reflexivity.
Qed.

Lemma change_tipoEstablecimiento_data s sel v :
  tipoEstablecimiento s = Some sel ->
  currentData (snd (change_tipoEstablecimiento v s))
  = if JS.truthy v then kept_by v (currentData s) else currentData s.
Proof.
  intros Hsel.
  destruct (change_tipoEstablecimiento v s) as [c s'] eqn:Hrun.
  apply (change_tipoEstablecimiento_spec s sel v c s' Hsel Hrun).
Qed.

(** X3. Two narrowings in a row compose: choosing the same establishment
    type again keeps the working set, choosing a different one empties it,
    because the second filter runs on what the first one left and not on
    the fetched set. *)
Theorem narrowing_twice (s : Page) (sel : Select) (a b : string) :
  tipoEstablecimiento s = Some sel -> a <> EmptyString -> b <> EmptyString ->
  let s1 := snd (change_tipoEstablecimiento a s) in
  let s2 := snd (change_tipoEstablecimiento b s1) in
  (a = b -> currentData s2 = currentData s1)
  /\ (a <> b ->
      currentData s2 = []
      /\ forall tb, tbody s = Some tb -> tbody s2 = Some empty_table).
Proof.
  intros Hsel Ha Hb. cbv zeta.
  pose proof (change_tipoEstablecimiento_select s sel a Hsel) as Hsel1.
  destruct (change_tipoEstablecimiento a s) as [c1 s1] eqn:Hrun1. cbn [snd] in *.
  pose proof (change_tipoEstablecimiento_spec s sel a c1 s1 Hsel Hrun1)
    as (_ & Hd1 & _ & Htb1 & _).
  rewrite (truthy_nonempty a Ha) in Hd1, Htb1.
  destruct (change_tipoEstablecimiento b s1) as [c2 s2] eqn:Hrun2. cbn [snd].
  pose proof (change_tipoEstablecimiento_spec s1 _ b c2 s2 Hsel1 Hrun2)
    as (_ & Hd2 & _ & Htb2 & _).
  rewrite (truthy_nonempty b Hb), Hd1, kept_by_kept_by in Hd2, Htb2.
  split.
  - intros ->. rewrite String.eqb_refl in Hd2. congruence.
  - intros Hab. destruct (String.eqb_spec a b) as [|_]; [contradiction|].
    split; [exact Hd2|]. intros tb Htb.
    rewrite Htb2, Htb1, Htb. reflexivity.
Qed.

Lemma narrowing_twice_witness :
  currentData (snd (change_tipoEstablecimiento "GRIFO"
                      (snd (change_tipoEstablecimiento "FARMACIA" twentyfive_loaded))))
  = [].
Proof.
  assert (Hsel : tipoEstablecimiento twentyfive_loaded
                 = Some {| sel_options := [("Todos", EmptyString); ("FARMACIA", "FARMACIA");
                                           ("GRIFO", "GRIFO")];
                           sel_value := EmptyString |})
    by (vm_compute; reflexivity).
  apply (narrowing_twice twentyfive_loaded _ "FARMACIA" "GRIFO" Hsel); discriminate.
Defined.

(** X4. A change of the establishment-type selector never adds a record
    and never reorders: the new working set is a sublist of the old one,
    so the number of pages cannot grow. *)
Theorem narrowing_shrinks (s : Page) (sel : Select) (v : string) :
  tipoEstablecimiento s = Some sel ->
  let s' := snd (change_tipoEstablecimiento v s) in
  sublist (currentData s') (currentData s)
  /\ (length (currentData s') <= length (currentData s))%nat
  /\ JS.ceil_div (Z.of_nat (length (currentData s'))) 10
     <= JS.ceil_div (Z.of_nat (length (currentData s))) 10.
Proof.
  intros Hsel s'. subst s'.
  rewrite (change_tipoEstablecimiento_data s sel v Hsel).
  assert (Hsub : sublist (if JS.truthy v then kept_by v (currentData s) else currentData s)
                         (currentData s)).
  { destruct (JS.truthy v); [apply kept_by_sublist|reflexivity]. }
  pose proof (sublist_length _ _ Hsub) as Hlen.
  split; [exact Hsub|]. split; [exact Hlen|]. apply ceil_div_mono. lia.
Qed.

Lemma narrowing_shrinks_witness :
  (length (currentData (snd (change_tipoEstablecimiento "FARMACIA" twentyfive_loaded)))
   <= length (currentData twentyfive_loaded))%nat.
Proof.
  assert (Hsel : tipoEstablecimiento twentyfive_loaded
                 = Some {| sel_options := [("Todos", EmptyString); ("FARMACIA", "FARMACIA");
                                           ("GRIFO", "GRIFO")];
                           sel_value := EmptyString |})
    by (vm_compute; reflexivity).
  apply (narrowing_shrinks twentyfive_loaded _ "FARMACIA" Hsel).
Defined.

Lemma kept_by_none tipo data :
  (forall r, In r data -> TIPO_ESTABLECIMIENTO r <> Some tipo) -> kept_by tipo data = [].
Proof.
  intros H. unfold kept_by. induction data as [|r data IH]; [reflexivity|].
  cbn [List.filter]. rewrite bool_decide_eq_false_2 by (apply H; left; reflexivity).
  apply IH. intros r' Hr'. apply H. right. exact Hr'.
Qed.

(** X5. Narrowing to an establishment type no loaded record has empties
    the table but leaves the pagination as it was: [updatePagination]
    returns before touching anything when no record is left, so links,
    info text and [totalPages] still describe the set from before. *)
Theorem empty_narrowing_keeps_pagination (s : Page) (sel : Select) (tipo : string) :
  tipoEstablecimiento s = Some sel -> tipo <> EmptyString ->
  (forall r, In r (currentData s) -> TIPO_ESTABLECIMIENTO r <> Some tipo) ->
  exists s',
    change_tipoEstablecimiento tipo s = (Normal tt, s')
    /\ currentData s' = [] /\ currentPage s' = 1
    /\ (forall tb, tbody s = Some tb -> tbody s' = Some empty_table)
    /\ pagination s' = pagination s
    /\ pagination_info s' = pagination_info s
    /\ totalPages s' = totalPages s.
Proof.
  intros Hsel Htipo Hnone.
  rewrite (change_tipoEstablecimiento_run s sel tipo Hsel), tipoEstablecimiento_change_run.
  rewrite (truthy_nonempty tipo Htipo).
  cbn [currentData set_selects]. rewrite (kept_by_none tipo _ Hnone).
  match goal with
  | |- context [(renderTable;; updatePagination) ?s0] =>
      destruct (render_normal s0) as [s' Hrun]; [right; left; reflexivity|];
      pose proof (render_result s0 _ _ Hrun)
        as (Hd & Hp & Htb & _ & _ & Hskip & _)
  end.
  destruct (Hskip (or_intror eq_refl)) as (HT & Hpg & Hi).
  exists s'. split; [exact Hrun|]. cbn in Hd, Hp, Htb, HT, Hpg, Hi.
  split; [exact Hd|]. split; [exact Hp|]. split; [|auto].
  intros tb Htb'. rewrite Htb, Htb'. reflexivity.
Qed.

Lemma empty_narrowing_keeps_pagination_witness :
  exists s',
    change_tipoEstablecimiento "BODEGA" fifteen_rendered = (Normal tt, s')
    /\ currentData s' = []
    /\ pagination_info s' = Some "Mostrando 11 a 15 de 15 registros".
Proof.
  destruct (empty_narrowing_keeps_pagination fifteen_rendered todos "BODEGA")
    as (s' & Hrun & Hd & _ & _ & _ & Hi & _).
  - vm_compute. reflexivity.
  - discriminate.
  - intros r Hr. apply repeat_spec in Hr. subst r. discriminate.
  - exists s'. split; [exact Hrun|]. split; [exact Hd|].
    rewrite Hi. vm_compute. reflexivity.
Defined.

(** *** Selectors *)

(** A fetch that succeeds in a document where rendering cannot throw. *)
Lemma fetchData_ok_result s filters data :
  pagination s = None \/ data = [] \/ is_Some (pagination_info s) ->
  exists s2,
    fetchData filters (HttpResponse true (Some data)) s
    = (Normal tt, set_loadingOverlay_d_none (with_filter_options s2) true)
    /\ currentData s2 = data /\ currentPage s2 = 1
    /\ tbody s2 = (fun _ => JS.join (map row_html (take 10 data))) <$> tbody s
    /\ departamento s2 = departamento s /\ provincia s2 = provincia s
    /\ distrito s2 = distrito s /\ tipoEstablecimiento s2 = tipoEstablecimiento s.
Proof.
  intros Hdom. rewrite fetchData_split. unfold mbind at 1, JSM_bind at 1.
  rewrite fetchData_start_run.
  set (s0 := set_effects (set_loadingOverlay_d_none s false)
               (effects s ++ [Fetch (request_url filters)])).
  destruct (render_normal (set_currentPage (set_currentData s0 data) 1) Hdom)
    as [s2 Hrender].
  pose proof (render_frame _ _ _ Hrender)
    as (Hd & Hp & _ & _ & Hdep & Hprov & Hdist & Htipo & Htb).
  cbn in Hd, Hp, Hdep, Hprov, Hdist, Htipo, Htb.
  rewrite (fetchData_resume_ok data s0 (Normal tt) s2 Hrender).
  exists s2. split; [reflexivity|]. repeat (split; [assumption|]).
  split; [|auto].
  rewrite Htb. rewrite table_html_first by reflexivity. reflexivity.
Qed.

(** X6. A fetch does not re-apply the establishment type that is selected:
    when the chosen type still occurs in the records that arrive, the
    selector keeps showing it, yet the working set is the whole response
    and the table shows its first ten records, of whatever type. *)
Theorem type_selection_outlives_fetch (s : Page) (sel : Select) (filters : Filters)
    (data : list PriceRecord) :
  tipoEstablecimiento s = Some sel ->
  offered TIPO_ESTABLECIMIENTO data (sel_value sel) ->
  pagination s = None \/ data = [] \/ is_Some (pagination_info s) ->
  exists s' new,
    fetchData filters (HttpResponse true (Some data)) s = (Normal tt, s')
    /\ tipoEstablecimiento s' = Some new
    /\ sel_value new = sel_value sel
    /\ currentData s' = data
    /\ (forall tb, tbody s = Some tb ->
        tbody s' = Some (JS.join (map row_html (take 10 data)))).
Proof.
  intros Hsel Hoff Hdom.
  destruct (fetchData_ok_result s filters data Hdom)
    as (s2 & Hrun & Hd & _ & Htb & _ & _ & _ & Htipo).
  pose proof (updateSelect_repopulated TIPO_ESTABLECIMIENTO data (Some sel)) as Hrep.
  cbn [repopulated] in Hrep.
  destruct Hrep as (new & values & Hnew & Hopts & _ & Hvals & Hkeep & _).
  eexists. exists new. split; [exact Hrun|].
  cbn [tipoEstablecimiento currentData tbody set_loadingOverlay_d_none
       with_filter_options set_selects].
  rewrite Hd, Htipo, Hsel. split; [exact Hnew|]. split.
  - apply Hkeep. rewrite Hopts. cbn [map snd]. right.
    rewrite map_map. cbn [snd]. rewrite map_id. apply Hvals, Hoff.
  - split; [reflexivity|]. intros tb Htb'. rewrite Htb, Htb'. reflexivity.
Qed.

Lemma type_selection_outlives_fetch_witness :
  exists s' new,
    fetchData no_filters (HttpResponse true (Some twentyfive_records))
      (snd (change_tipoEstablecimiento "FARMACIA" twentyfive_loaded))
    = (Normal tt, s')
    /\ tipoEstablecimiento s' = Some new
    /\ sel_value new = "FARMACIA"
    /\ length (currentData s') = 25%nat.
Proof.
  destruct (type_selection_outlives_fetch
              (snd (change_tipoEstablecimiento "FARMACIA" twentyfive_loaded))
              {| sel_options := [("Todos", EmptyString); ("FARMACIA", "FARMACIA");
                                 ("GRIFO", "GRIFO")];
                 sel_value := "FARMACIA" |}
              no_filters twentyfive_records)
    as (s' & new & Hrun & Hnew & Hval & Hd & _).
  - vm_compute. reflexivity.
  - split; [discriminate|]. exists (record_of "LIMA" "FARMACIA").
    split; [|reflexivity]. vm_compute. tauto.
  - right. right. vm_compute. eauto.
  - exists s', new. split; [exact Hrun|]. split; [exact Hnew|]. split; [exact Hval|].
    rewrite Hd. reflexivity.
Defined.

(** Strictly ascending lists with the same members are the same list. *)
Lemma String_lt_irrefl x : ~ String_lt x x.
Proof.
  unfold String_lt. intros H.
  assert (Hrefl : String.compare x x = Eq).
  { clear H. induction x as [|a x IH]; [reflexivity|].
    cbn. rewrite Ascii_compare_refl. exact IH. }
  congruence.
Qed.

Lemma strictly_sorted_unique l l' :
  StronglySorted String_lt l -> StronglySorted String_lt l' ->
  (forall x, In x l <-> In x l') -> l = l'.
Proof.
  intros Hl. revert l'. induction Hl as [|x l Hs IH Hall]; intros l' Hl' Hsame.
  - destruct l' as [|y l']; [reflexivity|]. exfalso. apply (Hsame y). left. reflexivity.
  - destruct Hl' as [|y l' Hs' Hall'].
    { exfalso. apply (Hsame x). left. reflexivity. }
    rewrite List.Forall_forall in Hall, Hall'.
    assert (Hxy : x = y).
    { destruct (proj1 (Hsame x) (or_introl eq_refl)) as [Hyx|Hx]; [congruence|].
      destruct (proj2 (Hsame y) (or_introl eq_refl)) as [Hxy|Hy]; [congruence|].
      exfalso. apply (String_lt_irrefl x).
      eapply String_lt_trans; [apply Hall, Hy|apply Hall', Hx]. }
    subst y. f_equal. apply IH; [exact Hs'|].
    intros z. split; intros Hz.
    + destruct (proj1 (Hsame z) (or_intror Hz)) as [<-|H]; [|exact H].
      exfalso. apply (String_lt_irrefl x), Hall, Hz.
    + destruct (proj2 (Hsame z) (or_intror Hz)) as [<-|H]; [|exact H].
      exfalso. apply (String_lt_irrefl x), Hall', Hz.
Qed.

Lemma sorted_values_sorted (arr : list string) :
  StronglySorted String_lt (sort (Set_values arr))
  /\ forall x, In x (sort (Set_values arr)) <-> In x arr.
Proof.
  split.
  - apply sorted_NoDup_strict; [apply sort_sorted|].
    eapply Permutation.Permutation_NoDup; [symmetry; apply sort_perm|apply Set_values_NoDup].
  - intros x. rewrite <- (Set_values_In arr x). split; apply Permutation_in.
    + apply sort_perm.
    + symmetry. apply sort_perm.
Qed.

(** X7. The options of a selector depend only on which non-empty values
    the field takes in the loaded set, not on the order of the records or
    on how often a value occurs: two record sets with the same values give
    the same selector. *)
Theorem options_depend_on_values_only (field : PriceRecord -> option string)
    (data data' : list PriceRecord) (el : option Select) :
  (forall x, offered field data x <-> offered field data' x) ->
  updateSelect el (Set_values (filter_Boolean (map field data)))
  = updateSelect el (Set_values (filter_Boolean (map field data'))).
Proof.
  intros Hsame. destruct el as [sel|]; [|reflexivity].
  unfold updateSelect.
  destruct (sorted_values_sorted (filter_Boolean (map field data))) as [Hs Hin].
  destruct (sorted_values_sorted (filter_Boolean (map field data'))) as [Hs' Hin'].
  rewrite (strictly_sorted_unique _ _ Hs Hs'); [reflexivity|].
  intros x. rewrite Hin, Hin', !filter_Boolean_In. apply Hsame.
Qed.

Lemma options_depend_on_values_only_witness :
  updateSelect (Some todos)
    (Set_values (filter_Boolean (map DEPARTAMENTO
       [record_of "LIMA" "GRIFO"; record_of "CUSCO" "GRIFO"; record_of "LIMA" "FARMACIA"])))
  = updateSelect (Some todos)
      (Set_values (filter_Boolean (map DEPARTAMENTO
         [record_of "CUSCO" "BODEGA"; record_of "LIMA" "GRIFO"]))).
Proof.
  apply options_depend_on_values_only. intros x. unfold offered. split.
  - intros (Hx & r & [<-|[<-|[<-|[]]]] & E); split; try exact Hx.
    + exists (record_of "LIMA" "GRIFO"). split; [right; left; reflexivity|exact E].
    + exists (record_of "CUSCO" "BODEGA"). split; [left; reflexivity|exact E].
    + exists (record_of "LIMA" "GRIFO"). split; [right; left; reflexivity|exact E].
  - intros (Hx & r & [<-|[<-|[]]] & E); split; try exact Hx.
    + exists (record_of "CUSCO" "GRIFO"). split; [right; left; reflexivity|exact E].
    + exists (record_of "LIMA" "GRIFO"). split; [left; reflexivity|exact E].
Defined.

Lemma updateSelect_idempotent el options :
  updateSelect (updateSelect el options) options = updateSelect el options.
Proof.
  destruct el as [sel|]; [|reflexivity].
  unfold updateSelect. rewrite select_add_all.
  cbn [sel_options sel_value app select_set_value].
  destruct (existsb (fun o => String.eqb (snd o) (sel_value sel))
              (("Todos", EmptyString) :: map (fun v => (v, v)) (sort options))) eqn:E.
  - reflexivity.
  - unfold select_set_value. cbn [sel_options sel_value]. rewrite E. reflexivity.
Qed.

(** X8. Repopulating the selectors is idempotent: a second
    [updateFilterOptions] on the same working set changes no option and no
    selection. *)
Theorem updateFilterOptions_idempotent (s : Page) :
  exists s1,
    updateFilterOptions s = (Normal tt, s1)
    /\ updateFilterOptions s1 = (Normal tt, s1).
Proof.
  exists (with_filter_options s). split; [apply updateFilterOptions_run|].
  rewrite updateFilterOptions_run. f_equal.
  unfold with_filter_options.
  cbn [currentData departamento provincia distrito tipoEstablecimiento set_selects].
  rewrite !updateSelect_idempotent. reflexivity.
Qed.

(** *** The pagination entries *)

Lemma Zseq_sorted a n : StronglySorted Z.lt (Zseq a n).
Proof.
  revert a. induction n as [|n IH]; intros a; cbn [Zseq]; constructor.
  - apply IH.
  - apply List.Forall_forall. intros x Hx. apply Zseq_In in Hx. lia.
Qed.

Lemma filter_sorted (f : Z -> bool) l :
  StronglySorted Z.lt l -> StronglySorted Z.lt (List.filter f l).
Proof.
  induction 1 as [|x l Hs IH Hall]; cbn [List.filter]; [constructor|].
  destruct (f x); [|exact IH]. constructor; [exact IH|].
  rewrite List.Forall_forall in *. intros y Hy. apply filter_In in Hy. apply Hall, Hy.
Qed.

Lemma Zbetween_length a b : Z.of_nat (length (Zbetween a b)) = Z.max 0 (b - a).
Proof. unfold Zbetween. rewrite Zseq_length. lia. Qed.

Lemma link_targets_number_link active i l :
  link_targets (number_link active i :: l) = i :: link_targets l.
Proof.
  unfold link_targets. cbn [flat_map data_page number_link].
  rewrite parseInt_Number_toString. reflexivity.
Qed.

Lemma link_targets_ellipsis l : link_targets (ellipsis :: l) = link_targets l.
Proof. reflexivity. Qed.

Lemma link_targets_links p l :
  link_targets (map (fun i => number_link (i =? p) i) l) = l.
Proof.
  induction l as [|i l IH]; [reflexivity|].
  cbn [map]. rewrite link_targets_number_link, IH. reflexivity.
Qed.

(** X9. However many pages there are, the pagination stays small: at most
    seven numbered links and two ellipses between "Anterior" and
    "Siguiente", eleven entries in all, the numbered links in strictly
    ascending order of their page. *)
Theorem pagination_bounded (p T : Z) :
  1 <= T -> 1 <= p <= T ->
  (length (link_targets (page_number_items p T)) <= 7)%nat
  /\ (length (List.filter is_ellipsis (page_number_items p T)) <= 2)%nat
  /\ (length (pagination_items p T) <= 11)%nat
  /\ StronglySorted Z.lt (link_targets (page_number_items p T)).
Proof.
  intros HT Hp.
  assert (Hsorted : StronglySorted Z.lt (link_targets (page_number_items p T))).
  { rewrite link_targets_page_number_items by assumption.
    apply filter_sorted, Zseq_sorted. }
  assert (Hitems : length (page_number_items p T)
                   = (1 + (if (5 <=? p)%Z then 1 else 0)
                      + length (Zbetween (Z.max 2 (p - 2)%Z) (Z.min T (p + 3)%Z))
                      + (if (p + 3 <=? T - 1)%Z then 1 else 0)
                      + (if (2 <=? T)%Z then 1 else 0))%nat).
  { rewrite page_number_items_closed by assumption. unfold closed_window.
    cbn [length]. rewrite !length_app, length_map.
    destruct (5 <=? p), (p + 3 <=? T - 1), (2 <=? T); cbn [length]; lia. }
  assert (Hlinks : length (link_targets (page_number_items p T))
                   = (1 + length (Zbetween (Z.max 2 (p - 2)%Z) (Z.min T (p + 3)%Z))
                      + (if (2 <=? T)%Z then 1 else 0))%nat).
  { rewrite page_number_items_closed by assumption. unfold closed_window.
    rewrite link_targets_number_link, !link_targets_app, link_targets_links.
    cbn [length]. rewrite !length_app.
    destruct (5 <=? p), (p + 3 <=? T - 1), (2 <=? T);
      rewrite ?link_targets_number_link, ?link_targets_ellipsis; cbn [length link_targets flat_map];
      lia. }
  assert (Hell : length (List.filter is_ellipsis (page_number_items p T))
                 = ((if (5 <=? p)%Z then 1 else 0) + (if (p + 3 <=? T - 1)%Z then 1 else 0))%nat).
  { rewrite page_number_items_closed by assumption. unfold closed_window.
    cbn [List.filter is_ellipsis data_page number_link].
    rewrite !List.filter_app, !length_app.
    assert (Hmap : forall l, List.filter is_ellipsis
                               (map (fun i => number_link (i =? p) i) l) = []).
    { induction l as [|i l IH]; [reflexivity|]. exact IH. }
    rewrite Hmap.
    destruct (5 <=? p), (p + 3 <=? T - 1), (2 <=? T); reflexivity. }
  pose proof (Zbetween_length (Z.max 2 (p - 2)) (Z.min T (p + 3))) as Hwin.
  split; [|split; [|split; [|exact Hsorted]]].
  - rewrite Hlinks. destruct (Z.leb_spec 2 T); lia.
  - rewrite Hell. destruct (5 <=? p), (p + 3 <=? T - 1); lia.
  - unfold pagination_items. rewrite !length_app. cbn [length]. rewrite Hitems.
    destruct (Z.leb_spec 5 p), (Z.leb_spec (p + 3) (T - 1)), (Z.leb_spec 2 T); lia.
Qed.

Lemma pagination_bounded_witness :
  (length (pagination_items 500 1000) <= 11)%nat.
Proof. apply (pagination_bounded 500 1000); lia. Defined.

Lemma filter_flat_map {A B} (f : B -> bool) (g : A -> list B) l :
  List.filter f (flat_map g l) = flat_map (fun x => List.filter f (g x)) l.
Proof.
  induction l as [|x l IH]; [reflexivity|].
  cbn [flat_map]. rewrite List.filter_app, IH. reflexivity.
Qed.

Lemma active_page_entry p T i :
  List.filter is_active (page_entry p T i)
  = if i =? p then [number_link true p] else [].
Proof.
  unfold page_entry.
  destruct (Z.eqb_spec i p) as [->|Hip].
  - replace ((p - 2 <=? p) && (p <=? p + 2)) with true
      by (symmetry; apply andb_true_iff; split; apply Z.leb_le; lia).
    rewrite orb_true_r. reflexivity.
  - destruct ((i =? 1) || (i =? T) || (p - 2 <=? i) && (i <=? p + 2)); [reflexivity|].
    destruct ((i =? p - 3) || (i =? p + 3)); reflexivity.
Qed.

(** X10. Among the entries rendered for page [p] of [T] exactly one is
    marked active, the link of page [p] itself; "Anterior" is disabled
    exactly on the first page and "Siguiente" exactly on the last. *)
Theorem one_active_entry (p T : Z) :
  1 <= T -> 1 <= p <= T ->
  List.filter is_active (pagination_items p T) = [number_link true p]
  /\ (li_class (anterior p) = "disabled" <-> p = 1)
  /\ (li_class (siguiente p T) = "disabled" <-> p = T).
Proof.
  intros HT Hp. split; [|split].
  - unfold pagination_items. rewrite !List.filter_app.
    rewrite page_number_items_flat_map, filter_flat_map.
    rewrite (flat_map_Zbetween_ext _ (fun i => if i =? p then [number_link true p] else []))
      by (intros i _; apply active_page_entry).
    rewrite (Zbetween_split 1 p (T + 1)) by lia.
    rewrite (Zbetween_cons p (T + 1)) by lia.
    rewrite flat_map_app. cbn [flat_map]. rewrite Z.eqb_refl.
    rewrite (flat_map_Zbetween_ext _ (fun _ => []) 1 p)
      by (intros i Hi; destruct (Z.eqb_spec i p); [lia|reflexivity]).
    rewrite (flat_map_Zbetween_ext _ (fun _ => []) (p + 1) (T + 1))
      by (intros i Hi; destruct (Z.eqb_spec i p); [lia|reflexivity]).
    rewrite !flat_map_nil.
    unfold anterior, siguiente, nav_link, is_active. cbn [List.filter li_class].
    destruct (p =? 1), (p =? T); reflexivity.
  - unfold anterior, nav_link. cbn [li_class].
    destruct (Z.eqb_spec p 1); split; intros H; try assumption; try reflexivity;
      try discriminate; contradiction.
  - unfold siguiente, nav_link. cbn [li_class].
    destruct (Z.eqb_spec p T); split; intros H; try assumption; try reflexivity;
      try discriminate; contradiction.
Qed.

Lemma one_active_entry_witness :
  List.filter is_active (pagination_items 3 8) = [number_link true 3].
Proof. apply (one_active_entry 3 8); lia. Defined.

(** Every entry of the window is the ellipsis or the link of a page. *)
Lemma page_number_items_In p T it :
  In it (page_number_items p T) ->
  it = ellipsis \/ exists i, 1 <= i <= T /\ it = number_link (i =? p) i.
Proof.
  rewrite page_number_items_flat_map, in_flat_map.
  intros (i & Hi & Hit). apply Zbetween_In in Hi. revert Hit. unfold page_entry.
  destruct ((i =? 1) || (i =? T) || (p - 2 <=? i) && (i <=? p + 2)).
  - intros [<-|[]]. right. exists i. split; [lia|reflexivity].
  - destruct ((i =? p - 3) || (i =? p + 3)); [|intros []].
    intros [<-|[]]. left. reflexivity.
Qed.

(** X11. Every numbered link that is rendered leads where its label says:
    its text is the decimal form of a page number in [1, totalPages], its
    [data-page] parses back to that number, and a click on it makes that
    page the current one. *)
Theorem numbered_links_lead_to_their_label (p T : Z) (it : PageItem) :
  In it (page_number_items p T) -> it <> ellipsis ->
  exists i,
    1 <= i <= T
    /\ text it = JS.Number_toString i
    /\ JS.parseInt (JS.ToString (data_page it)) = Some i
    /\ forall s, totalPages s = T -> currentPage (snd (page_link_click it s)) = i.
Proof.
  intros Hin Hne. destruct (page_number_items_In p T it Hin) as [->|(i & Hi & ->)];
    [contradiction|].
  exists i. split; [exact Hi|]. split; [reflexivity|].
  split; [apply number_link_target|].
  intros s HT. rewrite (page_link_click_in_range _ s i (number_link_target _ i))
    by (rewrite HT; exact Hi).
  destruct ((renderTable;; updatePagination) (set_currentPage s i)) as [c s1] eqn:Hrun.
  apply (render_frame _ _ _ Hrun).
Qed.

Lemma numbered_links_lead_to_their_label_witness :
  exists i,
    text (number_link false 7) = JS.Number_toString i
    /\ JS.parseInt (JS.ToString (data_page (number_link false 7))) = Some i.
Proof.
  destruct (numbered_links_lead_to_their_label 5 12 (number_link false 7))
    as (i & _ & Htext & Hparse & _).
  - vm_compute. tauto.
  - discriminate.
  - exists i. split; [exact Htext|exact Hparse].
Defined.

(** *** Moving between pages *)

(** Rendering another page and then the first one again is rendering the
    first one. *)
Lemma render_back s q :
  snd ((renderTable;; updatePagination)
         (set_currentPage (snd ((renderTable;; updatePagination) (set_currentPage s q)))
                          (currentPage s)))
  = snd ((renderTable;; updatePagination) s).
Proof.
  destruct s as [data page total overlay tb pg info d p t e eff].
  unfold renderTable, updatePagination, set_paginationInfo_textContent. unfold_monad.
  destruct tb, pg, info, data;
    cbn -[JS.ceil_div pagination_items pagination_info_text table_html JS.slice];
    reflexivity.
Qed.

(** A page in step with its variables is what rendering would make it. *)
Lemma in_sync_rendered s :
  in_sync s -> currentData s <> [] -> snd ((renderTable;; updatePagination) s) = s.
Proof.
  destruct s as [data page total overlay tb pg info d p t e eff].
  unfold in_sync. cbn [currentData currentPage totalPages tbody pagination pagination_info].
  intros (_ & _ & Hloaded) Hne. destruct (Hloaded Hne) as (_ & Htb & HT & Hboth).
  clear Hloaded. unfold table_html in Htb. cbn [currentData currentPage] in Htb.
  unfold renderTable, table_html, updatePagination, set_paginationInfo_textContent. unfold_monad.
  destruct data as [|r data]; [congruence|].
  destruct tb as [tb|], pg as [pg|], info as [info|];
    cbn -[JS.ceil_div pagination_items pagination_info_text JS.slice JS.join] in *;
    try (injection Htb as Htb);
    try (specialize (HT (ex_intro _ _ eq_refl)));
    try (destruct (Hboth (ex_intro _ _ eq_refl) (ex_intro _ _ eq_refl)) as [Hpg Hinfo];
         injection Hpg as Hpg; injection Hinfo as Hinfo);
    try (destruct HT; destruct H; discriminate);
    repeat match goal with
           | H : is_Some None -> _ |- _ => clear H
           end;
    subst; try reflexivity.
Qed.

Lemma set_currentPage_same s : set_currentPage s (currentPage s) = s.
Proof. destruct s; reflexivity. Qed.

(** X12. Once records are loaded, a click on the link of the page that is
    already current changes nothing at all: the page is rendered again and
    comes out the same. *)
Theorem click_on_current_page (doc : Page) (es : list Occurrence) :
  let s := session doc es in
  currentData s <> [] ->
  occur s (Clicks (number_link true (currentPage s))) = s.
Proof.
  intros s Hne. pose proof (session_in_sync doc es) as Hs. fold s in Hs.
  unfold occur.
  destruct (Z_le_dec (currentPage s) (totalPages s)) as [Hle|Hgt].
  - rewrite (page_link_click_in_range _ s (currentPage s) (number_link_target _ _))
      by (destruct Hs as (H1 & _); lia).
    rewrite set_currentPage_same. apply in_sync_rendered; assumption.
  - rewrite page_link_click_out_of_range; [reflexivity|].
    intros n Hn. rewrite number_link_target in Hn. injection Hn as <-. lia.
Qed.

Lemma click_on_current_page_witness :
  occur (session full_document [Answers (HttpResponse true (Some fifteen_records))])
        (Clicks (number_link true 1))
  = session full_document [Answers (HttpResponse true (Some fifteen_records))].
Proof.
  apply (click_on_current_page full_document
           [Answers (HttpResponse true (Some fifteen_records))]).
  vm_compute. discriminate.
Defined.

(** X13. While records are loaded and the current page is not the last,
    "Siguiente" moves one page forward, and "Anterior" as rendered there
    brings back exactly the page the user came from: same variables, same
    table, same links. *)
Theorem siguiente_then_anterior (doc : Page) (es : list Occurrence) :
  let s := session doc es in
  let p := currentPage s in
  let T := totalPages s in
  currentData s <> [] -> p < T ->
  let s1 := occur s (Clicks (siguiente p T)) in
  currentPage s1 = p + 1
  /\ occur s1 (Clicks (anterior (p + 1))) = s.
Proof.
  intros s p T Hne HpT s1.
  pose proof (session_in_sync doc es) as Hs. fold s in Hs.
  pose proof Hs as (H1 & H0 & Hloaded). fold p in H1. fold T in H0.
  destruct (Hloaded Hne) as (_ & _ & HT & _). fold T in HT.
  assert (Hpg : is_Some (pagination s)).
  { destruct (pagination s); [eauto|]. specialize (H0 eq_refl). lia. }
  specialize (HT Hpg).
  assert (Hs1 : s1 = snd ((renderTable;; updatePagination) (set_currentPage s (p + 1)))).
  { subst s1. unfold occur, siguiente.
    rewrite (page_link_click_in_range _ s (p + 1) (nav_link_target _ _ _)) by (fold T; lia).
    reflexivity. }
  destruct ((renderTable;; updatePagination) (set_currentPage s (p + 1)))
    as [c1 s1'] eqn:Hrun1.
  cbn [snd] in Hs1.
  pose proof (render_result _ _ _ Hrun1) as (Hd1 & Hp1 & _ & Hpgn & _ & _ & HT1 & _).
  cbn [currentData currentPage pagination set_currentPage] in Hd1, Hp1, Hpgn, HT1.
  specialize (HT1 Hpg Hne).
  split; [rewrite Hs1; exact Hp1|].
  unfold occur, anterior.
  rewrite (page_link_click_in_range _ s1 (p + 1 - 1) (nav_link_target _ _ _))
    by (rewrite Hs1, HT1, <- HT; lia).
  replace (p + 1 - 1) with (currentPage s) by (fold p; lia).
  rewrite Hs1. replace s1' with (snd ((renderTable;; updatePagination)
                                        (set_currentPage s (p + 1))))
    by (rewrite Hrun1; reflexivity).
  rewrite render_back. apply in_sync_rendered; assumption.
Qed.

Lemma siguiente_then_anterior_witness :
  let s := session full_document [Answers (HttpResponse true (Some fifteen_records))] in
  occur (occur s (Clicks (siguiente 1 2))) (Clicks (anterior (1 + 1))) = s.
Proof.
  intros s.
  apply (siguiente_then_anterior full_document
           [Answers (HttpResponse true (Some fifteen_records))]).
  - vm_compute. discriminate.
  - vm_compute. reflexivity.
Defined.

(** *** The query string *)

Lemma chars_append a b : chars (a +:+ b) = chars a ++ chars b.
Proof.
  unfold chars. induction a as [|c a IH]; [reflexivity|].
  simpl. f_equal. exact IH.
Qed.

Lemma encode_char_safe c :
  forallb url_safe (chars (JS.join (map URLSearchParams.encode_byte (URLSearchParams.utf8 c))))
  = true.
Proof.
  destruct c as [[] [] [] [] [] [] [] []]; vm_compute; reflexivity.
Qed.

Lemma encode_safe s : forallb url_safe (chars (URLSearchParams.encode s)) = true.
Proof.
  induction s as [|c s IH]; [reflexivity|].
  cbn [URLSearchParams.encode]. rewrite chars_append, forallb_app, encode_char_safe, IH.
  reflexivity.
Qed.

Lemma decode_encode_char c rest :
  decode (JS.join (map URLSearchParams.encode_byte (URLSearchParams.utf8 c)) +:+ rest)
  = String c (decode rest).
Proof.
  destruct c as [[] [] [] [] [] [] [] []]; reflexivity.
Qed.

Lemma decode_encode s : decode (URLSearchParams.encode s) = s.
Proof.
  induction s as [|c s IH]; [reflexivity|].
  cbn [URLSearchParams.encode]. rewrite decode_encode_char, IH. reflexivity.
Qed.

Example encode_samples :
  URLSearchParams.encode "LA LIBERTAD" = "LA+LIBERTAD"
  /\ URLSearchParams.encode "a&b=c" = "a%26b%3Dc"
  /\ URLSearchParams.encode (String (ascii_of_N 205) "N") = "%C3%8DN"
  /\ decode "%C3%8DN+1%2B" = String (ascii_of_N 205) "N 1+".
Proof. repeat split; reflexivity. Qed.

Lemma append_cancel_l p a b : p +:+ a = p +:+ b -> a = b.
Proof. induction p as [|c p IH]; simpl; [auto|]. intros H. injection H as H. auto. Qed.

(** A string is cut at the first occurrence of a separator in one way. *)
Lemma split_unique c a a' r r' :
  ~ In c (chars a) -> ~ In c (chars a') ->
  a +:+ String c r = a' +:+ String c r' -> a = a' /\ r = r'.
Proof.
  revert a'. induction a as [|x a IH]; intros [|x' a'] Ha Ha'; cbn.
  - intros [= ->]. auto.
  - intros [= -> _]. exfalso. apply Ha'. left. reflexivity.
  - intros [= -> _]. exfalso. apply Ha. left. reflexivity.
  - intros [= -> H]. destruct (IH a') as [-> ->]; auto.
    + intros Hin. apply Ha. right. exact Hin.
    + intros Hin. apply Ha'. right. exact Hin.
Qed.

Lemma no_separator c a a' r' :
  ~ In c (chars a) -> a <> a' +:+ String c r'.
Proof.
  intros Ha ->. apply Ha. rewrite chars_append. apply in_or_app. right. left. reflexivity.
Qed.

Lemma encode_no c v :
  url_safe c = false -> ~ In c (chars (URLSearchParams.encode v)).
Proof.
  intros Hc Hin.
  pose proof (proj1 (forallb_forall _ _) (encode_safe v) c Hin). congruence.
Qed.

Lemma encode_pair_no_amp nv : ~ In "&"%char (chars (encode_pair nv)).
Proof.
  unfold encode_pair. rewrite !chars_append. intros Hin.
  apply in_app_or in Hin. destruct Hin as [Hin|Hin].
  - revert Hin. apply encode_no. reflexivity.
  - apply in_app_or in Hin. destruct Hin as [[Heq|[]]|Hin]; [discriminate|].
    revert Hin. apply encode_no. reflexivity.
Qed.

Lemma encode_pair_inj nv nv' : encode_pair nv = encode_pair nv' -> nv = nv'.
Proof.
  destruct nv as [n v], nv' as [n' v']. unfold encode_pair. cbn [fst snd].
  intros H.
  destruct (split_unique "="%char (URLSearchParams.encode n) (URLSearchParams.encode n')
              (URLSearchParams.encode v) (URLSearchParams.encode v')) as [Hn Hv].
  - apply encode_no. reflexivity.
  - apply encode_no. reflexivity.
  - exact H.
  - f_equal.
    + rewrite <- (decode_encode n), <- (decode_encode n'), Hn. reflexivity.
    + rewrite <- (decode_encode v), <- (decode_encode v'), Hv. reflexivity.
Qed.

Lemma toString_cons nv ps :
  URLSearchParams.toString (nv :: ps)
  = match ps with
    | [] => encode_pair nv
    | _ => encode_pair nv +:+ String "&" (URLSearchParams.toString ps)
    end.
Proof. destruct ps; reflexivity. Qed.

Lemma toString_inj ps ps' :
  URLSearchParams.toString ps = URLSearchParams.toString ps' -> ps = ps'.
Proof.
  revert ps'. induction ps as [|nv ps IH]; intros [|nv' ps'].
  - reflexivity.
  - intros H. exfalso.
    assert (Ht : JS.truthy (URLSearchParams.toString (nv' :: ps')) = true)
      by (apply toString_truthy; discriminate).
    rewrite <- H in Ht. discriminate.
  - intros H. exfalso.
    assert (Ht : JS.truthy (URLSearchParams.toString (nv :: ps)) = true)
      by (apply toString_truthy; discriminate).
    rewrite H in Ht. discriminate.
  - rewrite !toString_cons. destruct ps as [|nv2 ps], ps' as [|nv2' ps'].
    + intros H. apply encode_pair_inj in H. congruence.
    + intros H. exfalso. revert H. apply no_separator, encode_pair_no_amp.
    + intros H. exfalso. symmetry in H. revert H. apply no_separator, encode_pair_no_amp.
    + intros H. apply split_unique in H; try apply encode_pair_no_amp.
      destruct H as [Hnv Hrest]. apply encode_pair_inj in Hnv. apply IH in Hrest.
      congruence.
Qed.

Lemma request_url_params filters :
  request_url filters
  = endpoint +:+ match request_params filters with
                 | [] => EmptyString
                 | ps => "?" +:+ URLSearchParams.toString ps
                 end.
Proof.
  unfold request_url. destruct (request_params filters) as [|nv ps] eqn:E.
  - reflexivity.
  - rewrite toString_truthy by discriminate. reflexivity.
Qed.

Lemma request_params_values filters :
  param_value "departamento" (request_params filters)
  = JS.or_empty (filter_departamento filters)
  /\ param_value "provincia" (request_params filters)
     = JS.or_empty (filter_provincia filters)
  /\ param_value "distrito" (request_params filters)
     = JS.or_empty (filter_distrito filters).
Proof.
  destruct filters as [[[|a d]|] [[|b p]|] [[|c t]|]]; repeat split; reflexivity.
Qed.

(** X15. For region values made of code units below U+0100, which are the
    strings of this development, the URL of a request tells which values
    it was made for: two calls of [fetchData] that ask for the same URL
    were given the same departamento, the same provincia and the same
    distrito, a missing or empty value counting as none.  Nothing is said
    of values with code units from U+0100 on; among those the serializer
    writes a lone surrogate as it writes U+FFFD. *)
Theorem request_url_determines_filters (f f' : Filters) :
  request_url f = request_url f' ->
  request_params f = request_params f'
  /\ JS.or_empty (filter_departamento f) = JS.or_empty (filter_departamento f')
  /\ JS.or_empty (filter_provincia f) = JS.or_empty (filter_provincia f')
  /\ JS.or_empty (filter_distrito f) = JS.or_empty (filter_distrito f').
Proof.
  intros H. rewrite !request_url_params in H. apply append_cancel_l in H.
  assert (Hps : request_params f = request_params f').
  { destruct (request_params f) as [|nv ps] eqn:E, (request_params f') as [|nv' ps'] eqn:E';
      try reflexivity; try discriminate.
    apply (append_cancel_l "?") in H. apply toString_inj, H. }
  split; [exact Hps|].
  destruct (request_params_values f) as (Hd & Hp & Ht).
  destruct (request_params_values f') as (Hd' & Hp' & Ht').
  rewrite <- Hd, <- Hp, <- Ht, <- Hd', <- Hp', <- Ht', Hps. auto.
Qed.

Lemma request_url_determines_filters_witness :
  JS.or_empty (Some EmptyString) = JS.or_empty None.
Proof.
  apply (request_url_determines_filters
           {| filter_departamento := Some EmptyString; filter_provincia := Some "LIMA";
              filter_distrito := None |}
           {| filter_departamento := None; filter_provincia := Some "LIMA";
              filter_distrito := Some EmptyString |}).
  reflexivity.
Defined.

(** *** Answers that carry no usable records *)

(** X16. A response with a success status whose body does not parse as
    JSON is handled like a failed request: one alert, the overlay hidden,
    and no variable, element or selector changed. *)
Theorem unparsable_body_is_a_failure (s : Page) (filters : Filters) :
  exists s',
    fetchData filters (HttpResponse true None) s = (Normal tt, s')
    /\ effects s'
       = effects s ++ [Fetch (request_url filters); ConsoleError SyntaxError;
                       Alert alert_text]
    /\ same_view s s'
    /\ departamento s' = departamento s /\ provincia s' = provincia s
    /\ distrito s' = distrito s /\ tipoEstablecimiento s' = tipoEstablecimiento s
    /\ loadingOverlay_d_none s' = true.
Proof.
  eexists. split.
  { rewrite fetchData_split. unfold mbind, JSM_bind. rewrite fetchData_start_run.
    apply (fetchData_resume_rejected (HttpResponse true None) SyntaxError). reflexivity. }
  cbn. rewrite <- app_assoc. repeat split.
Qed.

Lemma updateSelect_no_values el :
  updateSelect el (Set_values (filter_Boolean [])) = (fun _ => todos) <$> el.
Proof.
  destruct el as [sel|]; [|reflexivity].
  unfold updateSelect, select_set_value, todos.
  cbn [Set_values filter_Boolean flat_map fold_left sort fold_right sel_options sel_value
       existsb snd fmap option_fmap option_map orb].
  destruct (String.eqb_spec EmptyString (sel_value sel)) as [<-|_]; reflexivity.
Qed.

(** X17. An answer with no record at all empties the table and resets
    every selector to the single option "Todos", dropping whatever was
    selected, while links, info text and [totalPages] stay as they were
    because [updatePagination] returns early on an empty set. *)
Theorem empty_answer_resets_selectors (s : Page) (filters : Filters) :
  exists s',
    fetchData filters (HttpResponse true (Some [])) s = (Normal tt, s')
    /\ currentData s' = [] /\ currentPage s' = 1
    /\ tbody s' = (fun _ => empty_table) <$> tbody s
    /\ departamento s' = (fun _ => todos) <$> departamento s
    /\ provincia s' = (fun _ => todos) <$> provincia s
    /\ distrito s' = (fun _ => todos) <$> distrito s
    /\ tipoEstablecimiento s' = (fun _ => todos) <$> tipoEstablecimiento s
    /\ pagination s' = pagination s
    /\ pagination_info s' = pagination_info s
    /\ totalPages s' = totalPages s.
Proof.
  rewrite fetchData_split. unfold mbind at 1, JSM_bind at 1. rewrite fetchData_start_run.
  set (s0 := set_effects (set_loadingOverlay_d_none s false)
               (effects s ++ [Fetch (request_url filters)])).
  destruct (render_normal (set_currentPage (set_currentData s0 []) 1)) as [s2 Hrun];
    [right; left; reflexivity|].
  pose proof (render_frame _ _ _ Hrun) as (Hd & Hp & _ & _ & Hdep & Hprov & Hdist & Htipo & _).
  pose proof (render_result _ _ _ Hrun) as (_ & _ & Htb & _ & _ & Hskip & _).
  destruct (Hskip (or_intror eq_refl)) as (HT & Hpg & Hi).
  cbn in Hd, Hp, Hdep, Hprov, Hdist, Htipo, Htb, HT, Hpg, Hi.
  rewrite (fetchData_resume_ok [] s0 (Normal tt) s2 Hrun).
  eexists. split; [reflexivity|].
  cbn [currentData currentPage tbody departamento provincia distrito tipoEstablecimiento
       pagination pagination_info totalPages set_loadingOverlay_d_none
       with_filter_options set_selects].
  rewrite Hd, Hp, Hdep, Hprov, Hdist, Htipo, Hpg, Hi, HT, Htb.
  cbn [map]. rewrite !updateSelect_no_values.
  repeat split.
Qed.

(** *** The rows of the table *)

Lemma slice_window {A} (arr : list A) start :
  exists before after,
    arr = before ++ JS.slice arr start (start + itemsPerPage) ++ after
    /\ (length (JS.slice arr start (start + itemsPerPage)) <= 10)%nat.
Proof.
  unfold JS.slice, itemsPerPage.
  set (len := Z.of_nat (length arr)).
  set (k := if start <? 0 then Z.max (len + start) 0 else Z.min start len).
  set (final := if start + 10 <? 0 then Z.max (len + (start + 10)) 0
                else Z.min (start + 10) len).
  exists (take (Z.to_nat k) arr), (drop (Z.to_nat (final - k)) (drop (Z.to_nat k) arr)).
  split.
  - rewrite take_drop, take_drop. reflexivity.
  - rewrite length_take. subst k final.
    destruct (Z.ltb_spec start 0), (Z.ltb_spec (start + 10) 0); lia.
Qed.

(** X18. Whatever value [currentPage] has, zero and negative ones
    included, [renderTable] fills the table body with the rows of one
    contiguous run of at most ten loaded records, in their order. *)
Theorem table_rows_are_a_window (s : Page) (tb : string) :
  tbody s = Some tb ->
  exists before rows after,
    currentData s = before ++ rows ++ after
    /\ (length rows <= 10)%nat
    /\ renderTable s = (Normal tt, set_tbody s (Some (JS.join (map row_html rows)))).
Proof.
  intros Htb.
  destruct (slice_window (currentData s) ((currentPage s - 1) * itemsPerPage))
    as (before & after & Hsplit & Hlen).
  exists before. eexists. exists after.
  split; [exact Hsplit|]. split; [exact Hlen|].
  rewrite renderTable_run, Htb. reflexivity.
Qed.

Lemma table_rows_are_a_window_witness :
  exists before rows after,
    currentData fifteen_on_page_two = before ++ rows ++ after
    /\ (length rows <= 10)%nat.
Proof.
  destruct (table_rows_are_a_window fifteen_on_page_two EmptyString eq_refl)
    as (before & rows & after & Hsplit & Hlen & _).
  exists before, rows, after. split; [exact Hsplit|exact Hlen].
Defined.

Example rows_for_odd_pages :
  let data := [1; 2; 3; 4; 5; 6; 7; 8; 9; 10; 11; 12; 13; 14; 15; 16; 17; 18; 19; 20;
               21; 22; 23; 24; 25] in
  JS.slice data ((0 - 1) * 10) ((0 - 1) * 10 + 10) = []
  /\ JS.slice data ((-1 - 1) * 10) ((-1 - 1) * 10 + 10)
     = [6; 7; 8; 9; 10; 11; 12; 13; 14; 15]
  /\ JS.slice data ((4 - 1) * 10) ((4 - 1) * 10 + 10) = [].
Proof. repeat split; reflexivity. Qed.

(** *** The adapter callback *)

(** X19. Running the CORS callback again changes nothing: it overwrites
    the same three headers with the same values, whatever request it is
    called for. *)
Theorem callback_idempotent {Request : Type} (req req' : Request)
    (res : Server.ServerResponse) :
  Server.callback req' (Server.callback req res) = Server.callback req res.
Proof.
  cors_names. f_equal.
  apply map_eq. intros k.
  destruct (decide (k = "access-control-allow-headers")) as [E1|H1],
    (decide (k = "access-control-allow-methods")) as [E2|H2],
    (decide (k = "access-control-allow-origin")) as [E3|H3];
    try congruence; try subst k;
    repeat first [rewrite lookup_insert_eq | rewrite lookup_insert_ne by congruence];
    reflexivity.
Qed.

(** *** The requests of a session *)

Lemma updateSelect_is_Some el options : is_Some el -> is_Some (updateSelect el options).
Proof. intros [sel ->]. cbn. eauto. Qed.

Lemma request_url_to_endpoint filters : request_to_endpoint (Fetch (request_url filters)).
Proof. exists filters. eexists. split; [reflexivity|apply request_url_params]. Qed.

Lemma occur_effects s e :
  region_selectors_present s ->
  exists more,
    effects (occur s e) = effects s ++ more
    /\ Forall request_to_endpoint more
    /\ List.filter is_fetch more = expected_request s e
    /\ region_selectors_present (occur s e).
Proof.
  intros ([d Hd] & [p Hp] & [t Ht]).
  assert (Hpresent : region_selectors_present s) by (unfold region_selectors_present; eauto).
  destruct e as [r v|v|target|net]; unfold occur; cbn [expected_request].
  - unfold chosen. cbn [region_element]. rewrite Hd, Hp, Ht.
    rewrite <- request_url_expected.
    unfold change_region_start, region_change_start, element_value, fetchData_start,
      showLoading.
    unfold_monad.
    destruct r; cbn [region_element set_region_element value_after]; rewrite ?Hd, ?Hp, ?Ht;
      cbn; rewrite ?Hd, ?Hp, ?Ht; cbn;
      (eexists; split; [reflexivity|]; split;
       [constructor; [apply request_url_to_endpoint|constructor]|];
       split; [reflexivity|]; unfold region_selectors_present; cbn;
       rewrite ?Hd, ?Hp, ?Ht; eauto).
  - exists []. rewrite app_nil_r.
    destruct (tipoEstablecimiento s) as [sel|] eqn:Hsel.
    2:{ unfold change_tipoEstablecimiento. unfold_monad. rewrite Hsel.
        repeat split; try constructor; apply Hpresent. }
    rewrite (change_tipoEstablecimiento_run s sel v Hsel), tipoEstablecimiento_change_run.
    match goal with
    | |- context [(renderTable;; updatePagination) ?s0] =>
        destruct ((renderTable;; updatePagination) s0) as [c s1] eqn:Hrun
    end.
    pose proof (render_frame _ _ _ Hrun) as (_ & _ & He & _ & Hd1 & Hp1 & Hd2 & _).
    cbn [snd]. unfold region_selectors_present. rewrite He, Hd1, Hp1, Hd2.
    destruct (JS.truthy v); cbn; rewrite Hd, Hp, Ht; repeat split; eauto.
  - exists []. rewrite app_nil_r.
    destruct (JS.parseInt (JS.ToString (data_page target))) as [n|] eqn:Hparse.
    2:{ rewrite page_link_click_out_of_range by (intros n Hn; congruence).
        repeat split; try constructor; apply Hpresent. }
    destruct (Z_le_dec 1 n) as [Hn1|Hn1], (Z_le_dec n (totalPages s)) as [HnT|HnT].
    2, 3, 4: rewrite page_link_click_out_of_range
      by (intros m Hm; rewrite Hparse in Hm; injection Hm as <-; lia);
      repeat split; try constructor; apply Hpresent.
    rewrite (page_link_click_in_range target s n Hparse) by lia.
    destruct ((renderTable;; updatePagination) (set_currentPage s n)) as [c s1] eqn:Hrun.
    pose proof (render_frame _ _ _ Hrun) as (_ & _ & He & _ & Hd1 & Hp1 & Hd2 & _).
    cbn [snd]. unfold region_selectors_present. rewrite He, Hd1, Hp1, Hd2.
    cbn. rewrite Hd, Hp, Ht. repeat split; eauto.
  - destruct (rejection net) as [e|] eqn:Hrej.
    + rewrite (fetchData_resume_rejected net e s Hrej).
      exists [ConsoleError e; Alert alert_text]. cbn.
      repeat split; try (repeat constructor); try apply Hpresent.
    + destruct net as [|[] [data|]]; try discriminate.
      destruct ((renderTable;; updatePagination) (set_currentPage (set_currentData s data) 1))
        as [c s2] eqn:Hrun.
      pose proof (render_frame _ _ _ Hrun) as (_ & _ & He & _ & Hd1 & Hp1 & Hd2 & _).
      cbn in He, Hd1, Hp1, Hd2.
      rewrite (fetchData_resume_ok data s c s2 Hrun).
      destruct c as [[]|e].
      * exists []. rewrite app_nil_r. unfold region_selectors_present. cbn.
        rewrite He, Hd1, Hp1, Hd2.
        repeat split; try constructor; apply updateSelect_is_Some; apply Hpresent.
      * exists [ConsoleError e; Alert alert_text]. unfold region_selectors_present. cbn.
        rewrite He, Hd1, Hp1, Hd2.
        repeat split; try (repeat constructor); apply Hpresent.
Qed.

Lemma expected_requests_length s es :
  length (expected_requests s es) = length (List.filter is_region_pick es).
Proof.
  revert s. induction es as [|e es IH]; intros s; [reflexivity|].
  cbn [expected_requests List.filter]. rewrite length_app, IH.
  destruct e; reflexivity.
Qed.

Lemma fold_occur_effects es s :
  region_selectors_present s ->
  exists more,
    effects (fold_left occur es s) = effects s ++ more
    /\ Forall request_to_endpoint more
    /\ List.filter is_fetch more = expected_requests s es.
Proof.
  revert s. induction es as [|e es IH]; intros s Hs; cbn [fold_left expected_requests].
  - exists []. rewrite app_nil_r. repeat split. constructor.
  - destruct (occur_effects s e Hs) as (m1 & He1 & Hall1 & Hn1 & Hs1).
    destruct (IH (occur s e) Hs1) as (m2 & He2 & Hall2 & Hn2).
    exists (m1 ++ m2). rewrite He2, He1, <- app_assoc.
    split; [reflexivity|]. split; [apply Forall_app; auto|].
    rewrite List.filter_app, Hn1, Hn2. reflexivity.
Qed.

(** A pick in a region selector leaves its value there and the values of
    the other two as they were. *)
Lemma region_values_after_pick s r v :
  region_selectors_present s ->
  region_values (occur s (PicksRegion r v))
  = (Some (chosen s r v Departamento), Some (chosen s r v Provincia),
     Some (chosen s r v Distrito)).
Proof.
  intros ([d Hd] & [p Hp] & [t Ht]). unfold occur, region_values, chosen.
  cbn [region_element]. rewrite Hd, Hp, Ht.
  unfold change_region_start, region_change_start, element_value, fetchData_start,
    showLoading.
  unfold_monad.
  destruct r; cbn [region_element set_region_element value_after]; rewrite ?Hd, ?Hp, ?Ht;
    cbn; rewrite ?Hd, ?Hp, ?Ht; cbn; rewrite ?Hd, ?Hp, ?Ht; reflexivity.
Qed.

(** A pick of an establishment type and a click leave all three. *)
Lemma region_values_kept s e :
  match e with PicksTipo _ | Clicks _ => True | _ => False end ->
  region_values (occur s e) = region_values s.
Proof.
  destruct e as [r v|v|target|net]; intros []; unfold occur, region_values.
  - destruct (tipoEstablecimiento s) as [sel|] eqn:Hsel.
    2:{ unfold change_tipoEstablecimiento. unfold_monad. rewrite Hsel. reflexivity. }
    rewrite (change_tipoEstablecimiento_run s sel v Hsel), tipoEstablecimiento_change_run.
    match goal with
    | |- context [(renderTable;; updatePagination) ?s0] =>
        destruct ((renderTable;; updatePagination) s0) as [c s1] eqn:Hrun
    end.
    pose proof (render_frame _ _ _ Hrun) as (_ & _ & _ & _ & Hd1 & Hp1 & Hd2 & _).
    cbn [snd]. rewrite Hd1, Hp1, Hd2.
    destruct (JS.truthy v); reflexivity.
  - destruct (JS.parseInt (JS.ToString (data_page target))) as [n|] eqn:Hparse.
    2:{ rewrite page_link_click_out_of_range by (intros n Hn; congruence). reflexivity. }
    destruct (Z_le_dec 1 n) as [Hn1|Hn1], (Z_le_dec n (totalPages s)) as [HnT|HnT].
    2, 3, 4: rewrite page_link_click_out_of_range
      by (intros m Hm; rewrite Hparse in Hm; injection Hm as <-; lia);
      reflexivity.
    rewrite (page_link_click_in_range target s n Hparse) by lia.
    destruct ((renderTable;; updatePagination) (set_currentPage s n)) as [c s1] eqn:Hrun.
    pose proof (render_frame _ _ _ Hrun) as (_ & _ & _ & _ & Hd1 & Hp1 & Hd2 & _).
    cbn [snd]. rewrite Hd1, Hp1, Hd2. reflexivity.
Qed.

(** X20. In a document with the three region selectors, a session issues
    the initial request for the bare endpoint and then exactly one request
    per choice in a region selector, in the order of the choices.  The
    request of a choice is for the endpoint with the query string of the
    three values selected at that moment, the chosen one among them:
    [departamento], [provincia], [distrito] in this order, each present
    when its value is not empty.  Clicks, establishment-type changes and
    answers, failed ones included, never issue a request, so nothing is
    retried. *)
Theorem session_requests (doc : Page) (es : list Occurrence) :
  region_selectors_present doc ->
  exists added,
    effects (session doc es) = effects doc ++ Fetch endpoint :: added
    /\ Forall request_to_endpoint added
    /\ List.filter is_fetch added = expected_requests (session doc []) es
    /\ length (List.filter is_fetch added) = length (List.filter is_region_pick es).
Proof.
  intros Hdoc. unfold session. cbn [fold_left]. rewrite fetchData_start_run. cbn [snd].
  match goal with
  | |- context [fold_left occur es ?s0] =>
      destruct (fold_occur_effects es s0) as (more & He & Hall & Hn)
  end.
  { exact Hdoc. }
  exists more. rewrite He. cbn [effects set_effects]. rewrite <- app_assoc.
  repeat split; try assumption.
  rewrite Hn. apply expected_requests_length.
Qed.

Lemma session_requests_witness :
  exists added,
    effects (session full_document
               [PicksRegion Departamento "LIMA"; Clicks (number_link false 2);
                PicksRegion Provincia "HUAURA"; Answers NetworkError; PicksTipo "GRIFO";
                PicksRegion Departamento EmptyString])
    = Fetch endpoint :: added
    /\ List.filter is_fetch added
       = [Fetch (endpoint +:+ "?departamento=LIMA");
          Fetch (endpoint +:+ "?departamento=LIMA&provincia=HUAURA");
          Fetch (endpoint +:+ "?provincia=HUAURA")].
Proof.
  destruct (session_requests full_document
              [PicksRegion Departamento "LIMA"; Clicks (number_link false 2);
               PicksRegion Provincia "HUAURA"; Answers NetworkError; PicksTipo "GRIFO";
               PicksRegion Departamento EmptyString])
    as (added & He & _ & Hreq & _).
  - unfold region_selectors_present. cbn. eauto.
  - exists added. split; [exact He|].
    rewrite Hreq. vm_compute. reflexivity.
Defined.

(** *** Documents that lack an element *)

(** X21. In a document that lacks one of the three region selectors, a
    choice in one of the others is recorded in that selector but its
    listener throws a [TypeError] while reading the values, before
    [fetchData] is called: no request goes out and the overlay is not
    shown. *)
Theorem region_pick_without_sibling (s : Page) (r : Region) (v : string) (net : Response)
    (sel : Select) :
  region_element r s = Some sel ->
  ~ region_selectors_present s ->
  change_region r v net s
  = (Throw (TypeError "Cannot read properties of null (reading 'value')"),
     set_region_element r (Some (choose v sel)) s).
Proof.
  intros Hr Hmissing.
  unfold change_region, region_change, element_value. unfold_monad. rewrite Hr.
  unfold region_selectors_present in Hmissing.
  destruct r; cbn [region_element set_region_element] in *;
    destruct (departamento s) as [d|] eqn:Hd, (provincia s) as [p|] eqn:Hp,
      (distrito s) as [t|] eqn:Ht;
    try discriminate; try (exfalso; apply Hmissing; eauto; fail);
    cbn; rewrite ?Hd, ?Hp, ?Ht; reflexivity.
Qed.

Lemma region_pick_without_sibling_witness :
  change_region Departamento "LIMA" NetworkError document_without_provincia
  = (Throw (TypeError "Cannot read properties of null (reading 'value')"),
     set_region_element Departamento (Some (choose "LIMA" todos))
       document_without_provincia).
Proof.
  apply (region_pick_without_sibling document_without_provincia Departamento "LIMA"
           NetworkError todos).
  - reflexivity.
  - intros (_ & [p Hp] & _). discriminate.
Defined.

(** X22. In a document with the pagination container but without the info
    element, every load that brings records is reported as a failure
    although it succeeded: the records are stored and the table shows
    their first page, but [updatePagination] throws, the [catch] clause
    alerts, and the links and the four selectors are left as they were. *)
Theorem load_without_info_element (s : Page) (filters : Filters)
    (data : list PriceRecord) (items : list PageItem) :
  pagination s = Some items -> pagination_info s = None -> data <> [] ->
  exists s',
    fetchData filters (HttpResponse true (Some data)) s = (Normal tt, s')
    /\ currentData s' = data /\ currentPage s' = 1
    /\ totalPages s' = JS.ceil_div (Z.of_nat (length data)) 10
    /\ tbody s' = (fun _ => JS.join (map row_html (take 10 data))) <$> tbody s
    /\ effects s'
       = effects s
         ++ [Fetch (request_url filters);
             ConsoleError (TypeError "Cannot set properties of null (setting 'textContent')");
             Alert alert_text]
    /\ pagination s' = Some items
    /\ departamento s' = departamento s /\ provincia s' = provincia s
    /\ distrito s' = distrito s /\ tipoEstablecimiento s' = tipoEstablecimiento s
    /\ loadingOverlay_d_none s' = true.
Proof.
  intros Hpg Hi Hne.
  rewrite fetchData_split. unfold mbind at 1, JSM_bind at 1. rewrite fetchData_start_run.
  set (s0 := set_effects (set_loadingOverlay_d_none s false)
               (effects s ++ [Fetch (request_url filters)])).
  set (s1 := set_currentPage (set_currentData s0 data) 1).
  set (s2 := match tbody s1 with Some _ => set_tbody s1 (Some (table_html s1)) | None => s1 end).
  assert (Hrun : (renderTable;; updatePagination) s1
                 = (Throw (TypeError "Cannot set properties of null (setting 'textContent')"),
                    set_totalPages s2
                      (JS.ceil_div (Z.of_nat (length (currentData s2))) itemsPerPage))).
  { unfold mbind, JSM_bind. rewrite renderTable_run. fold s2.
    apply (updatePagination_throw s2 items); subst s2 s1 s0; cbn;
      destruct (tbody s); assumption. }
  rewrite (fetchData_resume_ok data s0 _ _ Hrun).
  eexists. split; [reflexivity|].
  assert (H2 : currentData s2 = data /\ currentPage s2 = 1
               /\ tbody s2 = (fun _ => table_html s1) <$> tbody s
               /\ effects s2 = effects s ++ [Fetch (request_url filters)]
               /\ pagination s2 = pagination s
               /\ departamento s2 = departamento s /\ provincia s2 = provincia s
               /\ distrito s2 = distrito s /\ tipoEstablecimiento s2 = tipoEstablecimiento s).
  { subst s2 s1 s0. cbn. destruct (tbody s) eqn:E; cbn; rewrite ?E; repeat split. }
  destruct H2 as (Hd & Hp & Htb & He & Hpg2 & Hs1 & Hs2 & Hs3 & Hs4).
  cbn [currentData currentPage totalPages tbody effects pagination departamento provincia
       distrito tipoEstablecimiento loadingOverlay_d_none set_loadingOverlay_d_none
       with_alert set_effects set_totalPages].
  rewrite Hd, Hp, Htb, He, Hpg2, Hs1, Hs2, Hs3, Hs4, Hpg.
  rewrite (table_html_first s1) by reflexivity.
  rewrite <- app_assoc. repeat split.
Qed.

Lemma load_without_info_element_witness :
  exists s',
    fetchData no_filters (HttpResponse true (Some fifteen_records)) document_without_info
    = (Normal tt, s')
    /\ currentData s' = fifteen_records
    /\ List.filter is_alert (effects s') = [Alert alert_text].
Proof.
  destruct (load_without_info_element document_without_info no_filters fifteen_records [])
    as (s' & Hrun & Hd & _ & _ & _ & He & _); [reflexivity|reflexivity|discriminate|].
  exists s'. split; [exact Hrun|]. split; [exact Hd|]. rewrite He. reflexivity.
Defined.
